(** * dahua-vto example scripts: session store, credential hash, login handshake

    A shallow embedding of [examples/python/_session_util.py] and of the
    authentication part of [examples/python/get_id.py], with the properties
    of the session store, of the double-MD5 credential digest and of the
    two-step login.

    Python values are modelled as follows.
    - [str] is a list of Unicode code points ([pystr]); [bytes] is a list of
      integers in [0, 255].
    - A value produced by [Response.json()] is a [json]; [None] is [JNull].
    - A function that prints, reads the console, posts a request or touches
      a file is a state transformer over a [world]; an exception is a result
      [Exc e], and [try]/[except] is an explicit handler. *)

From Stdlib Require Import ZArith List Bool String Ascii Lia SpecFloat.
Import ListNotations.

Local Open Scope Z_scope.

(* ================================================================== *)
(** * Strings and bytes *)
(* ================================================================== *)

(** A Python [str]: its code points, each in [0, 0x10FFFF]. *)
Definition pystr := list Z.

(** A Python [bytes] object: its octets. *)
Definition bytes := list Z.

Definition str_eqb (a b : pystr) : bool :=
  if list_eq_dec Z.eq_dec a b then true else false.

Module UTF8.

(** The [utf-8] codec in its default [strict] mode.  [encode] refuses
    lone surrogates; [decode] refuses stray continuation bytes, truncated
    and overlong sequences, surrogates and values above U+10FFFF. *)

Definition encode_point (c : Z) : option bytes :=
  if c <? 0 then None
  else if c <? 0x80 then Some [c]
  else if c <? 0x800 then Some [0xC0 + c / 64; 0x80 + c mod 64]
  else if c <? 0x10000 then
    if (0xD800 <=? c) && (c <=? 0xDFFF) then None
    else Some [0xE0 + c / 4096; 0x80 + (c / 64) mod 64; 0x80 + c mod 64]
  else if c <? 0x110000 then
    Some [0xF0 + c / 262144; 0x80 + (c / 4096) mod 64;
          0x80 + (c / 64) mod 64; 0x80 + c mod 64]
  else None.

Fixpoint encode (s : pystr) : option bytes :=
  match s with
  | [] => Some []
  | c :: s' =>
      match encode_point c, encode s' with
      | Some b, Some bs => Some (b ++ bs)
      | _, _ => None
      end
  end.

Definition continuation (b : Z) : bool := (0x80 <=? b) && (b <=? 0xBF).

Definition cons_point (c : Z) (r : option pystr) : option pystr :=
  match r with Some s => Some (c :: s) | None => None end.

Fixpoint decode (bs : bytes) : option pystr :=
  match bs with
  | [] => Some []
  | b0 :: r0 =>
      if b0 <? 0 then None
      else if b0 <? 0x80 then cons_point b0 (decode r0)
      else if b0 <? 0xC2 then None
      else if b0 <? 0xE0 then
        match r0 with
        | b1 :: r1 =>
            if continuation b1
            then cons_point ((b0 - 0xC0) * 64 + (b1 - 0x80)) (decode r1)
            else None
        | _ => None
        end
      else if b0 <? 0xF0 then
        match r0 with
        | b1 :: b2 :: r2 =>
            let c := (b0 - 0xE0) * 4096 + (b1 - 0x80) * 64 + (b2 - 0x80) in
            if continuation b1 && continuation b2
               && (0x800 <=? c) && negb ((0xD800 <=? c) && (c <=? 0xDFFF))
            then cons_point c (decode r2)
            else None
        | _ => None
        end
      else if b0 <? 0xF5 then
        match r0 with
        | b1 :: b2 :: b3 :: r3 =>
            let c := (b0 - 0xF0) * 262144 + (b1 - 0x80) * 4096
                     + (b2 - 0x80) * 64 + (b3 - 0x80) in
            if continuation b1 && continuation b2 && continuation b3
               && (0x10000 <=? c) && (c <? 0x110000)
            then cons_point c (decode r3)
            else None
        | _ => None
        end
      else None
  end.

End UTF8.

(** The octets of a Rocq string literal. *)
Definition octets (s : string) : bytes :=
  map (fun a => Z.of_N (N_of_ascii a)) (list_ascii_of_string s).

(** A Python string literal of the scripts, written as it is in the source
    file (which is UTF-8). *)
Definition py (s : string) : pystr :=
  match UTF8.decode (octets s) with
  | Some l => l
  | None => []
  end.

(** The line feed, ["\n"]. *)
Definition LF : pystr := [10].

(** ** [str.strip()] *)

(** [str.isspace] on one code point: the ASCII white space of
    [_Py_ascii_whitespace] and the Unicode characters of bidirectional
    type WS, B or S. *)
Definition is_space (c : Z) : bool :=
  ((0x09 <=? c) && (c <=? 0x0D)) || ((0x1C <=? c) && (c <=? 0x20))
  || (c =? 0x85) || (c =? 0xA0) || (c =? 0x1680)
  || ((0x2000 <=? c) && (c <=? 0x200A))
  || (c =? 0x2028) || (c =? 0x2029) || (c =? 0x202F) || (c =? 0x205F)
  || (c =? 0x3000).

Fixpoint lstrip (s : pystr) : pystr :=
  match s with
  | [] => []
  | c :: s' => if is_space c then lstrip s' else s
  end.

Definition rstrip (s : pystr) : pystr := rev (lstrip (rev s)).

Definition strip (s : pystr) : pystr := rstrip (lstrip s).

(** ** [str.upper()] on a hexdigest *)

(** [hashlib]'s [hexdigest()] is made of the characters [0-9a-f]; on such a
    string [str.upper()] maps [a-f] to [A-F] and keeps the digits. *)
Definition upper_point (c : Z) : Z :=
  if (0x61 <=? c) && (c <=? 0x7A) then c - 0x20 else c.

Definition upper (s : pystr) : pystr := map upper_point s.

(* ================================================================== *)
(** * MD5 (RFC 1321), as [hashlib.md5(data).hexdigest()] *)
(* ================================================================== *)

Module MD5.

Definition mask32 : Z := 0xFFFFFFFF.

Definition add32 (a b : Z) : Z := Z.land (a + b) mask32.

Definition not32 (a : Z) : Z := Z.lxor a mask32.

Definition rotl32 (x n : Z) : Z :=
  Z.lor (Z.land (Z.shiftl x n) mask32) (Z.shiftr x (32 - n)).

(** The sine table: [K i = floor (2^32 * abs (sin (i + 1)))]. *)
Definition K : list Z :=
  [ 0xd76aa478; 0xe8c7b756; 0x242070db; 0xc1bdceee;
    0xf57c0faf; 0x4787c62a; 0xa8304613; 0xfd469501;
    0x698098d8; 0x8b44f7af; 0xffff5bb1; 0x895cd7be;
    0x6b901122; 0xfd987193; 0xa679438e; 0x49b40821;
    0xf61e2562; 0xc040b340; 0x265e5a51; 0xe9b6c7aa;
    0xd62f105d; 0x02441453; 0xd8a1e681; 0xe7d3fbc8;
    0x21e1cde6; 0xc33707d6; 0xf4d50d87; 0x455a14ed;
    0xa9e3e905; 0xfcefa3f8; 0x676f02d9; 0x8d2a4c8a;
    0xfffa3942; 0x8771f681; 0x6d9d6122; 0xfde5380c;
    0xa4beea44; 0x4bdecfa9; 0xf6bb4b60; 0xbebfbc70;
    0x289b7ec6; 0xeaa127fa; 0xd4ef3085; 0x04881d05;
    0xd9d4d039; 0xe6db99e5; 0x1fa27cf8; 0xc4ac5665;
    0xf4292244; 0x432aff97; 0xab9423a7; 0xfc93a039;
    0x655b59c3; 0x8f0ccc92; 0xffeff47d; 0x85845dd1;
    0x6fa87e4f; 0xfe2ce6e0; 0xa3014314; 0x4e0811a1;
    0xf7537e82; 0xbd3af235; 0x2ad7d2bb; 0xeb86d391 ].

(** Per-round left rotations. *)
Definition S : list Z :=
  [ 7; 12; 17; 22; 7; 12; 17; 22; 7; 12; 17; 22; 7; 12; 17; 22;
    5;  9; 14; 20; 5;  9; 14; 20; 5;  9; 14; 20; 5;  9; 14; 20;
    4; 11; 16; 23; 4; 11; 16; 23; 4; 11; 16; 23; 4; 11; 16; 23;
    6; 10; 15; 21; 6; 10; 15; 21; 6; 10; 15; 21; 6; 10; 15; 21 ].

Record state := State { sa : Z; sb : Z; sc : Z; sd : Z }.

Definition init : state :=
  State 0x67452301 0xefcdab89 0x98badcfe 0x10325476.

(** Message padding: a [0x80] octet, zeros up to 56 modulo 64, and the
    bit length as a 64-bit little-endian integer. *)
Definition le_bytes (n : nat) (x : Z) : bytes :=
  map (fun i => Z.land (Z.shiftr x (8 * Z.of_nat i)) 0xFF) (seq 0 n).

Definition pad (msg : bytes) : bytes :=
  let len := Z.of_nat (List.length msg) in
  let zeros := Z.to_nat ((55 - len) mod 64) in
  msg ++ [0x80] ++ repeat 0 zeros ++ le_bytes 8 (Z.land (8 * len) 0xFFFFFFFFFFFFFFFF).

Definition le_word (b0 b1 b2 b3 : Z) : Z :=
  b0 + Z.shiftl b1 8 + Z.shiftl b2 16 + Z.shiftl b3 24.

Fixpoint words (bs : bytes) : list Z :=
  match bs with
  | b0 :: b1 :: b2 :: b3 :: r => le_word b0 b1 b2 b3 :: words r
  | _ => []
  end.

Definition round (M : list Z) (st : state) (i : nat) : state :=
  let '(State a b c d) := st in
  let zi := Z.of_nat i in
  let '(f, g) :=
    if zi <? 16 then (Z.lor (Z.land b c) (Z.land (not32 b) d), zi)
    else if zi <? 32 then
      (Z.lor (Z.land d b) (Z.land (not32 d) c), (5 * zi + 1) mod 16)
    else if zi <? 48 then (Z.lxor b (Z.lxor c d), (3 * zi + 5) mod 16)
    else (Z.lxor c (Z.lor b (not32 d)), (7 * zi) mod 16) in
  let f' := add32 (add32 (add32 f a) (nth i K 0)) (nth (Z.to_nat g) M 0) in
  State d (add32 b (rotl32 f' (nth i S 0))) b c.

Definition block (st : state) (M : list Z) : state :=
  let st' := fold_left (round M) (seq 0 64) st in
  State (add32 (sa st) (sa st')) (add32 (sb st) (sb st'))
        (add32 (sc st) (sc st')) (add32 (sd st) (sd st')).

Fixpoint blocks (n : nat) (ws : list Z) (st : state) : state :=
  match n with
  | O => st
  | Datatypes.S n' => blocks n' (skipn 16 ws) (block st (firstn 16 ws))
  end.

(** [hashlib.md5(msg).digest()] *)
Definition digest (msg : bytes) : bytes :=
  let ws := words (pad msg) in
  let st := blocks (List.length ws / 16) ws init in
  le_bytes 4 (sa st) ++ le_bytes 4 (sb st)
  ++ le_bytes 4 (sc st) ++ le_bytes 4 (sd st).

Definition hex_digit (n : Z) : Z := if n <? 10 then 0x30 + n else 0x57 + n.

(** [hashlib.md5(msg).hexdigest()]: lower-case hexadecimal. *)
Definition hexdigest (msg : bytes) : pystr :=
  flat_map (fun b => [hex_digit (b / 16); hex_digit (b mod 16)]) (digest msg).

End MD5.

(* ================================================================== *)
(** * Python values, exceptions and the world *)
(* ================================================================== *)

(** What [Response.json()] returns: [None], [bool], [int], [float], [str],
    [list] or [dict] with string keys (insertion order kept, one binding
    per key). *)
#[warnings="-register-all"]
Inductive json :=
| JNull
| JBool (b : bool)
| JInt (n : Z)
| JFloat (x : spec_float)
| JStr (s : pystr)
| JArr (items : list json)
| JObj (fields : list (pystr * json)).

(** Truth value of an object, as [if v], [not v], [a or b] and [all] use it. *)
Definition truthy (v : json) : bool :=
  match v with
  | JNull => false
  | JBool b => b
  | JInt n => negb (n =? 0)
  | JFloat (S754_zero _) => false
  | JFloat _ => true
  | JStr s => match s with [] => false | _ => true end
  | JArr l => match l with [] => false | _ => true end
  | JObj o => match o with [] => false | _ => true end
  end.

(** [key in d] and [d.get(key)] on a [dict]. *)
Fixpoint dict_find {A : Type} (k : pystr) (d : list (pystr * A)) : option A :=
  match d with
  | [] => None
  | (k', v) :: d' => if str_eqb k k' then Some v else dict_find k d'
  end.

Definition dict_get_or {A : Type} (d : list (pystr * A)) (k : pystr) (dflt : A) : A :=
  match dict_find k d with Some v => v | None => dflt end.

(** [d.get(key)], whose default is [None]. *)
Definition dict_get (d : list (pystr * json)) (k : pystr) : json :=
  dict_get_or d k JNull.

Inductive exn :=
| FileNotFoundError
| OSError (msg : pystr)            (* any other [OSError] *)
| UnicodeDecodeError
| UnicodeEncodeError
| LookupError                      (* unknown encoding *)
| AttributeError
| EOFError
| RuntimeError (msg : pystr)
| RequestException (msg : pystr)   (* [requests.exceptions.RequestException] *)
| JSONDecodeError                  (* [json.JSONDecodeError] *)
| SystemExit (code : Z).

(** [isinstance(e, OSError)] *)
Definition is_OSError (e : exn) : bool :=
  match e with FileNotFoundError | OSError _ => true | _ => false end.

(** [isinstance(e, Exception)]: everything here but [SystemExit]. *)
Definition is_Exception (e : exn) : bool :=
  match e with SystemExit _ => false | _ => true end.

(** State of one path of the file system.  [data] is [None] when there is
    no such file.  [read_error] and [write_error] are the [OSError], if
    any, that [open(path, "r")] and [open(path, "w")] meet (permissions,
    a directory in the way, a read-only volume); an [OSError] is raised
    by [open], not later. *)
Record file := File {
  data : option bytes;
  read_error : option pystr;
  write_error : option pystr
}.

(** A piece of a printed line: literal text, [str(v)] of a value,
    [json.dumps(v)] (with [indent=4, ensure_ascii=False] when [pretty]),
    or [str(e)] of an exception. *)
Inductive frag :=
| Txt (s : pystr)
| Val (v : json)
| Dumps (pretty : bool) (v : json)
| Err (e : exn).

Inductive event :=
| Printed (line : list frag)            (* [print]; the line is the pieces joined *)
| Partial (line : list frag)            (* a [print] that raised: the pieces written before *)
| Asked (prompt : pystr)                (* [input(prompt)] *)
| Posted (url : pystr) (payload : json) (* [requests.post(url, data=json.dumps(payload))] *).

(** The world a script runs in: the file system; the lines still to come
    on standard input; what the device will answer, request after request
    (a parsed body, or the exception that [post], [raise_for_status] or
    [json()] raises); and what the script has done on the console and on
    the network, oldest first. *)
Record world := World {
  files : pystr -> file;
  stdin : list pystr;
  replies : list (exn + json);
  trace : list event
}.

Inductive result (A : Type) :=
| Ret (a : A)
| Exc (e : exn).
Arguments Ret {A} a.
Arguments Exc {A} e.

Definition M (A : Type) : Type := world -> result A * world.

Definition ret {A : Type} (a : A) : M A := fun w => (Ret a, w).

Definition raise {A : Type} (e : exn) : M A := fun w => (Exc e, w).

Definition bind {A B : Type} (m : M A) (k : A -> M B) : M B :=
  fun w =>
    match m w with
    | (Ret a, w') => k a w'
    | (Exc e, w') => (Exc e, w')
    end.

(** [try: body  except ...: handler].  [handlers e] is the body of the first
    [except] clause that matches [e], if one does. *)
Definition try_except {A : Type} (body : M A) (handlers : exn -> option (M A)) : M A :=
  fun w =>
    match body w with
    | (Ret a, w') => (Ret a, w')
    | (Exc e, w') =>
        match handlers e with
        | Some h => h w'
        | None => (Exc e, w')
        end
    end.

Declare Scope py_scope.
Delimit Scope py_scope with py.
Notation "x <- m ;; k" := (bind m (fun x => k))
  (at level 61, m at next level, right associativity) : py_scope.
Notation "m ;; k" := (bind m (fun _ => k))
  (at level 61, right associativity) : py_scope.
Local Open Scope py_scope.

(** ** Console, network and files *)

Definition emit (e : event) : M unit :=
  fun w => (Ret tt, World (files w) (stdin w) (replies w) (trace w ++ [e])).

Definition print (line : list frag) : M unit := emit (Printed line).

(** Standard output encodes what it is given (UTF-8, strict), and [print]
    raises [UnicodeEncodeError] on a string that has no encoding, one with
    a lone surrogate in it.  What the scripts print of their own can be shown:
    their literals, the paths, and what the user typed on that console or
    stored as UTF-8; for these [print] is as above.  What a device answers
    is another matter: the JSON escape [\ud800] makes a lone surrogate,
    and [json.dumps(v, ensure_ascii=False)] writes every string of [v],
    the keys included, as it is.  [printable v]: that text can be
    encoded. *)
Definition encodable (s : pystr) : bool :=
  match UTF8.encode s with Some _ => true | None => false end.

Fixpoint printable (v : json) : bool :=
  match v with
  | JStr s => encodable s
  | JArr items => forallb printable items
  | JObj fields => forallb (fun '(k, x) => encodable k && printable x) fields
  | _ => true
  end.

(** [print(label, json.dumps(v, indent=4, ensure_ascii=False))] for an
    answer [v] of a device.  [print] writes its arguments one by one: when
    the text of [v] cannot be encoded the label has been written, the line
    is not ended, and [UnicodeEncodeError] is raised. *)
Definition print_response (label : pystr) (v : json) : M unit :=
  if printable v then print [Txt label; Dumps true v]
  else emit (Partial [Txt label]) ;; raise UnicodeEncodeError.

(** [input(prompt)]: the next line of standard input, [EOFError] at its end. *)
Definition input (prompt : pystr) : M pystr :=
  fun w =>
    let tr := trace w ++ [Asked prompt] in
    match stdin w with
    | [] => (Exc EOFError, World (files w) [] (replies w) tr)
    | l :: rest => (Ret l, World (files w) rest (replies w) tr)
    end.

(** [r = requests.post(url, ...); r.raise_for_status(); r.json()].
    A device that answers nothing times out. *)
Definition post (url : pystr) (payload : json) : M json :=
  fun w =>
    let tr := trace w ++ [Posted url payload] in
    match replies w with
    | [] => (Exc (RequestException (py "timed out")), World (files w) (stdin w) [] tr)
    | inl e :: rest => (Exc e, World (files w) (stdin w) rest tr)
    | inr v :: rest => (Ret v, World (files w) (stdin w) rest tr)
    end.

Definition set_file (fs : pystr -> file) (path : pystr) (f : file) : pystr -> file :=
  fun p => if str_eqb p path then f else fs p.

Inductive platform := Posix | Windows.

(** Text mode, reading: [\r\n] and a lone [\r] both become [\n]. *)
Fixpoint universal_newlines (s : pystr) : pystr :=
  match s with
  | [] => []
  | c :: s' =>
      if c =? 13 then
        match s' with
        | d :: s'' => if d =? 10 then 10 :: universal_newlines s''
                      else 10 :: universal_newlines s'
        | [] => [10]
        end
      else c :: universal_newlines s'
  end.

(** Text mode, writing: [\n] becomes [os.linesep]. *)
Definition write_newlines (os : platform) (s : pystr) : pystr :=
  match os with
  | Posix => s
  | Windows => flat_map (fun c => if c =? 10 then [13; 10] else [c]) s
  end.

(** [with open(path, "r", encoding="utf-8") as f: f.read()] *)
Definition read_text (path : pystr) : M pystr :=
  fun w =>
    let f := files w path in
    match read_error f with
    | Some msg => (Exc (OSError msg), w)
    | None =>
        match data f with
        | None => (Exc FileNotFoundError, w)
        | Some bs =>
            match UTF8.decode bs with
            | None => (Exc UnicodeDecodeError, w)
            | Some s => (Ret (universal_newlines s), w)
            end
        end
    end.

(** [open(path, "w", encoding="utf-8")]: creates the file or empties it. *)
Definition open_w (path : pystr) : M unit :=
  fun w =>
    let f := files w path in
    match write_error f with
    | Some msg => (Exc (OSError msg), w)
    | None =>
        (Ret tt,
         World (set_file (files w) path (File (Some []) (read_error f) (write_error f)))
               (stdin w) (replies w) (trace w))
    end.

(** [f.write(s)] on a file opened by [open_w]; the file is closed when the
    [with] block is left, whichever way. *)
Definition write (os : platform) (path : pystr) (s : pystr) : M unit :=
  fun w =>
    let f := files w path in
    match UTF8.encode (write_newlines os s) with
    | None => (Exc UnicodeEncodeError, w)
    | Some bs =>
        let old := match data f with Some b => b | None => [] end in
        (Ret tt,
         World (set_file (files w) path
                  (File (Some (old ++ bs)) (read_error f) (write_error f)))
               (stdin w) (replies w) (trace w))
    end.

(** A codec as [str.encode(name)] finds it: [codec_encode] is [None] for a
    name that no codec has ([LookupError]); the function itself answers
    [None] on a string it cannot encode ([UnicodeEncodeError]). *)
Record codec := Codec {
  codec_name : pystr;
  codec_encode : option (pystr -> option bytes)
}.

Definition latin1_encode (s : pystr) : option bytes :=
  if forallb (fun c => (0 <=? c) && (c <? 256)) s then Some s else None.

Definition latin_1 : codec := Codec (py "latin-1") (Some latin1_encode).

Definition utf_8 : codec := Codec (py "utf-8") (Some UTF8.encode).

(** [s.encode(encoding)] *)
Definition encode (s : pystr) (encoding : codec) : M bytes :=
  match codec_encode encoding with
  | None => raise LookupError
  | Some enc =>
      match enc s with
      | None => raise UnicodeEncodeError
      | Some b => ret b
      end
  end.

(** Exit status of the interpreter when the script ends with [r]. *)
Definition exit_status (r : result unit) : Z :=
  match r with
  | Ret _ => 0
  | Exc (SystemExit code) => code
  | Exc _ => 1
  end.

(* ================================================================== *)
(** * The scripts *)
(* ================================================================== *)

Section Scripts.

(** The platform, for [os.linesep]. *)
Variable os : platform.

(** [str(v)] of a value that is not a [str], as an f-string inserts it. *)
Variable str_of : json -> pystr.

(** [str.lower()]. *)
Variable lower : pystr -> pystr.

(** [os.path.join(os.path.dirname(__file__), "session.txt")]; the two
    scripts live in one directory and name the same file. *)
Variable SESSION_FILE : pystr.

(** [get_id.py]'s dialogue for the credentials, which is not part of the
    login: any computation that yields a [dict] of strings. *)
Variable _get_credentials_interactive : M (list (pystr * pystr)).

(** [f"{v}"] *)
Definition format (v : json) : pystr :=
  match v with
  | JStr s => s
  | _ => str_of v
  end.

(** ** [_session_util.py] *)

Definition _read_session_from_file (path : pystr) : M (option pystr) :=
  try_except
    (text <- read_text path ;;
     let sid := strip text in
     ret (match sid with [] => None | _ => Some sid end))
    (fun e =>
       match e with
       | FileNotFoundError => Some (ret None)
       | OSError _ =>
           Some (print [Txt (py "Warning: cannot read session file '");
                        Txt path; Txt (py "': "); Err e] ;;
                 ret None)
       | _ => None
       end).

Definition _save_session_to_file (path : pystr) (session_id : pystr) : M unit :=
  try_except
    (open_w path ;;
     write os path (strip session_id ++ LF) ;;
     print [Txt (py "Saved session id to '"); Txt path; Txt (py "'.")])
    (fun e =>
       if is_OSError e
       then Some (print [Txt (py "Warning: cannot write session file '");
                         Txt path; Txt (py "': "); Err e])
       else None).

Definition yes_answers : list pystr := [py "y"; py "yes"; py "д"; py "да"].
Definition no_answers : list pystr := [py "n"; py "no"; py "н"; py "нет"].

(** The [while True] loop of [_prompt_yes_no], by recursion on the lines
    that standard input still holds; it returns the answer, the lines
    left and the events of the loop. *)
Fixpoint prompt_loop (prompt : pystr) (default : bool) (lines : list pystr)
  : result bool * list pystr * list event :=
  match lines with
  | [] => (Exc EOFError, [], [Asked prompt])
  | l :: rest =>
      let ans := lower (strip l) in
      if str_eqb ans [] then (Ret default, rest, [Asked prompt])
      else if existsb (str_eqb ans) yes_answers then (Ret true, rest, [Asked prompt])
      else if existsb (str_eqb ans) no_answers then (Ret false, rest, [Asked prompt])
      else
        let '(r, rest', evs) := prompt_loop prompt default rest in
        (r, rest',
         Asked prompt
         :: Printed [Txt (py "Please answer with 'y' or 'n' / Ответьте 'y' или 'n'.")]
         :: evs)
  end.

Definition _prompt_yes_no (question : pystr) (default : bool) : M bool :=
  fun w =>
    let suffix := if default then py "[Y/n]" else py "[y/N]" in
    let '(r, rest, evs) :=
      prompt_loop (question ++ py " " ++ suffix ++ py " ") default (stdin w) in
    (r, World (files w) rest (replies w) (trace w ++ evs)).

(** [interactive] defaults to [True]. *)
Definition ensure_session (interactive : bool) : M pystr :=
  existing <- _read_session_from_file SESSION_FILE ;;
  match existing with
  | Some sid => ret sid
  | None =>
      if negb interactive then
        raise (RuntimeError
                 (py "No session found. Run get_id.py first to create 'session.txt'."))
      else
        print [Txt (py "No 'session.txt' found or it's empty.")] ;;
        print [Txt (py "RU: Сначала запустите get_id.py, чтобы получить сессию.")] ;;
        print [Txt (py "EN: Please run get_id.py first to obtain a session id.")] ;;
        yes <- _prompt_yes_no
                 (py "Would you like to enter a session id manually now? / Ввести ID вручную сейчас?")
                 true ;;
        if yes then
          line <- input (py "Enter session id / Введите session id: ") ;;
          let sid := strip line in
          match sid with
          | [] => raise (RuntimeError (py "Empty session id. Aborting."))
          | _ =>
              _save_session_to_file SESSION_FILE sid ;;
              ret sid
          end
        else
          raise (RuntimeError (py "No session id provided. Run get_id.py to create one."))
  end.

(** The [__main__] block of [_session_util.py]. *)
Definition session_util_main : M unit :=
  try_except
    (sid <- ensure_session true ;;
     print [Txt (py "Session id: "); Txt sid] ;;
     print [Txt (py "Stored at: "); Txt SESSION_FILE])
    (fun e =>
       match e with
       | RuntimeError _ => Some (print [Txt (py "Error: "); Err e])
       | _ => None
       end).

(** ** [get_id.py] *)

(** [encoding] is [None] when the caller leaves the argument out; it then
    is ["latin-1"].  [realm] and [random_key] only occur inside
    f-strings, so the caller hands over their [format]. *)
Definition calculate_dahua_auth_hash
    (username password realm random_key : pystr) (encoding : option codec)
  : M pystr :=
  let encoding := match encoding with Some c => c | None => latin_1 end in
  print [Txt (py "--- Calculating hash with encoding: ");
         Txt (codec_name encoding); Txt (py " ---")] ;;
  let s1 := username ++ py ":" ++ realm ++ py ":" ++ password in
  b1 <- encode s1 encoding ;;
  let h1_lower := MD5.hexdigest b1 in
  let h1_upper := upper h1_lower in
  print [Txt (py "String 1 (user:realm:pass): "); Txt s1] ;;
  print [Txt (py "Hash 1 (MD5 of string 1):   "); Txt h1_lower] ;;
  print [Txt (py "Hash 1 (in UPPERCASE):      "); Txt h1_upper] ;;
  print [Txt (List.concat (repeat (py "-") 40))] ;;
  let s2 := username ++ py ":" ++ random_key ++ py ":" ++ h1_upper in
  b2 <- encode s2 encoding ;;
  let final_hash_upper := upper (MD5.hexdigest b2) in
  print [Txt (py "String 2 (user:random:HASH1_UPPER): "); Txt s2] ;;
  print [Txt (py "Final hash (MD5 of string 2):       "); Txt final_hash_upper] ;;
  ret final_hash_upper.

Definition _save_session (path : pystr) (session_id : json) : M unit :=
  try_except
    (open_w path ;;
     stripped <- match session_id with
                 | JStr s => ret (strip s)
                 | _ => raise AttributeError
                 end ;;
     write os path (stripped ++ LF) ;;
     print [Txt (py "Saved session id to '"); Txt path; Txt (py "'.")])
    (fun e =>
       if is_Exception e
       then Some (print [Txt (py "Warning: could not write session file '");
                         Txt path; Txt (py "': "); Err e])
       else None).

Definition payload_step1 (username : pystr) : json :=
  JObj [ (py "method", JStr (py "global.login"));
         (py "params", JObj [ (py "userName", JStr username);
                              (py "password", JStr []);
                              (py "clientType", JStr (py "Web3.0")) ]);
         (py "id", JInt 4) ].

Definition payload_step2 (username password_final_hash : pystr) (temp_session : json)
  : json :=
  JObj [ (py "method", JStr (py "global.login"));
         (py "params", JObj [ (py "userName", JStr username);
                              (py "password", JStr password_final_hash);
                              (py "clientType", JStr (py "Web3.0"));
                              (py "authorityType", JStr (py "Default"));
                              (py "passwordType", JStr (py "Default")) ]);
         (py "id", JInt 5);
         (py "session", temp_session) ].

(** The [try] around a request: the body on success, [None] when one of
    the two [except] clauses returned [None] from the function. *)
Definition request (url : pystr) (payload : json) (which : pystr) : M (option json) :=
  try_except
    (resp <- post url payload ;; ret (Some resp))
    (fun e =>
       match e with
       | RequestException _ =>
           Some (print [Txt (LF ++ py "⚠ Network error during the "); Txt which;
                        Txt (py " request: "); Err e] ;;
                 ret None)
       | JSONDecodeError =>
           Some (print [Txt (LF ++ py "⚠ Unexpected response (not JSON) during the ");
                        Txt which; Txt (py " request.")] ;;
                 ret None)
       | _ => None
       end).

(** Returns the session id, or [None] ([JNull]) on failure. *)
Definition login_and_get_session (ip username password : pystr) : M json :=
  let url := py "http://" ++ ip ++ py "/RPC2_Login" in
  (* Step 1: get challenge *)
  print [Txt (py "=== First request (challenge) ===")] ;;
  print [Txt (py "Request: "); Dumps true (payload_step1 username)] ;;
  r1 <- request url (payload_step1 username) (py "first") ;;
  match r1 with
  | None => ret JNull
  | Some resp1 =>
  print_response (py "Response: ") resp1 ;;
  (* Validate challenge response *)
  match resp1 with
  | JObj o1 =>
  if negb (truthy (dict_get o1 (py "result")))
     || match dict_find (py "params") o1 with None => true | Some _ => false end
  then
    print [Txt (py "Error: challenge not received or invalid response: "); Val resp1] ;;
    ret JNull
  else
  match dict_get o1 (py "params") with
  | JObj params1 =>
  let realm := dict_get params1 (py "realm") in
  let random_key := dict_get params1 (py "random") in
  let temp_session := dict_get o1 (py "session") in
  if negb (forallb truthy [realm; random_key; temp_session]) then
    print [Txt (py "Error: missing required fields in challenge response.")] ;;
    ret JNull
  else
  print [Txt (py "Received realm: "); Val realm] ;;
  print [Txt (py "Received random: "); Val random_key] ;;
  (* Step 2: compute hash and login *)
  password_final_hash <-
    calculate_dahua_auth_hash username password (format realm) (format random_key) None ;;
  let payload := payload_step2 username password_final_hash temp_session in
  print [Txt (LF ++ py "=== Second request (login with password) ===")] ;;
  print [Txt (py "Request: "); Dumps true payload] ;;
  print [Txt (py "Raw payload: "); Dumps false payload] ;;
  r2 <- request url payload (py "second") ;;
  match r2 with
  | None => ret JNull
  | Some resp2 =>
  print [Txt (LF ++ List.concat (repeat (py "=") 65))] ;;
  print_response (py "Response: ") resp2 ;;
  match resp2 with
  | JObj o2 =>
  if truthy (dict_get o2 (py "result")) then
    session_id <-
      (let top := dict_get o2 (py "session") in
       if truthy top then ret top
       else match dict_find (py "params") o2 with
            | None => ret JNull
            | Some (JObj params2) => ret (dict_get params2 (py "session"))
            | Some _ => raise AttributeError
            end) ;;
    print [Txt (LF ++ py "✅ Working session received: "); Val session_id] ;;
    _save_session SESSION_FILE session_id ;;
    ret session_id
  else
    print [Txt (LF ++ py "❌ Login error: "); Val resp2] ;;
    ret JNull
  | _ => raise AttributeError  (* [resp2.get]: not a [dict] *)
  end
  end
  | _ => raise AttributeError  (* [resp1["params"].get]: not a [dict] *)
  end
  | _ => raise AttributeError  (* [resp1.get]: not a [dict] *)
  end
  end.

(** The [__main__] block of [get_id.py]. *)
Definition get_id_main : M unit :=
  print [Txt (py "== Dahua VTO Login ==")] ;;
  creds <- _get_credentials_interactive ;;
  let ip := strip (dict_get_or creds (py "ip") []) in
  let username := strip (dict_get_or creds (py "username") []) in
  let password := dict_get_or creds (py "password") [] in
  if match ip with [] => true | _ => false end
     || match username with [] => true | _ => false end
     || match password with [] => true | _ => false end
  then
    print [Txt (py "✖ Missing IP, username, or password. Aborting.")] ;;
    raise (SystemExit 1)
  else
    session <- login_and_get_session ip username password ;;
    match session with
    | JNull => raise (SystemExit 2)
    | _ => ret tt
    end.

End Scripts.

(* ================================================================== *)
(** * The credentials of [get_id.py] *)
(* ================================================================== *)

(** [d[key] = value] on a [dict]: the value of a key that is there is
    replaced where it stands, a new key goes to the end. *)
Fixpoint dict_set {A : Type} (d : list (pystr * A)) (k : pystr) (v : A)
  : list (pystr * A) :=
  match d with
  | [] => [(k, v)]
  | (k', v') :: d' =>
      if str_eqb k k' then (k', v) :: d' else (k', v') :: dict_set d' k v
  end.

(** [s.startswith(prefix)] *)
Fixpoint startswith (prefix s : pystr) : bool :=
  match prefix, s with
  | [], _ => true
  | c :: prefix', d :: s' => (c =? d) && startswith prefix' s'
  | _ :: _, [] => false
  end.

(** [s.split(sep, 1)] for a separator of one character: the text before
    its first occurrence and the text after, or nothing when [sep] is not
    in [s]. *)
Fixpoint split_once (sep : Z) (s : pystr) : option (pystr * pystr) :=
  match s with
  | [] => None
  | c :: s' =>
      if c =? sep then Some ([], s')
      else match split_once sep s' with
           | Some (k, v) => Some (c :: k, v)
           | None => None
           end
  end.

(** The lines that iterating over a text file gives, each with its line
    feed, the last one maybe without; [cur] is the line begun. *)
Fixpoint file_lines (cur : pystr) (text : pystr) : list pystr :=
  match text with
  | [] => match cur with [] => [] | _ => [cur] end
  | c :: text' =>
      if c =? 10 then (cur ++ [c]) :: file_lines [] text'
      else file_lines (cur ++ [c]) text'
  end.

(** [os.path.exists(path)] *)
Definition path_exists (path : pystr) : M bool :=
  fun w => (Ret (match data (files w path) with Some _ => true | None => false end), w).

Module get_id.

Section Credentials.

(** The platform, for [os.linesep]. *)
Variable os : platform.

(** [str.lower()]. *)
Variable lower : pystr -> pystr.

(** [getpass.getpass(prompt)], which talks to the terminal rather than
    to standard input. *)
Variable getpass : pystr -> M pystr.

(** [os.makedirs(name, exist_ok=True)], [os.path.dirname] and
    [os.path.basename]. *)
Variable makedirs : pystr -> M unit.
Variable dirname : pystr -> pystr.
Variable basename : pystr -> pystr.

(** [os.path.join(os.path.dirname(__file__), "credentials.txt")] *)
Variable CREDENTIALS_FILE : pystr.

(** The body of the [for] loop of [_parse_kv_file]. *)
Definition parse_line (creds : list (pystr * pystr)) (line : pystr)
  : list (pystr * pystr) :=
  let line := strip line in
  if match line with [] => true | _ => false end || startswith (py "#") line
  then creds
  else
    match split_once 0x3D line with
    | Some (k, v) => dict_set creds (lower (strip k)) (strip v)
    | None => creds
    end.

Definition _parse_kv_file (path : pystr) : M (list (pystr * pystr)) :=
  text <- read_text path ;;
  ret (fold_left parse_line (file_lines [] text) []).

(** The [while True] loop of [_prompt_yes_no], by recursion on the lines
    that standard input still holds. *)
Fixpoint prompt_loop (prompt : pystr) (default : bool) (lines : list pystr)
  : result bool * list pystr * list event :=
  match lines with
  | [] => (Exc EOFError, [], [Asked prompt])
  | l :: rest =>
      let ans := lower (strip l) in
      if str_eqb ans [] then (Ret default, rest, [Asked prompt])
      else if existsb (str_eqb ans) [py "y"; py "yes"] then (Ret true, rest, [Asked prompt])
      else if existsb (str_eqb ans) [py "n"; py "no"] then (Ret false, rest, [Asked prompt])
      else
        let '(r, rest', evs) := prompt_loop prompt default rest in
        (r, rest',
         Asked prompt :: Printed [Txt (py "Please answer with 'y' or 'n'.")] :: evs)
  end.

Definition _prompt_yes_no (question : pystr) (default : bool) : M bool :=
  fun w =>
    let suffix := if default then py "[Y/n]" else py "[y/N]" in
    let '(r, rest, evs) :=
      prompt_loop (question ++ py " " ++ suffix ++ py " ") default (stdin w) in
    (r, World (files w) rest (replies w) (trace w ++ evs)).

(** [existing] is [None] or a [dict]. *)
Definition _prompt_credentials (existing : option (list (pystr * pystr)))
  : M (list (pystr * pystr)) :=
  let existing := match existing with Some d => d | None => [] end in
  let ip_default := dict_get_or existing (py "ip") [] in
  let user_default := dict_get_or existing (py "username") [] in
  line <- input (py "Device IP"
                 ++ match ip_default with
                    | [] => []
                    | _ => py " [" ++ ip_default ++ py "]"
                    end
                 ++ py ": ") ;;
  let ip := match strip line with [] => ip_default | s => s end in
  line <- input (py "Username"
                 ++ match user_default with
                    | [] => []
                    | _ => py " [" ++ user_default ++ py "]"
                    end
                 ++ py ": ") ;;
  let username := match strip line with [] => user_default | s => s end in
  pwd <- match dict_find (py "password") existing with
         | Some (c :: p) =>
             pwd <- getpass (py "Password (leave empty to keep the one from file): ") ;;
             ret (match strip pwd with [] => c :: p | _ => pwd end)
         | _ => getpass (py "Password: ")
         end ;;
  ret [ (py "ip", ip); (py "username", username); (py "password", pwd) ].

(** [creds[key]]; a [KeyError] is a [LookupError]. *)
Definition item (creds : list (pystr * pystr)) (key : pystr) : M pystr :=
  match dict_find key creds with
  | Some v => ret v
  | None => raise LookupError
  end.

Definition _save_credentials (path : pystr) (creds : list (pystr * pystr)) : M unit :=
  makedirs (dirname path) ;;
  open_w path ;;
  write os path (py "# Plaintext credentials for Dahua device" ++ LF) ;;
  ip <- item creds (py "ip") ;;
  write os path (py "ip=" ++ ip ++ LF) ;;
  username <- item creds (py "username") ;;
  write os path (py "username=" ++ username ++ LF) ;;
  password <- item creds (py "password") ;;
  write os path (py "password=" ++ password ++ LF).

(** [all(k in parsed for k in ("ip", "username", "password"))] *)
Definition complete (parsed : list (pystr * pystr)) : bool :=
  forallb (fun k => match dict_find k parsed with Some _ => true | None => false end)
    [py "ip"; py "username"; py "password"].

(** The [if os.path.exists] block: [inl creds] when the function returns
    from inside it, [inr creds_from_file] when it goes on. *)
Definition credentials_from_file
  : M (list (pystr * pystr) + option (list (pystr * pystr))) :=
  found <- path_exists CREDENTIALS_FILE ;;
  if found then
    try_except
      (parsed <- _parse_kv_file CREDENTIALS_FILE ;;
       if complete parsed then
         yes <- _prompt_yes_no
                  (py "Found '" ++ basename CREDENTIALS_FILE
                   ++ py "'. Use credentials from file?") true ;;
         if yes then ret (inl parsed) else ret (inr (Some parsed))
       else
         print [Txt (py "Credentials file '"); Txt CREDENTIALS_FILE;
                Txt (py "' is incomplete. You'll be prompted to fill in the fields.")] ;;
         ret (inr (Some parsed)))
      (fun e =>
         if is_Exception e
         then Some (print [Txt (py "Warning: could not read '"); Txt CREDENTIALS_FILE;
                           Txt (py "': "); Err e] ;;
                    ret (inr None))
         else None)
  else ret (inr None).

Definition _get_credentials_interactive : M (list (pystr * pystr)) :=
  from_file <- credentials_from_file ;;
  match from_file with
  | inl parsed => ret parsed
  | inr creds_from_file =>
      creds <- _prompt_credentials creds_from_file ;;
      _save_credentials CREDENTIALS_FILE creds ;;
      print [Txt (py "Saved credentials to '"); Txt CREDENTIALS_FILE; Txt (py "'.")] ;;
      ret creds
  end.

End Credentials.

End get_id.

(* ================================================================== *)
(** * Definitions used by the statements *)
(* ================================================================== *)

(** A string that does not start with white space. *)
Definition head_ok (s : pystr) : Prop :=
  match s with
  | [] => True
  | c :: _ => is_space c = false
  end.

(** [s or None] for a string [s]. *)
Definition nonempty (s : pystr) : option pystr :=
  match s with [] => None | _ => Some s end.

(** A file system with no file at all, and a world around it in which
    nothing has happened yet. *)
Definition no_files : pystr -> file := fun _ => File None None None.

Definition fresh (fs : pystr -> file) (lines : list pystr) (answers : list (exn + json)) : world :=
  World fs lines answers [].

Definition session_txt : pystr := py "session.txt".

(** ** The digest, in the words of the specification *)

(** [encode(s, encoding)]: nothing when the encoding does not exist or
    cannot represent [s]. *)
Definition spec_encode (s : pystr) (encoding : codec) : option bytes :=
  match codec_encode encoding with
  | Some enc => enc s
  | None => None
  end.

(** [derive(username, password, realm, randomKey, encoding)], steps 1 to 4
    of the specification. *)
Definition derive (username password realm randomKey : pystr) (encoding : codec)
  : option pystr :=
  let s1 := username ++ py ":" ++ realm ++ py ":" ++ password in
  match spec_encode s1 encoding with
  | None => None
  | Some e1 =>
      let h1 := upper (MD5.hexdigest e1) in
      let s2 := username ++ py ":" ++ randomKey ++ py ":" ++ h1 in
      match spec_encode s2 encoding with
      | None => None
      | Some e2 => Some (upper (MD5.hexdigest e2))
      end
  end.

(** ** The handshake *)

(** The requests that a trace holds, oldest first. *)
Definition requests_sent (tr : list event) : list (pystr * json) :=
  flat_map (fun e => match e with Posted url payload => [(url, payload)] | _ => [] end) tr.

(** The challenge response that [login_and_get_session] goes on with: an
    object with a true ["result"], an object under ["params"] whose
    ["realm"] and ["random"] are true, and a true ["session"] at the top
    level. *)
Definition challenge_ok (resp1 : json) : bool :=
  match resp1 with
  | JObj o1 =>
      truthy (dict_get o1 (py "result"))
      && match dict_find (py "params") o1 with
         | Some (JObj params1) =>
             truthy (dict_get params1 (py "realm"))
             && truthy (dict_get params1 (py "random"))
             && truthy (dict_get o1 (py "session"))
         | _ => false
         end
  | _ => false
  end.

(** A first answer that the validation of the challenge reads without
    raising: an object, and either its ["result"] is false or its
    ["params"] is an object or is not there. *)
Definition challenge_readable (resp1 : json) : bool :=
  match resp1 with
  | JObj o1 =>
      negb (truthy (dict_get o1 (py "result")))
      || match dict_find (py "params") o1 with
         | None | Some (JObj _) => true
         | Some _ => false
         end
  | _ => false
  end.

(** [resp["params"].get(key)], and [None] without ["params"]. *)
Definition params_field (resp : json) (key : pystr) : json :=
  match resp with
  | JObj o1 =>
      match dict_find (py "params") o1 with
      | Some (JObj params1) => dict_get params1 key
      | _ => JNull
      end
  | _ => JNull
  end.


(** [http://<ip>/RPC2_Login] *)
Definition login_url (ip : pystr) : pystr := py "http://" ++ ip ++ py "/RPC2_Login".

(** The events of the first request, up to the answer [resp1]. *)
Definition first_exchange (ip username : pystr) (resp1 : json) : list event :=
  [ Printed [Txt (py "=== First request (challenge) ===")];
    Printed [Txt (py "Request: "); Dumps true (payload_step1 username)];
    Posted (login_url ip) (payload_step1 username);
    Printed [Txt (py "Response: "); Dumps true resp1] ].

(** [str.lower()] on a string of ASCII letters, for the sample runs. *)
Definition lower_ascii (s : pystr) : pystr :=
  map (fun c => if (0x41 <=? c) && (c <=? 0x5A) then c + 0x20 else c) s.

(** [str(v)] left unspecified, for the sample runs, whose values are all
    strings. *)
Definition str_unused (v : json) : pystr := [].

(** The challenge of the specification's scenario and two answers to the
    second request. *)
Definition sample_challenge_fields : list (pystr * json) :=
  [ (py "result", JBool true);
    (py "params", JObj [ (py "realm", JStr (py "Login1"));
                         (py "random", JStr (py "123456")) ]);
    (py "session", JStr (py "abc")) ].

Definition sample_challenge : json := JObj sample_challenge_fields.



Definition sample_welcome_fields : list (pystr * json) :=
  [ (py "result", JBool true);
    (py "params", JObj [ (py "session", JStr (py "nested")) ]);
    (py "session", JStr (py "top")) ].

Definition sample_welcome : json := JObj sample_welcome_fields.



(** Three exit statuses that are not zero and differ from one another. *)
Definition distinct_nonzero (input_status login_status session_status : Z) : Prop :=
  input_status <> 0 /\ login_status <> 0 /\ session_status <> 0
  /\ input_status <> login_status /\ input_status <> session_status
  /\ login_status <> session_status.

(** Credentials as the dialogue of [get_id.py] hands them over. *)
Definition sample_creds : list (pystr * pystr) :=
  [ (py "ip", py "192.168.1.108"); (py "username", py "admin");
    (py "password", py "pass") ].

(** The banner that [get_id.py] prints first. *)
Definition banner : event := Printed [Txt (py "== Dahua VTO Login ==")].

(** [creds] lacks an IP address, a user name or a password. *)
Definition missing_input (creds : list (pystr * pystr)) : Prop :=
  strip (dict_get_or creds (py "ip") []) = []
  \/ strip (dict_get_or creds (py "username") []) = []
  \/ dict_get_or creds (py "password") [] = [].

(* ================================================================== *)
(** * Further definitions for statements *)
(* ================================================================== *)

(** An upper-case hexadecimal digit: [0-9] or [A-F]. *)
Definition upper_hex (c : Z) : Prop :=
  0x30 <= c <= 0x39 \/ 0x41 <= c <= 0x46.

(** What one line typed at the yes/no prompt of [_session_util.py] means:
    the default when blank, yes or no when it is one of the accepted
    answers once trimmed and lower-cased, nothing otherwise. *)
Definition answer (lower : pystr -> pystr) (default : bool) (line : pystr) : option bool :=
  let ans := lower (strip line) in
  if str_eqb ans [] then Some default
  else if existsb (str_eqb ans) yes_answers then Some true
  else if existsb (str_eqb ans) no_answers then Some false
  else None.

(** The prompt of [_prompt_yes_no] for a question. *)
Definition yes_no_prompt (question : pystr) (default : bool) : pystr :=
  question ++ py " " ++ (if default then py "[Y/n]" else py "[y/N]") ++ py " ".

(** What the console shows for a line that is no answer: the prompt, then
    the reminder. *)
Definition asked_again (question : pystr) (default : bool) : list event :=
  [ Asked (yes_no_prompt question default);
    Printed [Txt (py "Please answer with 'y' or 'n' / Ответьте 'y' или 'n'.")] ].

(** ** What a computation may do *)

(** [within n path m]: whatever the world and the outcome, [m] reads
    nothing from standard input, changes no file but [path], keeps the
    requests sent so far and sends at most [n] more. *)
Definition within (n : nat) (path : pystr) {A : Type} (m : M A) : Prop :=
  forall (w : world) (r : result A) (w' : world),
    m w = (r, w') ->
    stdin w' = stdin w
    /\ (forall p, p <> path -> files w' p = files w p)
    /\ exists sent,
        requests_sent (trace w') = requests_sent (trace w) ++ sent
        /\ (List.length sent <= n)%nat.

(** ** Credentials *)

(** A value that fits on one line of the credentials file: no line feed,
    no carriage return, and UTF-8 can encode it. *)
Definition one_line (v : pystr) : Prop :=
  ~ In 10 v /\ ~ In 13 v /\ UTF8.encode v <> None.

(** A key as [_save_credentials] writes it: it is not empty, begins
    neither with white space nor with [#], ends without white space and
    has no [=] in it. *)
Definition plain_key (key : pystr) : Prop :=
  key <> [] /\ head_ok key /\ head_ok (rev key)
  /\ startswith (py "#") key = false /\ ~ In 0x3D key.

(** The text that [_save_credentials] writes for three values. *)
Definition credentials_text (ip username password : pystr) : pystr :=
  (py "# Plaintext credentials for Dahua device" ++ LF)
  ++ (py "ip=" ++ ip ++ LF)
  ++ (py "username=" ++ username ++ LF)
  ++ (py "password=" ++ password ++ LF).

(** What one line of the credentials file assigns, if anything: the key,
    trimmed and lower-cased, and the value, trimmed. *)
Definition assignment (lower : pystr -> pystr) (line : pystr) : option (pystr * pystr) :=
  let line := strip line in
  if match line with [] => true | _ => false end || startswith (py "#") line
  then None
  else
    match split_once 0x3D line with
    | Some (k, v) => Some (lower (strip k), strip v)
    | None => None
    end.

(** The value that the last of the lines assigning [key] gives it. *)
Fixpoint last_assigned (lower : pystr -> pystr) (key : pystr) (lines : list pystr)
  : option pystr :=
  match lines with
  | [] => None
  | line :: lines' =>
      match last_assigned lower key lines' with
      | Some v => Some v
      | None =>
          match assignment lower line with
          | Some (k, v) => if str_eqb key k then Some v else None
          | None => None
          end
      end
  end.

(** What one line typed at the yes/no prompt of [get_id.py] means. *)
Definition get_id_answer (lower : pystr -> pystr) (default : bool) (line : pystr)
  : option bool :=
  let ans := lower (strip line) in
  if str_eqb ans [] then Some default
  else if existsb (str_eqb ans) [py "y"; py "yes"] then Some true
  else if existsb (str_eqb ans) [py "n"; py "no"] then Some false
  else None.

(** What the console of [get_id.py] shows for a line that is no answer. *)
Definition get_id_asked_again (prompt : pystr) : list event :=
  [ Asked prompt; Printed [Txt (py "Please answer with 'y' or 'n'.")] ].

(** The question of [get_id.py] about the credentials file, as prompt. *)
Definition reuse_prompt (name : pystr) : pystr :=
  (py "Found '" ++ name ++ py "'. Use credentials from file?")
  ++ py " " ++ py "[Y/n]" ++ py " ".

(** What [_parse_kv_file] makes of a text. *)
Definition parsed_text (lower : pystr -> pystr) (text : pystr) : list (pystr * pystr) :=
  fold_left (get_id.parse_line lower) (file_lines [] text) [].

(** ** A credentials file for the examples *)

Definition credentials_txt : pystr := py "credentials.txt".

Definition sample_credentials_text : pystr :=
  py "ip=10.0.0.7" ++ LF ++ py "username=admin" ++ LF ++ py "password=pw" ++ LF.

Definition sample_credentials_bytes : bytes :=
  octets "ip=10.0.0.7" ++ [10] ++ octets "username=admin" ++ [10]
  ++ octets "password=pw" ++ [10].

Definition with_credentials : pystr -> file :=
  set_file no_files credentials_txt (File (Some sample_credentials_bytes) None None).

(** ** Answers that cannot be shown *)

(** A code point that is a surrogate. *)
Definition surrogate (c : Z) : bool := (0xD800 <=? c) && (c <=? 0xDFFF).



(* ================================================================== *)
(** * Auxiliary lemmas *)
(* ================================================================== *)

Lemma Some_inj (A : Type) (a b : A) : Some a = Some b -> a = b.
Proof. now intros [= ->]. Qed.

Lemma str_eqb_refl (a : pystr) : str_eqb a a = true.
Proof. unfold str_eqb. destruct (list_eq_dec Z.eq_dec a a); congruence. Qed.

Lemma str_eqb_eq (a b : pystr) : str_eqb a b = true <-> a = b.
Proof.
  unfold str_eqb. destruct (list_eq_dec Z.eq_dec a b); split; congruence.
Qed.

(** ** The UTF-8 codec: decoding undoes encoding *)

Lemma split2 (c : Z) : 0x80 <= c < 0x800 ->
  exists q r, c / 64 = q /\ c mod 64 = r /\ c = 64 * q + r /\ 2 <= q < 32 /\ 0 <= r < 64.
Proof. intros. exists (c / 64), (c mod 64). Z.div_mod_to_equations. lia. Qed.

Lemma split3 (c : Z) : 0x800 <= c < 0x10000 ->
  exists q r1 r2, c / 4096 = q /\ (c / 64) mod 64 = r1 /\ c mod 64 = r2
    /\ c = 4096 * q + 64 * r1 + r2 /\ 0 <= q < 16 /\ 0 <= r1 < 64 /\ 0 <= r2 < 64.
Proof. intros. exists (c / 4096), ((c / 64) mod 64), (c mod 64). Z.div_mod_to_equations. lia. Qed.

Lemma split4 (c : Z) : 0x10000 <= c < 0x110000 ->
  exists q r1 r2 r3, c / 262144 = q /\ (c / 4096) mod 64 = r1 /\ (c / 64) mod 64 = r2 /\ c mod 64 = r3
    /\ c = 262144 * q + 4096 * r1 + 64 * r2 + r3 /\ 0 <= q < 5 /\ 0 <= r1 < 64 /\ 0 <= r2 < 64 /\ 0 <= r3 < 64.
Proof. intros. exists (c / 262144), ((c / 4096) mod 64), ((c / 64) mod 64), (c mod 64). Z.div_mod_to_equations. lia. Qed.

Lemma decode_cons (b0 : Z) (r0 : bytes) :
  UTF8.decode (b0 :: r0) =
        if b0 <? 0 then None
        else if b0 <? 0x80 then UTF8.cons_point b0 (UTF8.decode r0)
        else if b0 <? 0xC2 then None
        else if b0 <? 0xE0 then
          match r0 with
          | b1 :: r1 =>
              if UTF8.continuation b1
              then UTF8.cons_point ((b0 - 0xC0) * 64 + (b1 - 0x80)) (UTF8.decode r1)
              else None
          | _ => None
          end
        else if b0 <? 0xF0 then
          match r0 with
          | b1 :: b2 :: r2 =>
              let c := (b0 - 0xE0) * 4096 + (b1 - 0x80) * 64 + (b2 - 0x80) in
              if UTF8.continuation b1 && UTF8.continuation b2
                 && (0x800 <=? c) && negb ((0xD800 <=? c) && (c <=? 0xDFFF))
              then UTF8.cons_point c (UTF8.decode r2)
              else None
          | _ => None
          end
        else if b0 <? 0xF5 then
          match r0 with
          | b1 :: b2 :: b3 :: r3 =>
              let c := (b0 - 0xF0) * 262144 + (b1 - 0x80) * 4096
                       + (b2 - 0x80) * 64 + (b3 - 0x80) in
              if UTF8.continuation b1 && UTF8.continuation b2 && UTF8.continuation b3
                 && (0x10000 <=? c) && (c <? 0x110000)
              then UTF8.cons_point c (UTF8.decode r3)
              else None
          | _ => None
          end
        else None.
Proof. destruct r0 as [|? [|? [|? ?]]]; reflexivity. Qed.

Ltac ztest :=
  match goal with
  | |- context [?a <? ?b] =>
      first [ rewrite (proj2 (Z.ltb_lt a b)) by lia | rewrite (proj2 (Z.ltb_ge a b)) by lia ]
  | |- context [?a <=? ?b] =>
      first [ rewrite (proj2 (Z.leb_le a b)) by lia | rewrite (proj2 (Z.leb_gt a b)) by lia ]
  end.

Lemma continuation_ok (r : Z) : 0 <= r < 64 -> UTF8.continuation (0x80 + r) = true.
Proof. intros. unfold UTF8.continuation. repeat ztest. reflexivity. Qed.

Lemma decode_1 (b0 : Z) (r0 : bytes) :
  0 <= b0 < 0x80 -> UTF8.decode (b0 :: r0) = UTF8.cons_point b0 (UTF8.decode r0).
Proof. intros. rewrite decode_cons. repeat ztest. reflexivity. Qed.

Lemma decode_2 (q r : Z) (rest : bytes) :
  2 <= q < 32 -> 0 <= r < 64 ->
  UTF8.decode (0xC0 + q :: 0x80 + r :: rest) = UTF8.cons_point (64 * q + r) (UTF8.decode rest).
Proof.
  intros. rewrite decode_cons. repeat ztest.
  rewrite continuation_ok by lia. f_equal. lia.
Qed.

Lemma decode_3 (q r1 r2 : Z) (rest : bytes) :
  0 <= q < 16 -> 0 <= r1 < 64 -> 0 <= r2 < 64 ->
  0x800 <= 4096 * q + 64 * r1 + r2 ->
  ~ 0xD800 <= 4096 * q + 64 * r1 + r2 <= 0xDFFF ->
  UTF8.decode (0xE0 + q :: 0x80 + r1 :: 0x80 + r2 :: rest)
  = UTF8.cons_point (4096 * q + 64 * r1 + r2) (UTF8.decode rest).
Proof.
  intros. rewrite decode_cons. repeat ztest. cbv zeta.
  rewrite !continuation_ok by lia.
  replace ((224 + q - 224) * 4096 + (128 + r1 - 128) * 64 + (128 + r2 - 128))
    with (4096 * q + 64 * r1 + r2) by lia.
  set (c := 4096 * q + 64 * r1 + r2) in *.
  destruct (Z.leb_spec 0x800 c); [|lia].
  destruct (Z.leb_spec 0xD800 c); destruct (Z.leb_spec c 0xDFFF); try lia; reflexivity.
Qed.

Lemma decode_4 (q r1 r2 r3 : Z) (rest : bytes) :
  0 <= q < 5 -> 0 <= r1 < 64 -> 0 <= r2 < 64 -> 0 <= r3 < 64 ->
  0x10000 <= 262144 * q + 4096 * r1 + 64 * r2 + r3 < 0x110000 ->
  UTF8.decode (0xF0 + q :: 0x80 + r1 :: 0x80 + r2 :: 0x80 + r3 :: rest)
  = UTF8.cons_point (262144 * q + 4096 * r1 + 64 * r2 + r3) (UTF8.decode rest).
Proof.
  intros. rewrite decode_cons. repeat ztest. cbv zeta.
  rewrite !continuation_ok by lia.
  replace ((240 + q - 240) * 262144 + (128 + r1 - 128) * 4096 + (128 + r2 - 128) * 64 + (128 + r3 - 128))
    with (262144 * q + 4096 * r1 + 64 * r2 + r3) by lia.
  set (c := 262144 * q + 4096 * r1 + 64 * r2 + r3) in *.
  destruct (Z.leb_spec 0x10000 c); [|lia].
  destruct (Z.ltb_spec c 0x110000); [|lia]. reflexivity.
Qed.

Lemma decode_encode_point (c : Z) (b : bytes) (rest : bytes) :
  UTF8.encode_point c = Some b ->
  UTF8.decode (b ++ rest) = UTF8.cons_point c (UTF8.decode rest).
Proof.
  unfold UTF8.encode_point.
  destruct (Z.ltb_spec c 0); [discriminate|].
  destruct (Z.ltb_spec c 0x80).
  { intros E; injection E as <-. apply decode_1. lia. }
  destruct (Z.ltb_spec c 0x800).
  { intros E; injection E as <-.
    destruct (split2 c) as (q & r & -> & -> & Hc & Hq & Hr); [lia|].
    rewrite Hc. apply decode_2; lia. }
  destruct (Z.ltb_spec c 0x10000).
  { destruct (Z.leb_spec 0xD800 c); destruct (Z.leb_spec c 0xDFFF); cbn [andb]; try discriminate.
    all: intros E; injection E as <-.
    all: destruct (split3 c) as (q & r1 & r2 & -> & -> & -> & Hc & Hq & Hr1 & Hr2); [lia|].
    all: rewrite Hc; apply decode_3; lia. }
  destruct (Z.ltb_spec c 0x110000); [|discriminate].
  intros E; injection E as <-.
  destruct (split4 c) as (q & r1 & r2 & r3 & -> & -> & -> & -> & Hc & Hq & Hr1 & Hr2 & Hr3); [lia|].
  rewrite Hc; apply decode_4; lia.
Qed.

Lemma decode_encode (s : pystr) (bs : bytes) :
  UTF8.encode s = Some bs -> UTF8.decode bs = Some s.
Proof.
  revert bs. induction s as [|c s IH]; intros bs; cbn [UTF8.encode].
  - intros E; injection E as <-. reflexivity.
  - destruct (UTF8.encode_point c) as [b|] eqn:Ec; [|discriminate].
    destruct (UTF8.encode s) as [bs'|]; [|discriminate].
    intros E; injection E as <-.
    rewrite (decode_encode_point c b bs' Ec), (IH bs' eq_refl). reflexivity.
Qed.

Lemma encode_app (a b : pystr) :
  UTF8.encode (a ++ b) =
  match UTF8.encode a, UTF8.encode b with
  | Some x, Some y => Some (x ++ y)
  | _, _ => None
  end.
Proof.
  induction a as [|c a IH]; cbn [app UTF8.encode].
  - destruct (UTF8.encode b); reflexivity.
  - rewrite IH. destruct (UTF8.encode_point c), (UTF8.encode a), (UTF8.encode b);
      try reflexivity. now rewrite app_assoc.
Qed.

(** ** [strip] *)

Lemma lstrip_head_ok (s : pystr) : head_ok (lstrip s).
Proof.
  induction s as [|c s IH]; cbn [lstrip]; [exact I|].
  destruct (is_space c) eqn:E; [exact IH | exact E].
Qed.

Lemma lstrip_fixed (s : pystr) : head_ok s -> lstrip s = s.
Proof. destruct s as [|c s]; cbn [head_ok lstrip]; [reflexivity|]. now intros ->. Qed.

Lemma lstrip_suffix (s : pystr) : exists p, s = p ++ lstrip s.
Proof.
  induction s as [|c s [p IH]]; [now exists []|]. cbn [lstrip].
  destruct (is_space c).
  - exists (c :: p). cbn [app]. now f_equal.
  - now exists [].
Qed.

Lemma head_ok_prefix (a b : pystr) : head_ok (a ++ b) -> head_ok a.
Proof. destruct a; [intros _; exact I | exact (fun H => H)]. Qed.

Lemma strip_head_ok (t : pystr) : head_ok (strip t).
Proof.
  unfold strip, rstrip.
  destruct (lstrip_suffix (rev (lstrip t))) as [p Hp].
  apply (f_equal (@rev Z)) in Hp. rewrite rev_involutive, rev_app_distr in Hp.
  apply head_ok_prefix with (b := rev p). rewrite <- Hp. apply lstrip_head_ok.
Qed.

Lemma strip_last_ok (t : pystr) : head_ok (rev (strip t)).
Proof. unfold strip, rstrip. rewrite rev_involutive. apply lstrip_head_ok. Qed.

Lemma strip_fixed (s : pystr) : head_ok s -> head_ok (rev s) -> strip s = s.
Proof.
  intros H1 H2. unfold strip, rstrip.
  now rewrite (lstrip_fixed s H1), (lstrip_fixed (rev s) H2), rev_involutive.
Qed.

Lemma strip_idempotent (t : pystr) : strip (strip t) = strip t.
Proof. apply strip_fixed; [apply strip_head_ok | apply strip_last_ok]. Qed.

(** A trimmed, non-empty string followed by a line feed trims back to itself. *)
Lemma strip_line (s : pystr) :
  head_ok s -> head_ok (rev s) -> s <> [] -> strip (s ++ LF) = s.
Proof.
  intros H1 H2 Hne. unfold strip, rstrip.
  rewrite (lstrip_fixed (s ++ LF)).
  - rewrite rev_app_distr. cbn [LF rev app lstrip].
    replace (is_space 10) with true by reflexivity.
    now rewrite (lstrip_fixed (rev s) H2), rev_involutive.
  - destruct s; [congruence | exact H1].
Qed.

(** ** Text mode *)

Lemma universal_newlines_id (s : pystr) :
  ~ In 13 s -> universal_newlines s = s.
Proof.
  induction s as [|c s IH]; [reflexivity|]. intros H. cbn [universal_newlines].
  destruct (Z.eqb_spec c 13) as [->|_]; [exfalso; apply H; now left|].
  f_equal. apply IH. intros ?. apply H. now right.
Qed.

Lemma read_back_newlines (os : platform) (s : pystr) :
  ~ In 13 s -> universal_newlines (write_newlines os s) = s.
Proof.
  destruct os; cbn [write_newlines]; [apply universal_newlines_id|].
  induction s as [|c s IH]; [reflexivity|]. intros H. cbn [flat_map].
  assert (Hs : ~ In 13 s) by (intros ?; apply H; now right).
  destruct (Z.eqb_spec c 10) as [->|Hc].
  - cbn [app universal_newlines]. replace (13 =? 13) with true by reflexivity.
    replace (10 =? 10) with true by reflexivity. now rewrite IH.
  - cbn [app universal_newlines].
    destruct (Z.eqb_spec c 13) as [->|_]; [exfalso; apply H; now left|].
    now rewrite IH.
Qed.

Lemma encode_write_newlines (os : platform) (s : pystr) :
  UTF8.encode s <> None -> UTF8.encode (write_newlines os s) <> None.
Proof.
  destruct os; cbn [write_newlines]; [exact (fun H => H)|].
  induction s as [|c s IH]; cbn [flat_map UTF8.encode]; [exact (fun H => H)|].
  rewrite encode_app.
  destruct (UTF8.encode_point c) as [b|] eqn:Ec; [|congruence].
  destruct (UTF8.encode s) as [bs|]; [|congruence]. intros _.
  destruct (UTF8.encode (flat_map (fun c => if c =? 10 then [13; 10] else [c]) s));
    [|exfalso; now apply IH].
  destruct (Z.eqb_spec c 10) as [->|_]; [discriminate|].
  cbn [UTF8.encode]. rewrite Ec. discriminate.
Qed.

(* ================================================================== *)
(** * The credential digest ([calculate_dahua_auth_hash]) *)
(* ================================================================== *)

(** The MD5 test suite of RFC 1321, appendix A.5. *)
Example md5_empty : MD5.hexdigest [] = py "d41d8cd98f00b204e9800998ecf8427e".
Proof. vm_compute. reflexivity. Qed.

Example md5_a : MD5.hexdigest (octets "a") = py "0cc175b9c0f1b6a831c399e269772661".
Proof. vm_compute. reflexivity. Qed.

Example md5_abc : MD5.hexdigest (octets "abc") = py "900150983cd24fb0d6963f7d28e17f72".
Proof. vm_compute. reflexivity. Qed.

Example md5_message_digest :
  MD5.hexdigest (octets "message digest") = py "f96b697d7cb7938d525a2f31aaf161d0".
Proof. vm_compute. reflexivity. Qed.

Example md5_alphabet :
  MD5.hexdigest (octets "abcdefghijklmnopqrstuvwxyz") = py "c3fcd3d76192e4007dfb496cca67e13b".
Proof. vm_compute. reflexivity. Qed.

Example md5_alphanumeric :
  MD5.hexdigest (octets "ABCDEFGHIJKLMNOPQRSTUVWXYZabcdefghijklmnopqrstuvwxyz0123456789")
  = py "d174ab98d277d9f5a5611c2c9f419d9f".
Proof. vm_compute. reflexivity. Qed.

Example md5_digits :
  MD5.hexdigest
    (octets "12345678901234567890123456789012345678901234567890123456789012345678901234567890")
  = py "57edf4a22be3c955ac49da2e2107b67a".
Proof. vm_compute. reflexivity. Qed.

(** What [calculate_dahua_auth_hash] returns or raises, whatever the world. *)
Lemma calculate_dahua_auth_hash_result
    (username password realm random_key : pystr) (encoding : option codec) (w : world) :
  fst (calculate_dahua_auth_hash username password realm random_key encoding w)
  = let c := match encoding with Some c => c | None => latin_1 end in
    match codec_encode c with
    | None => Exc LookupError
    | Some enc =>
        match enc (username ++ py ":" ++ realm ++ py ":" ++ password) with
        | None => Exc UnicodeEncodeError
        | Some b1 =>
            match enc (username ++ py ":" ++ random_key ++ py ":"
                       ++ upper (MD5.hexdigest b1)) with
            | None => Exc UnicodeEncodeError
            | Some b2 => Ret (upper (MD5.hexdigest b2))
            end
        end
    end.
Proof.
  unfold calculate_dahua_auth_hash, bind, print, emit, encode, raise, ret.
  cbv zeta. cbn [fst snd].
  destruct (codec_encode match encoding with Some c => c | None => latin_1 end) as [enc|];
    [|reflexivity].
  destruct (enc (username ++ py ":" ++ realm ++ py ":" ++ password)) as [b1|];
    [|reflexivity].
  cbn [fst snd].
  destruct (enc (username ++ py ":" ++ random_key ++ py ":" ++ upper (MD5.hexdigest b1)));
    reflexivity.
Qed.

(** C1: [calculate_dahua_auth_hash] returns the digest that steps 1 to 4 of
    the specification define, in whatever world it runs, and raises when an
    encoding step has no result; a missing [encoding] argument stands for
    Latin-1.  For ["admin"], ["pass"], realm ["Login1"] and random
    ["123456"] the intermediate digest is the upper-case MD5 of
    ["admin:Login1:pass"] and the result the upper-case MD5 of
    ["admin:123456:"] followed by it. *)
Theorem calculate_dahua_auth_hash_derives :
  (forall (username password realm random_key : pystr) (encoding : option codec) (w : world),
      match derive username password realm random_key
                   (match encoding with Some c => c | None => latin_1 end) with
      | Some digest =>
          fst (calculate_dahua_auth_hash username password realm random_key encoding w)
          = Ret digest
      | None =>
          exists e,
          fst (calculate_dahua_auth_hash username password realm random_key encoding w)
          = Exc e
      end)
  /\ (forall (username password realm random_key : pystr) (w : world),
         calculate_dahua_auth_hash username password realm random_key None w
         = calculate_dahua_auth_hash username password realm random_key (Some latin_1) w)
  /\ upper (MD5.hexdigest (octets "admin:Login1:pass"))
     = py "5B8686DD3A72513DFB01470F55AEF5C4"
  /\ upper (MD5.hexdigest (octets "admin:123456:5B8686DD3A72513DFB01470F55AEF5C4"))
     = py "5595A2CF84EBEEFE16CC5E1C595DF93A"
  /\ (forall w : world,
         fst (calculate_dahua_auth_hash (py "admin") (py "pass") (py "Login1") (py "123456")
                None w)
         = Ret (py "5595A2CF84EBEEFE16CC5E1C595DF93A")).
Proof.
  split; [|split; [|split; [|split]]].
  - intros. rewrite calculate_dahua_auth_hash_result. cbv zeta.
    unfold derive, spec_encode.
    destruct (codec_encode match encoding with Some c => c | None => latin_1 end) as [enc|];
      [|now eexists].
    destruct (enc (username ++ py ":" ++ realm ++ py ":" ++ password)) as [b1|];
      [|now eexists].
    destruct (enc (username ++ py ":" ++ random_key ++ py ":" ++ upper (MD5.hexdigest b1)));
      [reflexivity | now eexists].
  - reflexivity.
  - vm_compute. reflexivity.
  - vm_compute. reflexivity.
  - intros w. rewrite calculate_dahua_auth_hash_result. vm_compute. reflexivity.
Qed.

(** C9: two calls of [calculate_dahua_auth_hash] with the same arguments
    return the same digest (or raise the same exception), whatever the two
    worlds they run in; so does a second call that follows the first. *)
Theorem calculate_dahua_auth_hash_deterministic
    (username password realm random_key : pystr) (encoding : option codec)
    (w1 w2 : world) :
  fst (calculate_dahua_auth_hash username password realm random_key encoding w1)
  = fst (calculate_dahua_auth_hash username password realm random_key encoding w2)
  /\ fst (calculate_dahua_auth_hash username password realm random_key encoding
            (snd (calculate_dahua_auth_hash username password realm random_key
                    encoding w1)))
     = fst (calculate_dahua_auth_hash username password realm random_key encoding w1).
Proof.
  pose proof (calculate_dahua_auth_hash_result username password realm random_key
                encoding) as H.
  split.
  - rewrite (H w1), (H w2). reflexivity.
  - rewrite (H w1), (H (snd _)). reflexivity.
Qed.

(* ================================================================== *)
(** * The session store ([_session_util.py]) *)
(* ================================================================== *)

Lemma set_file_same (fs : pystr -> file) (path : pystr) (f : file) :
  set_file fs path f path = f.
Proof. unfold set_file. now rewrite str_eqb_refl. Qed.

Lemma read_session_absent (path : pystr) (w : world) :
  read_error (files w path) = None -> data (files w path) = None ->
  _read_session_from_file path w = (Ret None, w).
Proof.
  intros He Hd. unfold _read_session_from_file, try_except, bind, read_text.
  now rewrite He, Hd.
Qed.

Lemma read_session_oserror (path msg : pystr) (w : world) :
  read_error (files w path) = Some msg ->
  _read_session_from_file path w =
  (Ret None,
   World (files w) (stdin w) (replies w)
         (trace w ++ [Printed [Txt (py "Warning: cannot read session file '");
                               Txt path; Txt (py "': "); Err (OSError msg)]])).
Proof.
  intros He. unfold _read_session_from_file, try_except, bind, read_text.
  now rewrite He.
Qed.

Lemma read_session_text (path : pystr) (w : world) (bs : bytes) (s : pystr) :
  read_error (files w path) = None -> data (files w path) = Some bs ->
  UTF8.decode bs = Some s ->
  _read_session_from_file path w = (Ret (nonempty (strip (universal_newlines s))), w).
Proof.
  intros He Hd Hs. unfold _read_session_from_file, try_except, bind, read_text.
  rewrite He, Hd, Hs. unfold ret, nonempty.
  now destruct (strip (universal_newlines s)).
Qed.

Lemma read_session_undecodable (path : pystr) (w : world) (bs : bytes) :
  read_error (files w path) = None -> data (files w path) = Some bs ->
  UTF8.decode bs = None ->
  _read_session_from_file path w = (Exc UnicodeDecodeError, w).
Proof.
  intros He Hd Hs. unfold _read_session_from_file, try_except, bind, read_text.
  now rewrite He, Hd, Hs.
Qed.

Lemma save_session_to_file_ok (os : platform) (path t : pystr) (w : world) (bs : bytes) :
  write_error (files w path) = None ->
  UTF8.encode (write_newlines os (strip t ++ LF)) = Some bs ->
  _save_session_to_file os path t w =
  (Ret tt,
   World (set_file
            (set_file (files w) path (File (Some []) (read_error (files w path)) None))
            path (File (Some bs) (read_error (files w path)) None))
         (stdin w) (replies w)
         (trace w ++ [Printed [Txt (py "Saved session id to '"); Txt path; Txt (py "'.")]])).
Proof.
  intros Hw He.
  unfold _save_session_to_file, try_except, bind, open_w, write, print, emit.
  rewrite Hw. cbn [files stdin replies trace]. rewrite He, set_file_same.
  cbn [data read_error write_error app]. reflexivity.
Qed.

(** ** Saving, then loading *)

(** C4, as the specification states it, fails: the token [" a"] is not
    empty, and after [_save_session_to_file] has stored it,
    [_read_session_from_file] answers ["a"], both functions trimming what
    they are given. *)
Lemma save_load_exact_counterexample :
  py " a" <> []
  /\ fst (_read_session_from_file session_txt
            (snd (_save_session_to_file Posix session_txt (py " a")
                    (fresh no_files [] []))))
     <> Ret (Some (py " a")).
Proof. split; vm_compute; discriminate. Qed.

(** C4, amended: for a token whose trimmed form is not empty, has no
    carriage return and can be encoded in UTF-8, and a file that can be
    opened for writing and for reading, [_save_session_to_file] followed
    by [_read_session_from_file] on the same path returns the token trimmed
    of the white space around it, which is the token itself when it has
    none. *)
Theorem save_then_load_trimmed (os : platform) (path t : pystr) (w : world) :
  strip t <> [] ->
  ~ In 13 (strip t) ->
  UTF8.encode (strip t) <> None ->
  write_error (files w path) = None ->
  read_error (files w path) = None ->
  fst (_read_session_from_file path (snd (_save_session_to_file os path t w)))
  = Ret (Some (strip t))
  /\ (strip t = t ->
      fst (_read_session_from_file path (snd (_save_session_to_file os path t w)))
      = Ret (Some t)).
Proof.
  intros Hne Hcr Henc Hw Hr.
  assert (Hcr' : ~ In 13 (strip t ++ LF)).
  { rewrite in_app_iff. intros [H|[H|[]]]; [exact (Hcr H) | discriminate]. }
  assert (Henc' : UTF8.encode (strip t ++ LF) <> None).
  { rewrite encode_app. destruct (UTF8.encode (strip t)); [discriminate | congruence]. }
  destruct (UTF8.encode (write_newlines os (strip t ++ LF))) as [bs|] eqn:Ebs;
    [|exfalso; revert Ebs; now apply encode_write_newlines].
  assert (R : fst (_read_session_from_file path (snd (_save_session_to_file os path t w)))
              = Ret (Some (strip t))).
  { rewrite (save_session_to_file_ok os path t w bs Hw Ebs). cbn [snd].
    rewrite (read_session_text path _ bs (write_newlines os (strip t ++ LF))).
    - cbn [fst]. rewrite (read_back_newlines os _ Hcr').
      rewrite (strip_line (strip t) (strip_head_ok t) (strip_last_ok t) Hne).
      unfold nonempty. destruct (strip t); congruence.
    - cbn [files]. now rewrite set_file_same.
    - cbn [files]. now rewrite set_file_same.
    - now apply decode_encode. }
  split; [exact R | intros E; congruence].
Qed.

Lemma save_then_load_trimmed_witness :
  fst (_read_session_from_file session_txt
         (snd (_save_session_to_file Windows session_txt (py "  7f3a 9c ")
                 (fresh no_files [] []))))
  = Ret (Some (py "7f3a 9c")).
Proof.
  apply (proj1 (save_then_load_trimmed Windows session_txt (py "  7f3a 9c ")
                  (fresh no_files [] [])
                  ltac:(vm_compute; discriminate)
                  ltac:(vm_compute; intuition discriminate)
                  ltac:(vm_compute; discriminate)
                  eq_refl eq_refl)).
Defined.

(** ** Loading *)

(** C7, as the specification states it, fails: on a session file whose
    content is the single octet [0xFF], which is not UTF-8,
    [_read_session_from_file] raises [UnicodeDecodeError], which is no
    [OSError] and passes both [except] clauses. *)
Lemma read_session_raises_counterexample :
  fst (_read_session_from_file session_txt
         (fresh (set_file no_files session_txt (File (Some [0xFF]) None None)) [] []))
  = Exc UnicodeDecodeError.
Proof. vm_compute. reflexivity. Qed.

(** C7, amended: [_read_session_from_file] does not raise when the file is
    absent, when opening it meets another [OSError], or when its octets are
    valid UTF-8.  On an absent file it returns [None] and prints nothing; on
    another [OSError] it prints a warning and returns [None]; on valid
    UTF-8 it returns the text (line ends normalised by text mode) without
    the white space around it, and [None] when nothing is left. *)
Theorem read_session_from_file_total (path : pystr) (w : world) :
  (read_error (files w path) = None -> data (files w path) = None ->
   _read_session_from_file path w = (Ret None, w))
  /\ (forall msg, read_error (files w path) = Some msg ->
      fst (_read_session_from_file path w) = Ret None
      /\ trace (snd (_read_session_from_file path w))
         = trace w ++ [Printed [Txt (py "Warning: cannot read session file '");
                                Txt path; Txt (py "': "); Err (OSError msg)]]
      /\ files (snd (_read_session_from_file path w)) = files w)
  /\ (forall bs s, read_error (files w path) = None -> data (files w path) = Some bs ->
      UTF8.decode bs = Some s ->
      _read_session_from_file path w
      = (Ret (match strip (universal_newlines s) with
              | [] => None
              | sid => Some sid
              end), w)).
Proof.
  split; [|split].
  - apply read_session_absent.
  - intros msg He. rewrite (read_session_oserror path msg w He). repeat split.
  - intros bs s He Hd Hs. rewrite (read_session_text path w bs s He Hd Hs).
    unfold nonempty. now destruct (strip (universal_newlines s)).
Qed.

Lemma read_session_from_file_total_witness :
  _read_session_from_file session_txt (fresh no_files [] [])
  = (Ret None, fresh no_files [] [])
  /\ fst (_read_session_from_file session_txt
            (fresh (set_file no_files session_txt
                      (File None (Some (py "Permission denied")) None)) [] []))
     = Ret None
  /\ _read_session_from_file session_txt
       (fresh (set_file no_files session_txt (File (Some (octets " abc  ")) None None)) [] [])
     = (Ret (Some (py "abc")),
        fresh (set_file no_files session_txt (File (Some (octets " abc  ")) None None)) [] []).
Proof.
  split; [|split].
  - exact (proj1 (read_session_from_file_total session_txt (fresh no_files [] []))
             eq_refl eq_refl).
  - exact (proj1 (proj1 (proj2 (read_session_from_file_total session_txt
             (fresh (set_file no_files session_txt
                       (File None (Some (py "Permission denied")) None)) [] [])))
             (py "Permission denied") eq_refl)).
  - exact (proj2 (proj2 (read_session_from_file_total session_txt
             (fresh (set_file no_files session_txt
                       (File (Some (octets " abc  ")) None None)) [] [])))
             (octets " abc  ") (py " abc  ") eq_refl eq_refl eq_refl).
Defined.

(** ** [ensure_session] without a console *)

Lemma read_session_keeps (path : pystr) (w : world) :
  files (snd (_read_session_from_file path w)) = files w
  /\ stdin (snd (_read_session_from_file path w)) = stdin w
  /\ replies (snd (_read_session_from_file path w)) = replies w.
Proof.
  unfold _read_session_from_file, try_except, bind, read_text.
  destruct (read_error (files w path)); [repeat split|].
  destruct (data (files w path)) as [bs|]; [|repeat split].
  destruct (UTF8.decode bs); repeat split.
Qed.

(** C6: when [_read_session_from_file] finds no session, [ensure_session]
    with [interactive=False] raises the [RuntimeError] that tells to run
    [get_id.py] first; it asks nothing and writes nothing: the world it
    leaves is the one the read left. *)
Theorem ensure_session_non_interactive
    (os : platform) (lower : pystr -> pystr) (SESSION_FILE : pystr) (w : world) :
  fst (_read_session_from_file SESSION_FILE w) = Ret None ->
  fst (ensure_session os lower SESSION_FILE false w)
  = Exc (RuntimeError (py "No session found. Run get_id.py first to create 'session.txt'."))
  /\ snd (ensure_session os lower SESSION_FILE false w)
     = snd (_read_session_from_file SESSION_FILE w)
  /\ files (snd (ensure_session os lower SESSION_FILE false w)) = files w
  /\ stdin (snd (ensure_session os lower SESSION_FILE false w)) = stdin w.
Proof.
  intros H. unfold ensure_session, bind.
  destruct (_read_session_from_file SESSION_FILE w) as [r w'] eqn:E.
  cbn [fst] in H. subst r. cbn [negb raise fst snd].
  pose proof (read_session_keeps SESSION_FILE w) as K. rewrite E in K.
  cbn [snd] in K. repeat split; apply K.
Qed.

Lemma ensure_session_non_interactive_witness :
  fst (ensure_session Posix (fun s => s) session_txt false
         (fresh no_files [py "y"; py "abc"] []))
  = Exc (RuntimeError (py "No session found. Run get_id.py first to create 'session.txt'."))
  /\ stdin (snd (ensure_session Posix (fun s => s) session_txt false
                   (fresh no_files [py "y"; py "abc"] [])))
     = [py "y"; py "abc"].
Proof.
  pose proof (ensure_session_non_interactive Posix (fun s => s) session_txt
                (fresh no_files [py "y"; py "abc"] []) eq_refl) as H.
  split; [exact (proj1 H) | exact (proj2 (proj2 (proj2 H)))].
Defined.

(* ================================================================== *)
(** * The login handshake ([login_and_get_session]) *)
(* ================================================================== *)

Lemma requests_sent_app (a b : list event) :
  requests_sent (a ++ b) = requests_sent a ++ requests_sent b.
Proof. unfold requests_sent. apply flat_map_app. Qed.

(** With Latin-1, a digest that [derive] defines is what
    [calculate_dahua_auth_hash] returns; the call only prints. *)
Lemma calculate_dahua_auth_hash_run (username password realm random_key digest : pystr) :
  derive username password realm random_key latin_1 = Some digest ->
  exists evs,
    requests_sent evs = []
    /\ forall w,
      calculate_dahua_auth_hash username password realm random_key None w
      = (Ret digest, World (files w) (stdin w) (replies w) (trace w ++ evs)).
Proof.
  unfold derive, spec_encode. cbn [codec_encode latin_1].
  destruct (latin1_encode (username ++ py ":" ++ realm ++ py ":" ++ password))
    as [b1|] eqn:E1; [|discriminate].
  cbv zeta.
  destruct (latin1_encode (username ++ py ":" ++ random_key ++ py ":"
                           ++ upper (MD5.hexdigest b1)))
    as [b2|] eqn:E2; [|discriminate].
  intros E. apply Some_inj in E. subst digest.
  eexists. split; cycle 1.
  - intros w. unfold calculate_dahua_auth_hash, bind, print, emit, encode, ret.
    cbv zeta. cbn [codec_encode latin_1 files stdin replies trace]. rewrite E1.
    cbn [files stdin replies trace]. rewrite E2.
    cbn [files stdin replies trace]. rewrite <- !app_assoc. cbn [app]. reflexivity.
  - reflexivity.
Qed.

Lemma dict_get_found (o : list (pystr * json)) (k : pystr) (v : json) :
  dict_find k o = Some v -> dict_get o k = v.
Proof. unfold dict_get, dict_get_or. now intros ->. Qed.

(** One step of symbolic execution: the monad and the console and network
    primitives are unfolded, the scripts' strings are left alone. *)
Ltac step_in H :=
  cbv beta iota zeta delta
    [bind print print_response emit request try_except post ret raise
     files stdin replies trace fst snd] in H.

(** The end of a run: the result and the world of [H : (r0, w0) = (r, w')]
    replace [r] and [w'] in the goal. *)
Ltac done_in H :=
  apply pair_equal_spec in H; destruct H as [<- <-];
  cbn [files stdin replies trace].

Section Handshake.

Variable os : platform.
Variable str_of : json -> pystr.
Variable SESSION_FILE : pystr.

Variables ip username password : pystr.

Local Abbreviation login :=
  (login_and_get_session os str_of SESSION_FILE ip username password).

(** ** A challenge that is not accepted *)

Lemma run_challenge_refused
    (w : world) (resp1 : json) (rest : list (exn + json)) (r : result json) (w' : world) :
  replies w = inr resp1 :: rest ->
  printable resp1 = true ->
  challenge_ok resp1 = false ->
  login w = (r, w') ->
  (r = Ret JNull \/ r = Exc AttributeError)
  /\ (challenge_readable resp1 = true -> r = Ret JNull)
  /\ (exists line, trace w' = trace w ++ first_exchange ip username resp1 ++ line)
  /\ requests_sent (trace w')
     = requests_sent (trace w) ++ [(login_url ip, payload_step1 username)]
  /\ replies w' = rest
  /\ stdin w' = stdin w
  /\ files w' = files w.
Proof.
  intros Hr Hp Hc E. destruct w as [fs si rp tr]. cbn [replies] in Hr. subst rp.
  cbn [files stdin replies trace].
  unfold login_and_get_session in E. step_in E. fold (login_url ip) in E.
  rewrite Hp in E. step_in E.
  assert (Q : forall line,
             requests_sent line = [] ->
             requests_sent (tr ++ first_exchange ip username resp1 ++ line)
             = requests_sent tr ++ [(login_url ip, payload_step1 username)]).
  { intros line Hl. rewrite !requests_sent_app, Hl. reflexivity. }
  assert (T0 : (((tr ++ [Printed [Txt (py "=== First request (challenge) ===")]])
                 ++ [Printed [Txt (py "Request: "); Dumps true (payload_step1 username)]])
                ++ [Posted (login_url ip) (payload_step1 username)])
               ++ [Printed [Txt (py "Response: "); Dumps true resp1]]
               = tr ++ first_exchange ip username resp1 ++ []).
  { rewrite <- !app_assoc. reflexivity. }
  assert (T1 : forall e,
             ((((tr ++ [Printed [Txt (py "=== First request (challenge) ===")]])
                 ++ [Printed [Txt (py "Request: "); Dumps true (payload_step1 username)]])
                ++ [Posted (login_url ip) (payload_step1 username)])
               ++ [Printed [Txt (py "Response: "); Dumps true resp1]])
             ++ [e]
             = tr ++ first_exchange ip username resp1 ++ [e]).
  { intros e. rewrite <- !app_assoc. reflexivity. }
  assert (Raised : forall r0 : result json,
             (r0 = Ret JNull \/ r0 = Exc AttributeError) ->
             (challenge_readable resp1 = true -> r0 = Ret JNull) ->
             (r0,
              World fs si rest
                ((((tr ++ [Printed [Txt (py "=== First request (challenge) ===")]])
                   ++ [Printed [Txt (py "Request: "); Dumps true (payload_step1 username)]])
                  ++ [Posted (login_url ip) (payload_step1 username)])
                 ++ [Printed [Txt (py "Response: "); Dumps true resp1]])) = (r, w') ->
             (r = Ret JNull \/ r = Exc AttributeError)
             /\ (challenge_readable resp1 = true -> r = Ret JNull)
             /\ (exists line, trace w' = tr ++ first_exchange ip username resp1 ++ line)
             /\ requests_sent (trace w')
                = requests_sent tr ++ [(login_url ip, payload_step1 username)]
             /\ replies w' = rest /\ stdin w' = si /\ files w' = fs).
  { intros r0 H1 H2 E0. done_in E0. rewrite T0.
    split; [exact H1|]. split; [exact H2|]. split; [now exists []|].
    split; [now apply Q|]. repeat split. }
  assert (Printed_then : forall line,
             (Ret JNull,
              World fs si rest
                (((((tr ++ [Printed [Txt (py "=== First request (challenge) ===")]])
                    ++ [Printed [Txt (py "Request: "); Dumps true (payload_step1 username)]])
                   ++ [Posted (login_url ip) (payload_step1 username)])
                  ++ [Printed [Txt (py "Response: "); Dumps true resp1]])
                 ++ [Printed line])) = (r, w') ->
             (r = Ret JNull \/ r = Exc AttributeError)
             /\ (challenge_readable resp1 = true -> r = Ret JNull)
             /\ (exists line, trace w' = tr ++ first_exchange ip username resp1 ++ line)
             /\ requests_sent (trace w')
                = requests_sent tr ++ [(login_url ip, payload_step1 username)]
             /\ replies w' = rest /\ stdin w' = si /\ files w' = fs).
  { intros line E0. done_in E0. rewrite T1.
    split; [now left|]. split; [reflexivity|]. split; [now eexists|].
    split; [now apply Q|]. repeat split. }
  destruct resp1 as [| | | | | |o1];
    try (apply (Raised (Exc AttributeError)); [now right | discriminate | exact E]).
  unfold challenge_ok in Hc.
  destruct (truthy (dict_get o1 (py "result"))) eqn:R1; cbn [negb orb andb] in Hc, E.
  2:{ step_in E. now apply Printed_then in E. }
  destruct (dict_find (py "params") o1) as [p1|] eqn:P1.
  2:{ step_in E. now apply Printed_then in E. }
  rewrite (dict_get_found _ _ _ P1) in E.
  destruct p1 as [| | | | | |params1];
    try (apply (Raised (Exc AttributeError));
         [now right | unfold challenge_readable; rewrite R1, P1; discriminate | exact E]).
  cbn [forallb] in E. rewrite andb_true_r, andb_assoc, Hc in E. cbn [negb] in E.
  step_in E. now apply Printed_then in E.
Qed.

(** ** From an accepted challenge to the answer to the second request *)






(** The requests of a finished trace. *)
Ltac sent Hev :=
  cbn [files stdin replies trace]; rewrite !requests_sent_app; cbn [requests_sent flat_map app];
  rewrite ?Hev; cbn [app]; rewrite ?app_nil_r, <- ?app_assoc; reflexivity.




(** ** The claims on the handshake *)

(** C2, as the specification states it, fails: the challenge of the
    specification's own scenario has no session id inside ["params"], and
    yet the login goes on: it sends the second request, returns the session
    of the second answer and writes it to the session file.  The session
    id of the challenge is read at the top level of the response. *)
Lemma challenge_session_in_params_counterexample :
  params_field sample_challenge (py "session") = JNull
  /\ fst (login_and_get_session Posix str_unused session_txt
            (py "192.168.1.108") (py "admin") (py "pass")
            (fresh no_files [] [inr sample_challenge; inr sample_welcome]))
     = Ret (JStr (py "top"))
  /\ List.length
       (requests_sent
          (trace (snd (login_and_get_session Posix str_unused session_txt
                         (py "192.168.1.108") (py "admin") (py "pass")
                         (fresh no_files [] [inr sample_challenge; inr sample_welcome])))))
     = 2%nat
  /\ data (files (snd (login_and_get_session Posix str_unused session_txt
                         (py "192.168.1.108") (py "admin") (py "pass")
                         (fresh no_files [] [inr sample_challenge; inr sample_welcome])))
             session_txt)
     = Some (octets "top" ++ [10]).
Proof. repeat split; vm_compute; reflexivity. Qed.

(** C2, amended: when the first answer is an object whose ["result"] is
    false, or that has no ["params"], or whose ["params"] is an object in
    which ["realm"] or ["random"] is missing or false, or whose top-level
    ["session"] is missing or false, [login_and_get_session] returns
    [None]; the only request it has sent is the first, and no file has
    changed.  The answer is one that [print] can show: no string of it
    holds a lone surrogate. *)
Theorem login_challenge_refused
    (w : world) (o1 : list (pystr * json)) (rest : list (exn + json)) :
  replies w = inr (JObj o1) :: rest ->
  printable (JObj o1) = true ->
  truthy (dict_get o1 (py "result")) = false
  \/ dict_find (py "params") o1 = None
  \/ (exists params1,
         dict_find (py "params") o1 = Some (JObj params1)
         /\ (truthy (dict_get params1 (py "realm")) = false
             \/ truthy (dict_get params1 (py "random")) = false
             \/ truthy (dict_get o1 (py "session")) = false)) ->
  fst (login w) = Ret JNull
  /\ requests_sent (trace (snd (login w)))
     = requests_sent (trace w) ++ [(login_url ip, payload_step1 username)]
  /\ files (snd (login w)) = files w.
Proof.
  intros Hr Hp Hbad.
  assert (Hc : challenge_ok (JObj o1) = false).
  { unfold challenge_ok. destruct Hbad as [H|[H|(params1 & H & H')]].
    - now rewrite H.
    - rewrite H. apply andb_false_r.
    - rewrite H. destruct H' as [H'|[H'|H']]; rewrite H';
        rewrite ?andb_false_r; reflexivity. }
  assert (Hs : challenge_readable (JObj o1) = true).
  { unfold challenge_readable. destruct Hbad as [H|[H|(params1 & H & _)]];
      rewrite H; [reflexivity | apply orb_true_r | apply orb_true_r]. }
  destruct (login w) as [r w'] eqn:E. cbn [fst snd].
  destruct (run_challenge_refused w (JObj o1) rest r w' Hr Hp Hc E)
    as (_ & Hret & _ & Hsent & _ & _ & Hfiles).
  split; [now apply Hret|]. now split.
Qed.




End Handshake.

(** ** Sample runs *)

Lemma login_challenge_refused_witness :
  fst (login_and_get_session Posix str_unused session_txt
         (py "192.168.1.108") (py "admin") (py "pass")
         (fresh no_files []
            [inr (JObj [ (py "result", JBool true);
                         (py "params", JObj [ (py "random", JStr (py "123456")) ]);
                         (py "session", JStr (py "abc")) ]);
             inr sample_welcome]))
  = Ret JNull.
Proof.
  refine (proj1 (login_challenge_refused Posix str_unused session_txt
                   (py "192.168.1.108") (py "admin") (py "pass")
                   (fresh no_files [] _)
                   [ (py "result", JBool true);
                     (py "params", JObj [ (py "random", JStr (py "123456")) ]);
                     (py "session", JStr (py "abc")) ]
                   [inr sample_welcome] eq_refl eq_refl _)).
  right. right. eexists. split; [reflexivity|]. left. reflexivity.
Defined.




(* ================================================================== *)
(** * Exit statuses of the two scripts *)
(* ================================================================== *)

(** C8, as the specification states it, fails: missing input ends
    [get_id.py] with status 1 and a failed login with status 2, but when no
    session is available (no session file, and the user declines to type
    one), [_session_util.py] catches the [RuntimeError], prints it and ends
    with status 0. *)
Lemma exit_status_counterexample :
  ~ distinct_nonzero
      (exit_status
         (fst (get_id_main Posix str_unused session_txt (ret [])
                 (fresh no_files [] []))))
      (exit_status
         (fst (get_id_main Posix str_unused session_txt (ret sample_creds)
                 (fresh no_files [] []))))
      (exit_status
         (fst (session_util_main Posix lower_ascii session_txt
                 (fresh no_files [py "n"] [])))).
Proof.
  unfold distinct_nonzero. intros (_ & _ & H & _). apply H.
  vm_compute. reflexivity.
Qed.

Example exit_status_missing_input :
  exit_status (fst (get_id_main Posix str_unused session_txt (ret [])
                      (fresh no_files [] []))) = 1.
Proof. vm_compute. reflexivity. Qed.

Example exit_status_login_failed :
  exit_status (fst (get_id_main Posix str_unused session_txt (ret sample_creds)
                      (fresh no_files [] []))) = 2.
Proof. vm_compute. reflexivity. Qed.

Example exit_status_no_session :
  session_util_main Posix lower_ascii session_txt (fresh no_files [py "n"] [])
  = (Ret tt,
     World no_files [] []
       [ Printed [Txt (py "No 'session.txt' found or it's empty.")];
         Printed [Txt (py "RU: Сначала запустите get_id.py, чтобы получить сессию.")];
         Printed [Txt (py "EN: Please run get_id.py first to obtain a session id.")];
         Asked (py "Would you like to enter a session id manually now? / Ввести ID вручную сейчас? [Y/n] ");
         Printed [Txt (py "Error: ");
                  Err (RuntimeError
                         (py "No session id provided. Run get_id.py to create one."))] ]).
Proof. vm_compute. reflexivity. Qed.

Section Main.

Variable os : platform.
Variable str_of : json -> pystr.
Variable lower : pystr -> pystr.
Variable SESSION_FILE : pystr.
Variable _get_credentials_interactive : M (list (pystr * pystr)).

(** C8, amended: [get_id.py] ends with status 1 when the IP address, the
    user name or the password is missing and with status 2 when
    [login_and_get_session] returns [None]; [_session_util.py], when
    [ensure_session] raises its [RuntimeError] for want of a session,
    prints the error and ends with status 0. *)
Theorem exit_statuses (w : world) :
  (forall creds w1,
      _get_credentials_interactive
        (World (files w) (stdin w) (replies w) (trace w ++ [banner])) = (Ret creds, w1) ->
      missing_input creds ->
      exit_status (fst (get_id_main os str_of SESSION_FILE _get_credentials_interactive w))
      = 1)
  /\ (forall creds w1,
         _get_credentials_interactive
           (World (files w) (stdin w) (replies w) (trace w ++ [banner])) = (Ret creds, w1) ->
         ~ missing_input creds ->
         fst (login_and_get_session os str_of SESSION_FILE
                (strip (dict_get_or creds (py "ip") []))
                (strip (dict_get_or creds (py "username") []))
                (dict_get_or creds (py "password") []) w1) = Ret JNull ->
         exit_status (fst (get_id_main os str_of SESSION_FILE _get_credentials_interactive w))
         = 2)
  /\ (forall msg,
         fst (ensure_session os lower SESSION_FILE true w) = Exc (RuntimeError msg) ->
         exit_status (fst (session_util_main os lower SESSION_FILE w)) = 0
         /\ exists before,
             trace (snd (session_util_main os lower SESSION_FILE w))
             = before ++ [Printed [Txt (py "Error: "); Err (RuntimeError msg)]]).
Proof.
  split; [|split].
  - intros creds w1 Hc Hm.
    unfold get_id_main, bind, print, emit. fold banner. rewrite Hc.
    unfold missing_input in Hm.
    destruct (strip (dict_get_or creds (py "ip") [])) as [|a ip'];
      [reflexivity|].
    destruct (strip (dict_get_or creds (py "username") [])) as [|b user'];
      [reflexivity|].
    destruct (dict_get_or creds (py "password") []) as [|c pass'];
      [reflexivity|].
    destruct Hm as [H|[H|H]]; discriminate.
  - intros creds w1 Hc Hm Hl.
    unfold get_id_main, bind, print, emit. fold banner. rewrite Hc.
    unfold missing_input in Hm.
    destruct (strip (dict_get_or creds (py "ip") [])) as [|a ip'];
      [exfalso; apply Hm; now left|].
    destruct (strip (dict_get_or creds (py "username") [])) as [|b user'];
      [exfalso; apply Hm; right; now left|].
    destruct (dict_get_or creds (py "password") []) as [|c pass'];
      [exfalso; apply Hm; right; now right|].
    cbn [orb].
    destruct (login_and_get_session os str_of SESSION_FILE (a :: ip') (b :: user')
                (c :: pass') w1) as [r w2].
    cbn [fst] in Hl. subst r. reflexivity.
  - intros msg He. unfold session_util_main, try_except, bind.
    destruct (ensure_session os lower SESSION_FILE true w) as [r w1].
    cbn [fst] in He. subst r. unfold print, emit. cbn [fst snd trace exit_status].
    split; [reflexivity | now eexists].
Qed.

End Main.

Lemma exit_statuses_witness :
  exit_status (fst (get_id_main Posix str_unused session_txt (ret [])
                      (fresh no_files [] []))) = 1
  /\ exit_status (fst (get_id_main Posix str_unused session_txt (ret sample_creds)
                         (fresh no_files [] []))) = 2
  /\ exit_status (fst (session_util_main Posix lower_ascii session_txt
                         (fresh no_files [py "n"] []))) = 0.
Proof.
  split; [|split].
  - refine (proj1 (exit_statuses Posix str_unused lower_ascii session_txt (ret [])
                     (fresh no_files [] [])) [] _ eq_refl _).
    left. reflexivity.
  - refine (proj1 (proj2 (exit_statuses Posix str_unused lower_ascii session_txt
                            (ret sample_creds) (fresh no_files [] [])))
              sample_creds _ eq_refl _ _).
    + intros [H|[H|H]]; vm_compute in H; discriminate.
    + vm_compute. reflexivity.
  - refine (proj1 (proj2 (proj2 (exit_statuses Posix str_unused lower_ascii session_txt
                                   (ret []) (fresh no_files [py "n"] [])))
                     _ _)).
    vm_compute. reflexivity.
Defined.

(* ================================================================== *)
(** * The shape of the digest *)
(* ================================================================== *)

Lemma le_bytes_length (n : nat) (x : Z) : List.length (MD5.le_bytes n x) = n.
Proof. unfold MD5.le_bytes. now rewrite length_map, length_seq. Qed.

Lemma le_bytes_octets (n : nat) (x : Z) :
  Forall (fun b => 0 <= b < 256) (MD5.le_bytes n x).
Proof.
  unfold MD5.le_bytes. apply Forall_map, Forall_forall. intros i _.
  change 0xFF with (Z.ones 8). rewrite Z.land_ones by lia.
  apply Z.mod_pos_bound. reflexivity.
Qed.

Lemma digest_length (msg : bytes) : List.length (MD5.digest msg) = 16%nat.
Proof. unfold MD5.digest. cbv zeta. now rewrite !length_app, !le_bytes_length. Qed.

Lemma digest_octets (msg : bytes) : Forall (fun b => 0 <= b < 256) (MD5.digest msg).
Proof.
  unfold MD5.digest. cbv zeta. repeat (apply Forall_app; split); apply le_bytes_octets.
Qed.

Lemma hex_digit_upper (n : Z) :
  0 <= n < 16 -> upper_hex (upper_point (MD5.hex_digit n)).
Proof.
  intros H. unfold MD5.hex_digit, upper_point, upper_hex.
  destruct (Z.ltb_spec n 10).
  - replace ((97 <=? 48 + n) && (48 + n <=? 122)) with false; [lia|].
    symmetry. apply andb_false_iff. left. apply Z.leb_gt. lia.
  - replace ((97 <=? 87 + n) && (87 + n <=? 122)) with true; [lia|].
    symmetry. apply andb_true_iff. split; apply Z.leb_le; lia.
Qed.

Lemma upper_hexdigest_shape (msg : bytes) :
  List.length (upper (MD5.hexdigest msg)) = 32%nat
  /\ Forall upper_hex (upper (MD5.hexdigest msg)).
Proof.
  unfold upper, MD5.hexdigest.
  pose proof (digest_length msg) as L. pose proof (digest_octets msg) as O.
  generalize dependent (MD5.digest msg). intros d L O. split.
  - rewrite length_map.
    assert (G : forall l : list Z,
               List.length
                 (flat_map (fun b => [MD5.hex_digit (b / 16); MD5.hex_digit (b mod 16)]) l)
               = (2 * List.length l)%nat).
    { induction l as [|b l IH]; [reflexivity|].
      cbn [flat_map app List.length]. rewrite IH. lia. }
    rewrite G, L. reflexivity.
  - clear L. induction O as [|b l Hb _ IH]; [constructor|].
    cbn [flat_map app map]. constructor; [|constructor; [|exact IH]].
    + apply hex_digit_upper. Z.div_mod_to_equations. lia.
    + apply hex_digit_upper. Z.div_mod_to_equations. lia.
Qed.

(** X1: a digest that [calculate_dahua_auth_hash] returns is 32 characters
    long, each of them one of [0-9] and [A-F], whatever the arguments, the
    encoding and the world. *)
Theorem calculate_dahua_auth_hash_shape
    (username password realm random_key : pystr) (encoding : option codec)
    (w : world) (digest : pystr) :
  fst (calculate_dahua_auth_hash username password realm random_key encoding w)
  = Ret digest ->
  List.length digest = 32%nat /\ Forall upper_hex digest.
Proof.
  rewrite calculate_dahua_auth_hash_result. cbv zeta.
  destruct (codec_encode match encoding with Some c => c | None => latin_1 end)
    as [enc|]; [|discriminate].
  destruct (enc (username ++ py ":" ++ realm ++ py ":" ++ password)) as [b1|];
    [|discriminate].
  destruct (enc (username ++ py ":" ++ random_key ++ py ":" ++ upper (MD5.hexdigest b1)))
    as [b2|]; [|discriminate].
  intros E.
  assert (D : digest = upper (MD5.hexdigest b2)).
  { set (d := upper (MD5.hexdigest b2)) in *. clearbody d. now injection E. }
  subst digest. apply upper_hexdigest_shape.
Qed.

Lemma calculate_dahua_auth_hash_shape_witness :
  List.length (py "5595A2CF84EBEEFE16CC5E1C595DF93A") = 32%nat
  /\ Forall upper_hex (py "5595A2CF84EBEEFE16CC5E1C595DF93A").
Proof.
  apply (calculate_dahua_auth_hash_shape (py "admin") (py "pass") (py "Login1")
           (py "123456") None (fresh no_files [] [])).
  vm_compute. reflexivity.
Defined.

(* ================================================================== *)
(** * The session store: failures of [_save_session_to_file] *)
(* ================================================================== *)

Lemma encode_none_write_newlines (os : platform) (s : pystr) :
  UTF8.encode s = None -> UTF8.encode (write_newlines os s) = None.
Proof.
  destruct os; cbn [write_newlines]; [exact (fun H => H)|].
  induction s as [|c s IH]; cbn [flat_map UTF8.encode]; [discriminate|].
  rewrite encode_app. intros H.
  destruct (Z.eqb_spec c 10) as [->|_].
  - cbn in H |- *.
    destruct (UTF8.encode s); [discriminate|]. now rewrite IH.
  - cbn [UTF8.encode]. destruct (UTF8.encode_point c); [|reflexivity].
    destruct (UTF8.encode s); [discriminate|]. rewrite IH by reflexivity.
    reflexivity.
Qed.

(** X2: when the session file cannot be opened for writing,
    [_save_session_to_file] returns all the same, after a warning that
    names the error; no file has changed, so that a session stored before
    is still what [_read_session_from_file] finds. *)
Theorem save_session_to_file_unwritable
    (os : platform) (path t msg : pystr) (w : world) :
  write_error (files w path) = Some msg ->
  _save_session_to_file os path t w
  = (Ret tt,
     World (files w) (stdin w) (replies w)
       (trace w ++ [Printed [Txt (py "Warning: cannot write session file '");
                             Txt path; Txt (py "': "); Err (OSError msg)]]))
  /\ fst (_read_session_from_file path (snd (_save_session_to_file os path t w)))
     = fst (_read_session_from_file path w).
Proof.
  intros Hw.
  assert (E : _save_session_to_file os path t w
              = (Ret tt,
                 World (files w) (stdin w) (replies w)
                   (trace w ++ [Printed [Txt (py "Warning: cannot write session file '");
                                         Txt path; Txt (py "': "); Err (OSError msg)]]))).
  { unfold _save_session_to_file, try_except, bind, open_w. now rewrite Hw. }
  split; [exact E|]. rewrite E. cbn [snd].
  unfold _read_session_from_file, try_except, bind, read_text. cbn [files].
  destruct (read_error (files w path)); [reflexivity|].
  destruct (data (files w path)) as [bs|]; [|reflexivity].
  destruct (UTF8.decode bs); reflexivity.
Qed.

Lemma save_session_to_file_unwritable_witness :
  fst (_read_session_from_file session_txt
         (snd (_save_session_to_file Posix session_txt (py "new")
                 (fresh (set_file no_files session_txt
                           (File (Some (octets "old")) None (Some (py "Read-only file system"))))
                    [] []))))
  = Ret (Some (py "old")).
Proof.
  rewrite (proj2 (save_session_to_file_unwritable Posix session_txt (py "new")
                    (py "Read-only file system")
                    (fresh (set_file no_files session_txt
                              (File (Some (octets "old")) None
                                 (Some (py "Read-only file system")))) [] [])
                    eq_refl)).
  vm_compute. reflexivity.
Defined.

(** X3: a token that UTF-8 cannot encode (a lone surrogate in it) makes
    [_save_session_to_file] raise [UnicodeEncodeError], which its
    [except OSError] lets through; the file, opened before, is left empty,
    and the session it held is lost: [_read_session_from_file] then
    finds none. *)
Theorem save_session_to_file_unencodable
    (os : platform) (path t : pystr) (w : world) :
  UTF8.encode (strip t) = None ->
  write_error (files w path) = None ->
  fst (_save_session_to_file os path t w) = Exc UnicodeEncodeError
  /\ data (files (snd (_save_session_to_file os path t w)) path) = Some []
  /\ (read_error (files w path) = None ->
      fst (_read_session_from_file path (snd (_save_session_to_file os path t w)))
      = Ret None).
Proof.
  intros He Hw.
  assert (He' : UTF8.encode (write_newlines os (strip t ++ LF)) = None).
  { apply encode_none_write_newlines. rewrite encode_app. now rewrite He. }
  assert (E : _save_session_to_file os path t w
              = (Exc UnicodeEncodeError,
                 World (set_file (files w) path
                          (File (Some []) (read_error (files w path)) None))
                       (stdin w) (replies w) (trace w))).
  { unfold _save_session_to_file, try_except, bind, open_w, write.
    rewrite Hw. cbn [files stdin replies trace]. rewrite He'. reflexivity. }
  rewrite E. cbn [fst snd files]. rewrite set_file_same. cbn [data].
  split; [reflexivity|]. split; [reflexivity|]. intros Hr.
  rewrite (read_session_text path _ [] []); [reflexivity| | |reflexivity];
    cbn [files]; now rewrite set_file_same.
Qed.

Lemma save_session_to_file_unencodable_witness :
  fst (_save_session_to_file Posix session_txt [0x61; 0xD800]
         (fresh (set_file no_files session_txt (File (Some (octets "old")) None None))
            [] []))
  = Exc UnicodeEncodeError
  /\ fst (_read_session_from_file session_txt
            (snd (_save_session_to_file Posix session_txt [0x61; 0xD800]
                    (fresh (set_file no_files session_txt
                              (File (Some (octets "old")) None None)) [] []))))
     = Ret None.
Proof.
  pose proof (save_session_to_file_unencodable Posix session_txt [0x61; 0xD800]
                (fresh (set_file no_files session_txt
                          (File (Some (octets "old")) None None)) [] [])
                eq_refl eq_refl) as H.
  split; [exact (proj1 H) | exact (proj2 (proj2 H) eq_refl)].
Defined.

(** X4: a token made of white space only is stored as an empty line, which
    [_read_session_from_file] reports as no session. *)
Theorem save_blank_then_load
    (os : platform) (path t : pystr) (w : world) :
  strip t = [] ->
  write_error (files w path) = None ->
  read_error (files w path) = None ->
  data (files (snd (_save_session_to_file os path t w)) path)
  = Some (match os with Posix => [10] | Windows => [13; 10] end)
  /\ fst (_read_session_from_file path (snd (_save_session_to_file os path t w)))
     = Ret None.
Proof.
  intros Hs Hw Hr.
  rewrite (save_session_to_file_ok os path t w
             (match os with Posix => [10] | Windows => [13; 10] end) Hw).
  2:{ rewrite Hs. now destruct os. }
  cbn [snd files]. rewrite set_file_same. cbn [data]. split; [reflexivity|].
  rewrite (read_session_text path _ (match os with Posix => [10] | Windows => [13; 10] end)
             (match os with Posix => [10] | Windows => [13; 10] end));
    [now destruct os| | |now destruct os]; cbn [files]; now rewrite set_file_same.
Qed.

Lemma save_blank_then_load_witness :
  fst (_read_session_from_file session_txt
         (snd (_save_session_to_file Windows session_txt (py "   ")
                 (fresh (set_file no_files session_txt
                           (File (Some (octets "old")) None None)) [] []))))
  = Ret None.
Proof.
  exact (proj2 (save_blank_then_load Windows session_txt (py "   ")
                  (fresh (set_file no_files session_txt
                            (File (Some (octets "old")) None None)) [] [])
                  eq_refl eq_refl eq_refl)).
Defined.

(* ================================================================== *)
(** * The console dialogue of [_session_util.py] *)
(* ================================================================== *)

Section Dialogue.

Variable os : platform.
Variable lower : pystr -> pystr.
Variable SESSION_FILE : pystr.

Lemma prompt_loop_answer (prompt : pystr) (default b : bool) (l : pystr)
    (rest : list pystr) :
  answer lower default l = Some b ->
  prompt_loop lower prompt default (l :: rest) = (Ret b, rest, [Asked prompt]).
Proof.
  unfold answer. cbn [prompt_loop]. cbv zeta.
  destruct (str_eqb (lower (strip l)) []); [now intros [= ->]|].
  destruct (existsb (str_eqb (lower (strip l))) yes_answers); [now intros [= <-]|].
  destruct (existsb (str_eqb (lower (strip l))) no_answers); [now intros [= <-]|].
  discriminate.
Qed.

Lemma prompt_loop_again (prompt : pystr) (default : bool) (l : pystr)
    (rest : list pystr) :
  answer lower default l = None ->
  prompt_loop lower prompt default (l :: rest)
  = let '(r, rest', evs) := prompt_loop lower prompt default rest in
    (r, rest',
     Asked prompt
     :: Printed [Txt (py "Please answer with 'y' or 'n' / Ответьте 'y' или 'n'.")]
     :: evs).
Proof.
  unfold answer. cbn [prompt_loop]. cbv zeta.
  destruct (str_eqb (lower (strip l)) []); [discriminate|].
  destruct (existsb (str_eqb (lower (strip l))) yes_answers); [discriminate|].
  destruct (existsb (str_eqb (lower (strip l))) no_answers); [discriminate|].
  reflexivity.
Qed.

(** The loop, up to the first line that is an answer. *)
Lemma prompt_loop_first_answer (prompt : pystr) (default b : bool)
    (noise : list pystr) (line : pystr) (rest : list pystr) :
  Forall (fun l => answer lower default l = None) noise ->
  answer lower default line = Some b ->
  prompt_loop lower prompt default (noise ++ line :: rest)
  = (Ret b, rest,
     flat_map (fun _ =>
                 [Asked prompt;
                  Printed [Txt (py "Please answer with 'y' or 'n' / Ответьте 'y' или 'n'.")]])
       noise
     ++ [Asked prompt]).
Proof.
  intros Hnoise Hline. induction Hnoise as [|l noise Hl _ IH]; cbn [app flat_map].
  - now apply prompt_loop_answer.
  - rewrite (prompt_loop_again _ _ _ _ Hl), IH. reflexivity.
Qed.

(** X5: [_prompt_yes_no] asks again for every line that is no answer and
    stops at the first line that is one: it returns what that line means,
    leaves the lines after it on standard input, and has shown the prompt
    and the reminder once for each line passed over, then the prompt. *)
Theorem prompt_yes_no_first_answer
    (question : pystr) (default b : bool) (w : world)
    (noise : list pystr) (line : pystr) (rest : list pystr) :
  stdin w = noise ++ line :: rest ->
  Forall (fun l => answer lower default l = None) noise ->
  answer lower default line = Some b ->
  _prompt_yes_no lower question default w
  = (Ret b,
     World (files w) rest (replies w)
       (trace w
        ++ flat_map (fun _ => asked_again question default) noise
        ++ [Asked (yes_no_prompt question default)])).
Proof.
  intros Hin Hnoise Hline. unfold _prompt_yes_no. rewrite Hin. cbv zeta.
  fold (yes_no_prompt question default).
  rewrite (prompt_loop_first_answer _ default b noise line rest Hnoise Hline).
  reflexivity.
Qed.

(** X6: when standard input ends before any line is an answer,
    [_prompt_yes_no] raises [EOFError]; it has read every line, and shown
    the prompt once more than there were lines. *)
Theorem prompt_yes_no_end_of_input
    (question : pystr) (default : bool) (w : world) :
  Forall (fun l => answer lower default l = None) (stdin w) ->
  _prompt_yes_no lower question default w
  = (Exc EOFError,
     World (files w) [] (replies w)
       (trace w
        ++ flat_map (fun _ => asked_again question default) (stdin w)
        ++ [Asked (yes_no_prompt question default)])).
Proof.
  intros Hnoise. unfold _prompt_yes_no. cbv zeta.
  fold (yes_no_prompt question default).
  assert (L : forall prompt,
             prompt_loop lower prompt default (stdin w)
             = (Exc EOFError, [],
                flat_map (fun _ =>
                            [Asked prompt;
                             Printed [Txt (py "Please answer with 'y' or 'n' / Ответьте 'y' или 'n'.")]])
                  (stdin w)
                ++ [Asked prompt])).
  { intros prompt. induction Hnoise as [|l noise Hl _ IH]; [reflexivity|].
    rewrite (prompt_loop_again _ _ _ _ Hl), IH. reflexivity. }
  rewrite L. reflexivity.
Qed.

(** What [ensure_session] does once it has found no session and been
    allowed to ask. *)
Lemma ensure_session_asks (w w0 : world) :
  _read_session_from_file SESSION_FILE w = (Ret None, w0) ->
  ensure_session os lower SESSION_FILE true w
  = (yes <- _prompt_yes_no lower
              (py "Would you like to enter a session id manually now? / Ввести ID вручную сейчас?")
              true ;;
     if yes then
       line <- input (py "Enter session id / Введите session id: ") ;;
       match strip line with
       | [] => raise (RuntimeError (py "Empty session id. Aborting."))
       | _ =>
           _save_session_to_file os SESSION_FILE (strip line) ;;
           ret (strip line)
       end
     else
       raise (RuntimeError (py "No session id provided. Run get_id.py to create one.")))%py
      (World (files w0) (stdin w0) (replies w0)
         (trace w0
          ++ [ Printed [Txt (py "No 'session.txt' found or it's empty.")];
               Printed [Txt (py "RU: Сначала запустите get_id.py, чтобы получить сессию.")];
               Printed [Txt (py "EN: Please run get_id.py first to obtain a session id.")] ])).
Proof.
  intros Hread. unfold ensure_session at 1. unfold bind at 1. rewrite Hread.
  cbn [negb]. unfold bind at 1, print at 1, emit at 1.
  unfold bind at 1, print at 1, emit at 1. cbn [files stdin replies trace].
  unfold bind at 1, print at 1, emit at 1. cbn [files stdin replies trace].
  rewrite <- !app_assoc. reflexivity.
Qed.

(** X7: when the session file holds text that is not blank,
    [ensure_session] returns it trimmed, whether it may ask or not, and
    does nothing else: the console, standard input and the files are as
    they were. *)
Theorem ensure_session_stored
    (interactive : bool) (w : world) (bs : bytes) (s : pystr) :
  read_error (files w SESSION_FILE) = None ->
  data (files w SESSION_FILE) = Some bs ->
  UTF8.decode bs = Some s ->
  strip (universal_newlines s) <> [] ->
  ensure_session os lower SESSION_FILE interactive w
  = (Ret (strip (universal_newlines s)), w).
Proof.
  intros Hr Hd Hs Hne. unfold ensure_session, bind.
  rewrite (read_session_text SESSION_FILE w bs s Hr Hd Hs).
  unfold nonempty. destruct (strip (universal_newlines s)); [congruence | reflexivity].
Qed.

(** A file that holds a trimmed, non-empty string and a line end is read
    back as that string. *)
Lemma read_stored_line (path x : pystr) (w : world) (bs : bytes) :
  read_error (files w path) = None ->
  data (files w path) = Some bs ->
  UTF8.encode (write_newlines os (x ++ LF)) = Some bs ->
  head_ok x -> head_ok (rev x) -> x <> [] -> ~ In 13 x ->
  _read_session_from_file path w = (Ret (Some x), w).
Proof.
  intros Hr Hd He H1 H2 Hne Hcr.
  rewrite (read_session_text path w bs (write_newlines os (x ++ LF)) Hr Hd
             (decode_encode _ _ He)).
  rewrite read_back_newlines.
  - rewrite (strip_line x H1 H2 Hne). unfold nonempty. destruct x; congruence.
  - rewrite in_app_iff. intros [H|[H|[]]]; [exact (Hcr H) | discriminate].
Qed.

(** X8: with no session stored, a user who agrees to type a session id
    and types one gets it back trimmed from [ensure_session], and it is
    stored: a later [ensure_session(interactive=False)] returns the same
    id and leaves the world as it finds it. *)
Theorem ensure_session_manual_entry
    (w : world) (noise : list pystr) (line tok : pystr) (rest : list pystr) :
  fst (_read_session_from_file SESSION_FILE w) = Ret None ->
  read_error (files w SESSION_FILE) = None ->
  write_error (files w SESSION_FILE) = None ->
  stdin w = noise ++ line :: tok :: rest ->
  Forall (fun l => answer lower true l = None) noise ->
  answer lower true line = Some true ->
  strip tok <> [] ->
  ~ In 13 (strip tok) ->
  UTF8.encode (strip tok) <> None ->
  fst (ensure_session os lower SESSION_FILE true w) = Ret (strip tok)
  /\ stdin (snd (ensure_session os lower SESSION_FILE true w)) = rest
  /\ ensure_session os lower SESSION_FILE false
       (snd (ensure_session os lower SESSION_FILE true w))
     = (Ret (strip tok), snd (ensure_session os lower SESSION_FILE true w)).
Proof.
  intros Hread Hr Hw Hin Hnoise Hline Hne Hcr Henc.
  destruct (_read_session_from_file SESSION_FILE w) as [r0 w0] eqn:E0.
  cbn [fst] in Hread. subst r0.
  pose proof (read_session_keeps SESSION_FILE w) as (Kf & Ks & _).
  rewrite E0 in Kf, Ks. cbn [snd] in Kf, Ks.
  assert (Henc' : UTF8.encode (strip tok ++ LF) <> None).
  { rewrite encode_app. destruct (UTF8.encode (strip tok)); [discriminate | congruence]. }
  destruct (UTF8.encode (write_newlines os (strip tok ++ LF))) as [bs|] eqn:Ebs;
    [|exfalso; revert Ebs; now apply encode_write_newlines].
  destruct (ensure_session os lower SESSION_FILE true w) as [r1 w1] eqn:E1.
  cbn [fst snd]. rewrite (ensure_session_asks w w0 E0) in E1.
  unfold bind at 1 in E1. unfold _prompt_yes_no in E1.
  cbn [stdin files replies trace] in E1. rewrite Ks, Hin in E1. cbv zeta in E1.
  rewrite (prompt_loop_first_answer _ true true noise line (tok :: rest) Hnoise Hline)
    in E1.
  unfold bind at 1, input at 1 in E1. cbn [stdin files replies trace] in E1.
  destruct (strip tok) as [|c x] eqn:Etok; [congruence|].
  unfold bind at 1 in E1.
  rewrite (save_session_to_file_ok os SESSION_FILE (c :: x) _ bs) in E1.
  2:{ cbn [files]. now rewrite Kf. }
  2:{ rewrite <- Etok, strip_idempotent, Etok. exact Ebs. }
  unfold ret in E1. cbn [stdin files replies trace] in E1.
  apply pair_equal_spec in E1. destruct E1 as [<- <-]. cbn [stdin].
  split; [reflexivity|]. split; [reflexivity|].
  unfold ensure_session, bind.
  rewrite (read_stored_line SESSION_FILE (c :: x) _ bs).
  - reflexivity.
  - cbn [files]. rewrite set_file_same. cbn [read_error]. now rewrite Kf.
  - cbn [files]. now rewrite set_file_same.
  - exact Ebs.
  - rewrite <- Etok. apply strip_head_ok.
  - rewrite <- Etok. apply strip_last_ok.
  - discriminate.
  - exact Hcr.
Qed.

(** X9: with no session stored, a user who declines to type a session id
    makes [ensure_session] raise ["No session id provided. ..."], and one
    who agrees and then types a blank line makes it raise ["Empty session
    id. Aborting."]; either way no file has changed. *)
Theorem ensure_session_refusals
    (w : world) (noise : list pystr) (line : pystr) (rest : list pystr) :
  fst (_read_session_from_file SESSION_FILE w) = Ret None ->
  stdin w = noise ++ line :: rest ->
  Forall (fun l => answer lower true l = None) noise ->
  (answer lower true line = Some false ->
   fst (ensure_session os lower SESSION_FILE true w)
   = Exc (RuntimeError (py "No session id provided. Run get_id.py to create one."))
   /\ stdin (snd (ensure_session os lower SESSION_FILE true w)) = rest
   /\ files (snd (ensure_session os lower SESSION_FILE true w)) = files w)
  /\ (forall tok rest',
         answer lower true line = Some true ->
         rest = tok :: rest' ->
         strip tok = [] ->
         fst (ensure_session os lower SESSION_FILE true w)
         = Exc (RuntimeError (py "Empty session id. Aborting."))
         /\ stdin (snd (ensure_session os lower SESSION_FILE true w)) = rest'
         /\ files (snd (ensure_session os lower SESSION_FILE true w)) = files w).
Proof.
  intros Hread Hin Hnoise.
  destruct (_read_session_from_file SESSION_FILE w) as [r0 w0] eqn:E0.
  cbn [fst] in Hread. subst r0.
  pose proof (read_session_keeps SESSION_FILE w) as (Kf & Ks & _).
  rewrite E0 in Kf, Ks. cbn [snd] in Kf, Ks.
  destruct (ensure_session os lower SESSION_FILE true w) as [r1 w1] eqn:E1.
  cbn [fst snd]. rewrite (ensure_session_asks w w0 E0) in E1.
  unfold bind at 1 in E1. unfold _prompt_yes_no in E1.
  cbn [stdin files replies trace] in E1. rewrite Ks, Hin in E1. cbv zeta in E1. split.
  - intros Hline.
    rewrite (prompt_loop_first_answer _ true false noise line rest Hnoise Hline) in E1.
    unfold raise in E1. apply pair_equal_spec in E1. destruct E1 as [<- <-].
    cbn [stdin files]. now repeat split.
  - intros tok rest' Hline -> Hblank.
    rewrite (prompt_loop_first_answer _ true true noise line (tok :: rest') Hnoise Hline)
      in E1.
    unfold bind at 1, input at 1 in E1. cbn [stdin files replies trace] in E1.
    rewrite Hblank in E1. unfold raise in E1.
    apply pair_equal_spec in E1. destruct E1 as [<- <-].
    cbn [stdin files]. now repeat split.
Qed.

Lemma save_session_to_file_outcome (path t : pystr) (w : world) :
  fst (_save_session_to_file os path t w) = Ret tt
  \/ fst (_save_session_to_file os path t w) = Exc UnicodeEncodeError.
Proof.
  unfold _save_session_to_file, try_except, bind, open_w, write, print, emit.
  destruct (write_error (files w path)); [now left|].
  cbn [files stdin replies trace].
  destruct (UTF8.encode (write_newlines os (strip t ++ LF))); [now left | now right].
Qed.

Lemma prompt_loop_exhaustive (prompt : pystr) (default : bool) (lines : list pystr) :
  exists r rest evs, prompt_loop lower prompt default lines = (r, rest, evs).
Proof. destruct (prompt_loop lower prompt default lines) as [[r rest] evs]. now eexists _, _, _. Qed.

(** X10: whenever [ensure_session] raises a [RuntimeError], whatever was
    stored, typed or allowed, no file has changed: none of its three
    refusals comes after a write. *)
Theorem ensure_session_runtime_error_keeps_files
    (interactive : bool) (w : world) (msg : pystr) :
  fst (ensure_session os lower SESSION_FILE interactive w) = Exc (RuntimeError msg) ->
  files (snd (ensure_session os lower SESSION_FILE interactive w)) = files w.
Proof.
  destruct (_read_session_from_file SESSION_FILE w) as [r0 w0] eqn:E0.
  pose proof (read_session_keeps SESSION_FILE w) as (Kf & _ & _).
  rewrite E0 in Kf. cbn [snd] in Kf.
  destruct (ensure_session os lower SESSION_FILE interactive w) as [r1 w1] eqn:E1.
  cbn [fst snd]. intros ->.
  assert (Done : forall (e : exn) (tr : list event) (si : list pystr),
             (Exc e, World (files w0) si (replies w0) tr)
             = (@Exc pystr (RuntimeError msg), w1) ->
             files w1 = files w).
  { intros e tr si H. apply pair_equal_spec in H. destruct H as [_ <-]. exact Kf. }
  destruct r0 as [[sid|]|e].
  - unfold ensure_session, bind in E1. rewrite E0 in E1. discriminate.
  - destruct interactive.
    + rewrite (ensure_session_asks w w0 E0) in E1.
      unfold bind at 1 in E1. unfold _prompt_yes_no in E1.
      cbn [stdin files replies trace] in E1. cbv zeta in E1.
      destruct (prompt_loop lower
                  ((py "Would you like to enter a session id manually now? / Ввести ID вручную сейчас?")
                   ++ py " " ++ py "[Y/n]" ++ py " ") true (stdin w0))
        as [[r rest] evs].
      destruct r as [[|]|e]; [| exact (Done _ _ _ E1) | exact (Done _ _ _ E1)].
      unfold bind at 1, input at 1 in E1. cbn [stdin files replies trace] in E1.
      destruct rest as [|tok rest]; [exact (Done _ _ _ E1)|].
      destruct (strip tok) as [|c x]; [exact (Done _ _ _ E1)|].
      unfold bind at 1 in E1.
      match type of E1 with
      | context [_save_session_to_file os SESSION_FILE (c :: x) ?W] =>
          destruct (save_session_to_file_outcome SESSION_FILE (c :: x) W) as [O|O];
          destruct (_save_session_to_file os SESSION_FILE (c :: x) W) as [r2 w2];
          cbn [fst] in O; subst r2; discriminate
      end.
    + unfold ensure_session, bind in E1. rewrite E0 in E1. cbn [negb] in E1.
      unfold raise in E1. apply pair_equal_spec in E1. destruct E1 as [_ <-]. exact Kf.
  - unfold ensure_session, bind in E1. rewrite E0 in E1.
    apply pair_equal_spec in E1. destruct E1 as [_ <-]. exact Kf.
Qed.

End Dialogue.

Lemma prompt_yes_no_first_answer_witness :
  _prompt_yes_no lower_ascii (py "Go on?") false
    (fresh no_files [py "maybe"; py "  "; py " YES "; py "left"] [])
  = (Ret false,
     World no_files [py " YES "; py "left"] []
       (asked_again (py "Go on?") false ++ [Asked (yes_no_prompt (py "Go on?") false)])).
Proof.
  apply (prompt_yes_no_first_answer lower_ascii (py "Go on?") false false
           (fresh no_files [py "maybe"; py "  "; py " YES "; py "left"] [])
           [py "maybe"] (py "  ") [py " YES "; py "left"] eq_refl).
  - repeat constructor.
  - reflexivity.
Defined.

Lemma prompt_yes_no_end_of_input_witness :
  fst (_prompt_yes_no lower_ascii (py "Go on?") true
         (fresh no_files [py "maybe"; py "ok"] []))
  = Exc EOFError.
Proof.
  rewrite (prompt_yes_no_end_of_input lower_ascii (py "Go on?") true
             (fresh no_files [py "maybe"; py "ok"] [])); [reflexivity|].
  repeat constructor.
Defined.

Lemma ensure_session_stored_witness :
  ensure_session Posix lower_ascii session_txt true
    (fresh (set_file no_files session_txt (File (Some (octets " 4f2a  ")) None None))
       [py "n"] [])
  = (Ret (py "4f2a"),
     fresh (set_file no_files session_txt (File (Some (octets " 4f2a  ")) None None))
       [py "n"] []).
Proof.
  apply (ensure_session_stored Posix lower_ascii session_txt true
           (fresh (set_file no_files session_txt
                     (File (Some (octets " 4f2a  ")) None None)) [py "n"] [])
           (octets " 4f2a  ") (py " 4f2a  ") eq_refl eq_refl eq_refl).
  vm_compute. discriminate.
Defined.

Lemma ensure_session_manual_entry_witness :
  fst (ensure_session Windows lower_ascii session_txt true
         (fresh no_files [py "what"; py "Yes"; py " 4f2a "; py "left"] []))
  = Ret (py "4f2a")
  /\ fst (ensure_session Windows lower_ascii session_txt false
            (snd (ensure_session Windows lower_ascii session_txt true
                    (fresh no_files [py "what"; py "Yes"; py " 4f2a "; py "left"] []))))
     = Ret (py "4f2a").
Proof.
  pose proof (ensure_session_manual_entry Windows lower_ascii session_txt
                (fresh no_files [py "what"; py "Yes"; py " 4f2a "; py "left"] [])
                [py "what"] (py "Yes") (py " 4f2a ") [py "left"]
                eq_refl eq_refl eq_refl eq_refl
                ltac:(repeat constructor) eq_refl
                ltac:(vm_compute; discriminate)
                ltac:(vm_compute; intuition discriminate)
                ltac:(vm_compute; discriminate)) as (H1 & _ & H3).
  split; [exact H1 | now rewrite H3].
Defined.

Lemma ensure_session_refusals_witness :
  fst (ensure_session Posix lower_ascii session_txt true
         (fresh no_files [py "No"; py "left"] []))
  = Exc (RuntimeError (py "No session id provided. Run get_id.py to create one."))
  /\ fst (ensure_session Posix lower_ascii session_txt true
            (fresh no_files [py ""; py "   "; py "left"] []))
     = Exc (RuntimeError (py "Empty session id. Aborting.")).
Proof.
  split.
  - exact (proj1 (proj1 (ensure_session_refusals Posix lower_ascii session_txt
                           (fresh no_files [py "No"; py "left"] [])
                           [] (py "No") [py "left"] eq_refl eq_refl (Forall_nil _))
                    eq_refl)).
  - exact (proj1 (proj2 (ensure_session_refusals Posix lower_ascii session_txt
                           (fresh no_files [py ""; py "   "; py "left"] [])
                           [] (py "") [py "   "; py "left"] eq_refl eq_refl (Forall_nil _))
                    (py "   ") [py "left"] eq_refl eq_refl eq_refl)).
Defined.

Lemma ensure_session_runtime_error_keeps_files_witness :
  files (snd (ensure_session Posix lower_ascii session_txt false (fresh no_files [] [])))
  = no_files.
Proof.
  exact (ensure_session_runtime_error_keeps_files Posix lower_ascii session_txt false
           (fresh no_files [] [])
           (py "No session found. Run get_id.py first to create 'session.txt'.")
           eq_refl).
Defined.

(* ================================================================== *)
(** * What the login may do *)
(* ================================================================== *)

Section Effects.

Variable path : pystr.

Lemma within_ret (A : Type) (n : nat) (a : A) : within n path (ret a).
Proof.
  intros w r w' E. apply pair_equal_spec in E. destruct E as [_ <-].
  split; [reflexivity|]. split; [reflexivity|]. exists [].
  rewrite app_nil_r. split; [reflexivity | apply Nat.le_0_l].
Qed.

Lemma within_raise (A : Type) (n : nat) (e : exn) : within n path (@raise A e).
Proof.
  intros w r w' E. apply pair_equal_spec in E. destruct E as [_ <-].
  split; [reflexivity|]. split; [reflexivity|]. exists [].
  rewrite app_nil_r. split; [reflexivity | apply Nat.le_0_l].
Qed.

Lemma within_print (n : nat) (line : list frag) : within n path (print line).
Proof.
  intros w r w' E. apply pair_equal_spec in E. destruct E as [_ <-].
  cbn [stdin files trace].
  split; [reflexivity|]. split; [reflexivity|]. exists [].
  rewrite requests_sent_app. split; [reflexivity | apply Nat.le_0_l].
Qed.

Lemma within_print_response (n : nat) (label : pystr) (v : json) :
  within n path (print_response label v).
Proof.
  intros w r w' E. unfold print_response in E.
  destruct (printable v); [exact (within_print n _ w r w' E)|].
  apply pair_equal_spec in E. destruct E as [_ <-]. cbn [stdin files trace].
  split; [reflexivity|]. split; [reflexivity|]. exists [].
  rewrite requests_sent_app. split; [reflexivity | apply Nat.le_0_l].
Qed.

Lemma within_post (url : pystr) (payload : json) : within 1 path (post url payload).
Proof.
  intros w r w' E. unfold post in E.
  destruct (replies w) as [|[e|v] rest];
    apply pair_equal_spec in E; destruct E as [_ <-]; cbn [stdin files trace];
    (split; [reflexivity|]; split; [reflexivity|]; exists [(url, payload)];
     rewrite requests_sent_app; split; [reflexivity | apply Nat.le_refl]).
Qed.

Lemma within_le (A : Type) (n k : nat) (m : M A) :
  (n <= k)%nat -> within n path m -> within k path m.
Proof.
  intros Hle H w r w' E. destruct (H w r w' E) as (Hs & Hf & sent & Hq & Hl).
  split; [exact Hs|]. split; [exact Hf|]. exists sent. split; [exact Hq | lia].
Qed.

Lemma within_bind (A B : Type) (n k : nat) (m : M A) (f : A -> M B) :
  within n path m -> (forall a, within k path (f a)) ->
  within (n + k) path (bind m f).
Proof.
  intros Hm Hf w r w' E. unfold bind in E.
  destruct (m w) as [[a|e] w1] eqn:E1;
    destruct (Hm w _ w1 E1) as (Hs1 & Hf1 & sent1 & Hq1 & Hl1).
  - destruct (Hf a w1 r w' E) as (Hs2 & Hf2 & sent2 & Hq2 & Hl2).
    split; [congruence|]. split.
    + intros p Hp. rewrite (Hf2 p Hp). exact (Hf1 p Hp).
    + exists (sent1 ++ sent2). rewrite Hq2, Hq1, <- app_assoc, length_app.
      split; [reflexivity | lia].
  - apply pair_equal_spec in E. destruct E as [_ <-].
    split; [exact Hs1|]. split; [exact Hf1|]. exists sent1. split; [exact Hq1 | lia].
Qed.

(** A step that sends nothing, before a rest that may send [n]. *)
Lemma within_after (A B : Type) (n : nat) (m : M A) (f : A -> M B) :
  within 0 path m -> (forall a, within n path (f a)) -> within n path (bind m f).
Proof. intros Hm Hf. exact (within_bind A B 0 n m f Hm Hf). Qed.

Lemma within_try_except (A : Type) (n k : nat) (body : M A)
    (handlers : exn -> option (M A)) :
  within n path body ->
  (forall e h, handlers e = Some h -> within k path h) ->
  within (n + k) path (try_except body handlers).
Proof.
  intros Hb Hh w r w' E. unfold try_except in E.
  destruct (body w) as [[a|e] w1] eqn:E1;
    destruct (Hb w _ w1 E1) as (Hs1 & Hf1 & sent1 & Hq1 & Hl1).
  - apply pair_equal_spec in E. destruct E as [_ <-].
    split; [exact Hs1|]. split; [exact Hf1|]. exists sent1. split; [exact Hq1 | lia].
  - destruct (handlers e) as [h|] eqn:Eh.
    + destruct (Hh e h Eh w1 r w' E) as (Hs2 & Hf2 & sent2 & Hq2 & Hl2).
      split; [congruence|]. split.
      * intros p Hp. rewrite (Hf2 p Hp). exact (Hf1 p Hp).
      * exists (sent1 ++ sent2). rewrite Hq2, Hq1, <- app_assoc, length_app.
        split; [reflexivity | lia].
    + apply pair_equal_spec in E. destruct E as [_ <-].
      split; [exact Hs1|]. split; [exact Hf1|]. exists sent1. split; [exact Hq1 | lia].
Qed.

Lemma within_encode (n : nat) (s : pystr) (c : codec) : within n path (encode s c).
Proof.
  unfold encode. destruct (codec_encode c) as [enc|]; [|apply within_raise].
  destruct (enc s); [apply within_ret | apply within_raise].
Qed.

Lemma within_request (url : pystr) (payload : json) (which : pystr) :
  within 1 path (request url payload which).
Proof.
  unfold request. apply (within_try_except _ 1 0).
  - apply (within_bind _ _ 1 0); [apply within_post | intros; apply within_ret].
  - intros e h Eh. destruct e; try discriminate; apply Some_inj in Eh; subst h;
      (apply within_after; [apply within_print | intros; apply within_ret]).
Qed.

Lemma within_calculate_dahua_auth_hash
    (username password realm random_key : pystr) (encoding : option codec) :
  within 0 path (calculate_dahua_auth_hash username password realm random_key encoding).
Proof.
  unfold calculate_dahua_auth_hash. cbv zeta.
  repeat (apply within_after;
          [first [apply within_print | apply within_encode] | intros]).
  apply within_ret.
Qed.

End Effects.

Lemma set_file_other (fs : pystr -> file) (path p : pystr) (f : file) :
  p <> path -> set_file fs path f p = fs p.
Proof.
  intros H. unfold set_file. destruct (str_eqb p path) eqn:E; [|reflexivity].
  apply str_eqb_eq in E. contradiction.
Qed.

Lemma within_open_w (n : nat) (path : pystr) : within n path (open_w path).
Proof.
  intros w r w' E. unfold open_w in E.
  destruct (write_error (files w path)) as [msg|];
    apply pair_equal_spec in E; destruct E as [_ <-]; cbn [stdin files trace];
    (split; [reflexivity|]; split;
     [intros p Hp; try reflexivity; now apply set_file_other
     | exists []; rewrite app_nil_r; split; [reflexivity | apply Nat.le_0_l]]).
Qed.

Lemma within_write (n : nat) (os : platform) (path s : pystr) :
  within n path (write os path s).
Proof.
  intros w r w' E. unfold write in E.
  destruct (UTF8.encode (write_newlines os s)) as [bs|];
    apply pair_equal_spec in E; destruct E as [_ <-]; cbn [stdin files trace];
    (split; [reflexivity|]; split;
     [intros p Hp; try reflexivity; now apply set_file_other
     | exists []; rewrite app_nil_r; split; [reflexivity | apply Nat.le_0_l]]).
Qed.

Lemma within_save_session (os : platform) (path : pystr) (session_id : json) :
  within 0 path (_save_session os path session_id).
Proof.
  unfold _save_session. apply (within_try_except path _ 0 0).
  - apply within_after; [apply within_open_w | intros _].
    apply within_after.
    + destruct session_id; first [apply within_ret | apply within_raise].
    + intros s. apply within_after; [apply within_write | intros _; apply within_print].
  - intros e h Eh. destruct (is_Exception e); [|discriminate].
    apply Some_inj in Eh. subst h. apply within_print.
Qed.

Lemma request_sends_one (url : pystr) (payload : json) (which : pystr)
    (w : world) (r : result (option json)) (w' : world) :
  request url payload which w = (r, w') ->
  stdin w' = stdin w /\ files w' = files w
  /\ requests_sent (trace w') = requests_sent (trace w) ++ [(url, payload)].
Proof.
  unfold request, try_except, bind, post, print, emit, ret.
  destruct (replies w) as [|[e|v] rest]; cbn [files stdin replies trace];
    try destruct e; intros E; apply pair_equal_spec in E; destruct E as [_ <-];
    cbn [files stdin replies trace]; rewrite ?requests_sent_app;
    cbn [requests_sent flat_map app]; rewrite ?app_nil_r; now repeat split.
Qed.

(** Proves [within] goals on the code of the login by following its
    shape. *)
Ltac within_tac :=
  repeat first
    [ apply within_ret
    | apply within_raise
    | apply within_print
    | apply within_print_response
    | apply within_calculate_dahua_auth_hash
    | apply within_save_session
    | apply within_request
    | apply within_after; [solve [within_tac] | intros ?]
    | apply (within_bind _ _ _ 1 0); [apply within_request | intros ?]
    | match goal with
      | |- within _ _ (match ?x with _ => _ end) => destruct x
      | |- within _ _ (if ?c then _ else _) => destruct c
      end ].

Section LoginEffects.

Variable os : platform.
Variable str_of : json -> pystr.
Variable SESSION_FILE : pystr.
Variables ip username password : pystr.

(** X11: whatever the device answers or fails to answer, whatever the
    world, [login_and_get_session] first sends the challenge request and
    then at most one request more; it reads nothing from standard input
    and changes no file other than the session file. *)
Theorem login_effects (w : world) :
  stdin (snd (login_and_get_session os str_of SESSION_FILE ip username password w))
  = stdin w
  /\ (forall p, p <> SESSION_FILE ->
      files (snd (login_and_get_session os str_of SESSION_FILE ip username password w)) p
      = files w p)
  /\ exists more,
      requests_sent
        (trace (snd (login_and_get_session os str_of SESSION_FILE ip username password w)))
      = requests_sent (trace w) ++ (login_url ip, payload_step1 username) :: more
      /\ (List.length more <= 1)%nat.
Proof.
  destruct (login_and_get_session os str_of SESSION_FILE ip username password w)
    as [r w'] eqn:E.
  cbn [snd]. unfold login_and_get_session in E. cbv zeta in E.
  fold (login_url ip) in E.
  unfold bind at 1, print at 1, emit at 1 in E.
  unfold bind at 1, print at 1, emit at 1 in E. cbn [files stdin replies trace] in E.
  unfold bind at 1 in E.
  match type of E with
  | context [request ?u ?p ?wh ?W] =>
      destruct (request u p wh W) as [r1 W1] eqn:Q;
      apply request_sends_one in Q; destruct Q as (Qs & Qf & Qr)
  end.
  cbn [files stdin replies trace] in Qs, Qf, Qr.
  rewrite !requests_sent_app in Qr. cbn [requests_sent flat_map app] in Qr.
  rewrite !app_nil_r in Qr.
  assert (Stop : forall r0 : result json,
             (r0, W1) = (r, w') ->
             stdin w' = stdin w
             /\ (forall p, p <> SESSION_FILE -> files w' p = files w p)
             /\ exists more,
                 requests_sent (trace w')
                 = requests_sent (trace w) ++ (login_url ip, payload_step1 username) :: more
                 /\ (List.length more <= 1)%nat).
  { intros r0 H. apply pair_equal_spec in H. destruct H as [_ <-].
    split; [exact Qs|]. split; [intros p _; now rewrite Qf|].
    exists []. split; [exact Qr | apply Nat.le_0_l]. }
  destruct r1 as [[resp1|]|e]; [| exact (Stop _ E) | exact (Stop _ E)].
  match type of E with
  | ?K W1 = _ =>
      assert (HK : within 1 SESSION_FILE K) by within_tac;
      destruct (HK W1 r w' E) as (Hs & Hf & sent & Hq & Hl)
  end.
  split; [congruence|]. split.
  - intros p Hp. rewrite (Hf p Hp). now rewrite Qf.
  - exists sent. rewrite Hq, Qr, <- app_assoc. split; [reflexivity | exact Hl].
Qed.

End LoginEffects.

(* ================================================================== *)
(** * The login when a request fails *)
(* ================================================================== *)

(** From an accepted challenge to the facts that the code tests. *)
Ltac open_challenge Hc Hd R1 P1 T1 T2 params1 :=
  unfold challenge_ok in Hc; unfold params_field in Hd;
  match type of Hc with
  | context [truthy (dict_get ?o ?k)] =>
      destruct (truthy (dict_get o k)) eqn:R1; [|discriminate]
  end;
  match type of Hc with
  | context [dict_find ?k ?o] =>
      destruct (dict_find k o) as [[| | | | | |params1]|] eqn:P1; try discriminate
  end;
  cbn [andb] in Hc;
  match type of Hc with
  | context [truthy (dict_get params1 ?k) && truthy (dict_get params1 ?k')] =>
      destruct (truthy (dict_get params1 k)) eqn:T1; [|discriminate];
      destruct (truthy (dict_get params1 k')) eqn:T2; [|discriminate]
  end;
  cbn [andb] in Hc.

(** Runs the login in [E] up to the answer to the second request. *)
Ltac run_to_second_request E Hc Hd Hp evs Hev :=
  let R1 := fresh "R1" in let P1 := fresh "P1" in
  let T1 := fresh "T1" in let T2 := fresh "T2" in
  let params1 := fresh "params1" in let Hrun := fresh "Hrun" in
  open_challenge Hc Hd R1 P1 T1 T2 params1;
  destruct (calculate_dahua_auth_hash_run _ _ _ _ _ Hd) as (evs & Hev & Hrun);
  unfold login_and_get_session in E; step_in E;
  rewrite Hp in E; step_in E;
  rewrite R1, P1 in E; cbn [negb orb] in E;
  rewrite (dict_get_found _ _ _ P1) in E;
  cbn [forallb] in E; rewrite T1, T2, Hc in E; cbn [andb negb] in E;
  step_in E; rewrite Hrun in E; step_in E.

(** The requests of a finished trace. *)
Ltac requests Hev :=
  cbn [files stdin replies trace]; rewrite !requests_sent_app;
  cbn [requests_sent flat_map app];
  rewrite ?Hev; cbn [app]; rewrite ?app_nil_r, <- ?app_assoc; reflexivity.

Section Failures.

Variable os : platform.
Variable str_of : json -> pystr.
Variable SESSION_FILE : pystr.
Variables ip username password : pystr.

(** X12: when the first request fails, [login_and_get_session] returns
    [None] for a [RequestException] (a device that answers nothing, which
    times out, included) and for a [JSONDecodeError], and lets any other
    exception through; it has sent the one request and changed no file. *)
Theorem login_first_request_fails (w : world) :
  (replies w = [] ->
   fst (login_and_get_session os str_of SESSION_FILE ip username password w) = Ret JNull)
  /\ (forall e rest,
         replies w = inl e :: rest ->
         fst (login_and_get_session os str_of SESSION_FILE ip username password w)
         = match e with
           | RequestException _ | JSONDecodeError => Ret JNull
           | _ => Exc e
           end)
  /\ (replies w = [] \/ (exists e rest, replies w = inl e :: rest) ->
      requests_sent
        (trace (snd (login_and_get_session os str_of SESSION_FILE ip username password w)))
      = requests_sent (trace w) ++ [(login_url ip, payload_step1 username)]
      /\ files (snd (login_and_get_session os str_of SESSION_FILE ip username password w))
         = files w).
Proof.
  destruct (login_and_get_session os str_of SESSION_FILE ip username password w)
    as [r w'] eqn:E.
  cbn [fst snd]. destruct w as [fs si rp tr]. cbn [replies files trace].
  unfold login_and_get_session in E. fold (login_url ip) in E.
  split; [|split].
  - intros ->. step_in E. done_in E. reflexivity.
  - intros e rest ->. step_in E. destruct e; step_in E; done_in E; reflexivity.
  - intros [->|(e & rest & ->)]; step_in E; [|destruct e; step_in E]; done_in E;
      (split; [|reflexivity]); rewrite !requests_sent_app;
      cbn [requests_sent flat_map app]; now rewrite ?app_nil_r.
Qed.

(** X13: when the challenge, an answer that [print] can show, was
    accepted and the second request fails,
    [login_and_get_session] returns [None] for a [RequestException] and for
    a [JSONDecodeError] and lets any other exception through.  It has sent
    two requests: the second has the digest in place of the password, the
    digest being the one of the user name, the password and the challenge's
    realm and random, and carries the session id of the challenge.  No
    file has changed. *)
Theorem login_second_request_fails
    (w : world) (o1 : list (pystr * json)) (e : exn) (rest : list (exn + json))
    (digest : pystr) :
  replies w = inr (JObj o1) :: inl e :: rest ->
  printable (JObj o1) = true ->
  challenge_ok (JObj o1) = true ->
  derive username password
         (format str_of (params_field (JObj o1) (py "realm")))
         (format str_of (params_field (JObj o1) (py "random"))) latin_1 = Some digest ->
  fst (login_and_get_session os str_of SESSION_FILE ip username password w)
  = match e with
    | RequestException _ | JSONDecodeError => Ret JNull
    | _ => Exc e
    end
  /\ requests_sent
       (trace (snd (login_and_get_session os str_of SESSION_FILE ip username password w)))
     = requests_sent (trace w)
       ++ [(login_url ip, payload_step1 username);
           (login_url ip, payload_step2 username digest (dict_get o1 (py "session")))]
  /\ files (snd (login_and_get_session os str_of SESSION_FILE ip username password w))
     = files w.
Proof.
  intros Hr Hp Hc Hd.
  destruct (login_and_get_session os str_of SESSION_FILE ip username password w)
    as [r w'] eqn:E.
  cbn [fst snd]. destruct w as [fs si rp tr]. cbn [replies] in Hr. subst rp.
  cbn [files trace]. run_to_second_request E Hc Hd Hp evs Hev.
  fold (login_url ip) in E.
  destruct e; step_in E; done_in E;
    (split; [reflexivity|]; split; [requests Hev | reflexivity]).
Qed.

End Failures.

Lemma login_first_request_fails_witness :
  fst (login_and_get_session Posix str_unused session_txt
         (py "192.168.1.108") (py "admin") (py "pass") (fresh no_files [] []))
  = Ret JNull
  /\ fst (login_and_get_session Posix str_unused session_txt
            (py "192.168.1.108") (py "admin") (py "pass")
            (fresh no_files [] [inl JSONDecodeError]))
     = Ret JNull
  /\ fst (login_and_get_session Posix str_unused session_txt
            (py "192.168.1.108") (py "admin") (py "pass")
            (fresh no_files [] [inl (OSError (py "Broken pipe"))]))
     = Exc (OSError (py "Broken pipe")).
Proof.
  split; [|split].
  - exact (proj1 (login_first_request_fails Posix str_unused session_txt
                    (py "192.168.1.108") (py "admin") (py "pass")
                    (fresh no_files [] [])) eq_refl).
  - exact (proj1 (proj2 (login_first_request_fails Posix str_unused session_txt
                           (py "192.168.1.108") (py "admin") (py "pass")
                           (fresh no_files [] [inl JSONDecodeError])))
             JSONDecodeError [] eq_refl).
  - exact (proj1 (proj2 (login_first_request_fails Posix str_unused session_txt
                           (py "192.168.1.108") (py "admin") (py "pass")
                           (fresh no_files [] [inl (OSError (py "Broken pipe"))])))
             (OSError (py "Broken pipe")) [] eq_refl).
Defined.

Lemma login_second_request_fails_witness :
  fst (login_and_get_session Posix str_unused session_txt
         (py "192.168.1.108") (py "admin") (py "pass")
         (fresh no_files [] [inr sample_challenge; inl (RequestException (py "reset"))]))
  = Ret JNull.
Proof.
  exact (proj1 (login_second_request_fails Posix str_unused session_txt
                  (py "192.168.1.108") (py "admin") (py "pass")
                  (fresh no_files [] _) sample_challenge_fields
                  (RequestException (py "reset")) []
                  (py "5595A2CF84EBEEFE16CC5E1C595DF93A")
                  eq_refl eq_refl eq_refl ltac:(vm_compute; reflexivity))).
Defined.

(* ================================================================== *)
(** * The login when an answer cannot be shown *)
(* ================================================================== *)

(** A string of code points can be encoded when none is a surrogate. *)
Lemma encodable_surrogate (s : pystr) :
  Forall (fun c => 0 <= c < 0x110000) s ->
  encodable s = negb (existsb surrogate s).
Proof.
  unfold encodable. induction 1 as [|c s Hc _ IH]; [reflexivity|].
  cbn [UTF8.encode existsb]. unfold UTF8.encode_point, surrogate at 1.
  destruct (Z.ltb_spec c 0); [lia|].
  destruct (Z.ltb_spec c 0x80).
  { replace ((0xD800 <=? c) && (c <=? 0xDFFF)) with false
      by (symmetry; apply andb_false_intro1; apply Z.leb_gt; lia).
    cbn [orb]. rewrite <- IH. now destruct (UTF8.encode s). }
  destruct (Z.ltb_spec c 0x800).
  { replace ((0xD800 <=? c) && (c <=? 0xDFFF)) with false
      by (symmetry; apply andb_false_intro1; apply Z.leb_gt; lia).
    cbn [orb]. rewrite <- IH. now destruct (UTF8.encode s). }
  destruct (Z.ltb_spec c 0x10000).
  { destruct ((0xD800 <=? c) && (c <=? 0xDFFF)); [reflexivity|].
    cbn [orb]. rewrite <- IH. now destruct (UTF8.encode s). }
  destruct (Z.ltb_spec c 0x110000); [|lia].
  replace ((0xD800 <=? c) && (c <=? 0xDFFF)) with false
    by (symmetry; apply andb_false_intro2; apply Z.leb_gt; lia).
  cbn [orb]. rewrite <- IH. now destruct (UTF8.encode s).
Qed.

Section Unprintable.

Variable os : platform.
Variable str_of : json -> pystr.
Variable SESSION_FILE : pystr.
Variables ip username password : pystr.



End Unprintable.



(* ================================================================== *)
(** * When the login succeeds *)
(* ================================================================== *)

(** [calculate_dahua_auth_hash] only prints, whatever it returns. *)
Lemma calculate_dahua_auth_hash_any_run
    (username password realm random_key : pystr) (encoding : option codec) :
  exists res evs,
    forall w,
      calculate_dahua_auth_hash username password realm random_key encoding w
      = (res, World (files w) (stdin w) (replies w) (trace w ++ evs)).
Proof.
  unfold calculate_dahua_auth_hash, bind, print, emit, encode, raise, ret. cbv zeta.
  destruct (codec_encode match encoding with Some c => c | None => latin_1 end)
    as [enc|].
  2:{ eexists _, _. intros w. cbn [files stdin replies trace]. reflexivity. }
  destruct (enc (username ++ py ":" ++ realm ++ py ":" ++ password)) as [b1|].
  2:{ eexists _, _. intros w. cbn [files stdin replies trace]. reflexivity. }
  destruct (enc (username ++ py ":" ++ random_key ++ py ":" ++ upper (MD5.hexdigest b1)))
    as [b2|]; eexists _, _; intros w; cbn [files stdin replies trace];
    rewrite <- !app_assoc; cbn [app]; reflexivity.
Qed.

Section Success.

Variable os : platform.
Variable str_of : json -> pystr.
Variable SESSION_FILE : pystr.
Variables ip username password : pystr.

(** X14: [login_and_get_session] returns something other than [None], or
    changes a file, only when the device gave two answers, the first an
    accepted challenge and the second an object whose ["result"] is
    true. *)
Theorem login_success_only_if (w : world) :
  (exists v,
      fst (login_and_get_session os str_of SESSION_FILE ip username password w) = Ret v
      /\ v <> JNull)
  \/ files (snd (login_and_get_session os str_of SESSION_FILE ip username password w))
     <> files w ->
  exists o1 o2 rest,
    replies w = inr (JObj o1) :: inr (JObj o2) :: rest
    /\ challenge_ok (JObj o1) = true
    /\ truthy (dict_get o2 (py "result")) = true.
Proof.
  destruct (login_and_get_session os str_of SESSION_FILE ip username password w)
    as [r w'] eqn:E.
  cbn [fst snd]. destruct w as [fs si rp tr]. cbn [replies files].
  intros H.
  assert (Leaf : forall (r0 : result json) (w0 : world),
             (r0, w0) = (r, w') ->
             (forall v, r0 = Ret v -> v = JNull) -> files w0 = fs -> False).
  { intros r0 w0 H0 Hv Hf. apply pair_equal_spec in H0. destruct H0 as [<- <-].
    destruct H as [(v & H1 & H2)|H]; [exact (H2 (Hv v H1)) | exact (H Hf)]. }
  assert (Nothing : forall v, Ret JNull = Ret v -> v = JNull)
    by (intros v [= <-]; reflexivity).
  unfold login_and_get_session in E.
  destruct rp as [|[e|resp1] rest].
  { step_in E. exfalso. eapply Leaf; [exact E | exact Nothing | reflexivity]. }
  { step_in E. exfalso.
    destruct e; step_in E;
      (eapply Leaf; [exact E | first [exact Nothing | intros ? ?; discriminate] | reflexivity]). }
  step_in E.
  destruct (printable resp1) eqn:Hp1;
    [|step_in E; exfalso; eapply Leaf;
      [exact E | intros ? ?; discriminate | reflexivity]].
  destruct resp1 as [| | | | | |o1];
    try (step_in E; exfalso; eapply Leaf; [exact E | intros ? ?; discriminate | reflexivity]).
  step_in E.
  destruct (truthy (dict_get o1 (py "result"))) eqn:R1; cbn [negb orb] in E;
    [|step_in E; exfalso; eapply Leaf; [exact E | exact Nothing | reflexivity]].
  destruct (dict_find (py "params") o1) as [p1|] eqn:P1;
    [|step_in E; exfalso; eapply Leaf; [exact E | exact Nothing | reflexivity]].
  rewrite (dict_get_found _ _ _ P1) in E.
  destruct p1 as [| | | | | |params1];
    try (step_in E; exfalso; eapply Leaf; [exact E | intros ? ?; discriminate | reflexivity]).
  cbn [forallb] in E.
  destruct (truthy (dict_get params1 (py "realm"))) eqn:T1; cbn [andb negb] in E;
    [|step_in E; exfalso; eapply Leaf; [exact E | exact Nothing | reflexivity]].
  destruct (truthy (dict_get params1 (py "random"))) eqn:T2; cbn [andb negb] in E;
    [|step_in E; exfalso; eapply Leaf; [exact E | exact Nothing | reflexivity]].
  destruct (truthy (dict_get o1 (py "session"))) eqn:T3; cbn [andb negb] in E;
    [|step_in E; exfalso; eapply Leaf; [exact E | exact Nothing | reflexivity]].
  assert (Hc : challenge_ok (JObj o1) = true).
  { unfold challenge_ok. now rewrite R1, P1, T1, T2, T3. }
  step_in E.
  destruct (calculate_dahua_auth_hash_any_run username password
              (format str_of (dict_get params1 (py "realm")))
              (format str_of (dict_get params1 (py "random"))) None)
    as (res & evs & Hrun).
  rewrite Hrun in E. step_in E.
  destruct res as [digest|e];
    [|exfalso; eapply Leaf; [exact E | intros ? ?; discriminate | reflexivity]].
  destruct rest as [|[e|resp2] rest].
  { step_in E. exfalso. eapply Leaf; [exact E | exact Nothing | reflexivity]. }
  { step_in E. exfalso.
    destruct e; step_in E;
      (eapply Leaf; [exact E | first [exact Nothing | intros ? ?; discriminate] | reflexivity]). }
  step_in E.
  destruct (printable resp2) eqn:Hp2;
    [|step_in E; exfalso; eapply Leaf;
      [exact E | intros ? ?; discriminate | reflexivity]].
  destruct resp2 as [| | | | | |o2];
    try (step_in E; exfalso; eapply Leaf; [exact E | intros ? ?; discriminate | reflexivity]).
  step_in E.
  destruct (truthy (dict_get o2 (py "result"))) eqn:R2;
    [|step_in E; exfalso; eapply Leaf; [exact E | exact Nothing | reflexivity]].
  exists o1, o2, rest. now repeat split.
Qed.

End Success.

Lemma login_success_only_if_witness :
  exists o1 o2 rest,
    replies (fresh no_files [] [inr sample_challenge; inr sample_welcome])
    = inr (JObj o1) :: inr (JObj o2) :: rest
    /\ challenge_ok (JObj o1) = true
    /\ truthy (dict_get o2 (py "result")) = true.
Proof.
  apply (login_success_only_if Posix str_unused session_txt
           (py "192.168.1.108") (py "admin") (py "pass")
           (fresh no_files [] [inr sample_challenge; inr sample_welcome])).
  left. exists (JStr (py "top")). split; [vm_compute; reflexivity | discriminate].
Defined.

(* ================================================================== *)
(** * The credentials file *)
(* ================================================================== *)

(** ** More on [strip] *)

Lemma lstrip_app (x y : pystr) :
  lstrip (x ++ y) = match lstrip x with [] => lstrip y | l => l ++ y end.
Proof.
  induction x as [|c x IH]; [reflexivity|]. cbn [app lstrip].
  destruct (is_space c); [exact IH | reflexivity].
Qed.

Lemma rstrip_cons (c : Z) (v : pystr) :
  rstrip (c :: v)
  = match rstrip v with
    | [] => if is_space c then [] else [c]
    | _ => c :: rstrip v
    end.
Proof.
  unfold rstrip. cbn [rev]. rewrite lstrip_app.
  destruct (lstrip (rev v)) as [|d l]; cbn [rev lstrip].
  - now destruct (is_space c).
  - rewrite rev_app_distr. cbn [rev app].
    destruct (rev l ++ [d]) eqn:E; [now destruct (rev l)|reflexivity].
Qed.

Lemma rstrip_app_stop (x y : pystr) :
  x <> [] -> head_ok (rev x) -> rstrip (x ++ y) = x ++ rstrip y.
Proof.
  intros Hne Hx. unfold rstrip. rewrite rev_app_distr, lstrip_app.
  destruct (lstrip (rev y)) as [|d l].
  - rewrite (lstrip_fixed _ Hx), rev_involutive. cbn [rev]. now rewrite app_nil_r.
  - rewrite rev_app_distr, rev_involutive. reflexivity.
Qed.

Lemma rstrip_line (v : pystr) : rstrip (v ++ LF) = rstrip v.
Proof.
  unfold rstrip. rewrite rev_app_distr. cbn [LF rev app lstrip].
  now replace (is_space 10) with true by reflexivity.
Qed.

Lemma lstrip_rstrip (v : pystr) : lstrip (rstrip v) = rstrip (lstrip v).
Proof.
  induction v as [|c v IH]; [reflexivity|]. rewrite rstrip_cons. cbn [lstrip].
  destruct (is_space c) eqn:Ec.
  - destruct (rstrip v) as [|d l] eqn:Er.
    + rewrite <- IH. reflexivity.
    + cbn [lstrip]. rewrite Ec. exact IH.
  - rewrite rstrip_cons.
    destruct (rstrip v) as [|d l]; cbn [lstrip]; now rewrite Ec.
Qed.

Lemma rstrip_idempotent (v : pystr) : rstrip (rstrip v) = rstrip v.
Proof.
  unfold rstrip. rewrite rev_involutive.
  now rewrite (lstrip_fixed _ (lstrip_head_ok (rev v))).
Qed.

Lemma strip_rstrip (v : pystr) : strip (rstrip v) = strip v.
Proof. unfold strip. now rewrite lstrip_rstrip, rstrip_idempotent. Qed.

(** A line ["key=value\n"] of the file, trimmed. *)
Lemma strip_key_line (key v : pystr) :
  plain_key key -> strip (key ++ py "=" ++ v ++ LF) = key ++ py "=" ++ rstrip v.
Proof.
  intros (Hne & Hh & Hl & _ & _). unfold strip.
  rewrite (lstrip_fixed (key ++ py "=" ++ v ++ LF)).
  2:{ destruct key; [congruence | exact Hh]. }
  rewrite (rstrip_app_stop key _ Hne Hl). f_equal.
  change (py "=" ++ v ++ LF) with ([0x3D] ++ (v ++ LF)).
  rewrite (rstrip_app_stop [0x3D]); [|discriminate|reflexivity].
  now rewrite rstrip_line.
Qed.

Lemma split_once_key (key rest : pystr) :
  ~ In 0x3D key -> split_once 0x3D (key ++ 0x3D :: rest) = Some (key, rest).
Proof.
  induction key as [|c key IH]; intros H; cbn [app split_once].
  - reflexivity.
  - destruct (Z.eqb_spec c 0x3D) as [->|_]; [exfalso; apply H; now left|].
    rewrite IH; [reflexivity|]. intros ?. apply H. now right.
Qed.

(** ** One line of the file *)

Section Lines.

Variable lower : pystr -> pystr.

Lemma parse_key_line (creds : list (pystr * pystr)) (key v : pystr) :
  plain_key key ->
  get_id.parse_line lower creds (key ++ py "=" ++ v ++ LF)
  = dict_set creds (lower key) (strip v).
Proof.
  intros Hk. unfold get_id.parse_line. cbv zeta. rewrite (strip_key_line key v Hk).
  destruct Hk as (Hne & Hh & Hl & Hc & He).
  destruct key as [|c key]; [congruence|]. cbn [app orb].
  change (startswith (py "#") (c :: key ++ py "=" ++ rstrip v))
    with (startswith (py "#") (c :: key)).
  rewrite Hc.
  change (c :: key ++ py "=" ++ rstrip v) with ((c :: key) ++ 0x3D :: rstrip v).
  rewrite (split_once_key _ _ He), strip_rstrip.
  rewrite (strip_fixed (c :: key) Hh Hl). reflexivity.
Qed.

End Lines.

(** ** The lines of a text *)

Lemma file_lines_line (cur x rest : pystr) :
  ~ In 10 x -> file_lines cur (x ++ LF ++ rest) = (cur ++ x ++ LF) :: file_lines [] rest.
Proof.
  revert cur. induction x as [|c x IH]; intros cur H; cbn [app LF file_lines].
  - reflexivity.
  - destruct (Z.eqb_spec c 10) as [->|_]; [exfalso; apply H; now left|].
    rewrite IH by (intros ?; apply H; now right).
    now rewrite <- app_assoc.
Qed.

(** ** Writing the file *)

Lemma write_newlines_app (os : platform) (a b : pystr) :
  write_newlines os (a ++ b) = write_newlines os a ++ write_newlines os b.
Proof. destruct os; cbn [write_newlines]; [reflexivity | apply flat_map_app]. Qed.

Lemma encode_chunks (os : platform) (a b : pystr) (bs : bytes) :
  UTF8.encode (write_newlines os (a ++ b)) = Some bs ->
  exists x y,
    UTF8.encode (write_newlines os a) = Some x
    /\ UTF8.encode (write_newlines os b) = Some y
    /\ bs = x ++ y.
Proof.
  rewrite write_newlines_app, encode_app.
  destruct (UTF8.encode (write_newlines os a)) as [x|]; [|discriminate].
  destruct (UTF8.encode (write_newlines os b)) as [y|]; [|discriminate].
  intros H. apply Some_inj in H. now exists x, y.
Qed.

Lemma write_appends (os : platform) (path s : pystr) (w : world) (old bs : bytes) :
  data (files w path) = Some old ->
  UTF8.encode (write_newlines os s) = Some bs ->
  write os path s w
  = (Ret tt,
     World (set_file (files w) path
              (File (Some (old ++ bs)) (read_error (files w path))
                 (write_error (files w path))))
           (stdin w) (replies w) (trace w)).
Proof. intros Hd He. unfold write. now rewrite He, Hd. Qed.

Lemma one_line_encode (os : platform) (ip username password : pystr) :
  one_line ip -> one_line username -> one_line password ->
  UTF8.encode (write_newlines os (credentials_text ip username password)) <> None.
Proof.
  intros (_ & _ & Hi) (_ & _ & Hu) (_ & _ & Hp).
  apply encode_write_newlines. unfold credentials_text.
  rewrite !encode_app.
  destruct (UTF8.encode ip); [|congruence].
  destruct (UTF8.encode username); [|congruence].
  destruct (UTF8.encode password); [|congruence].
  replace (UTF8.encode (py "# Plaintext credentials for Dahua device"))
    with (Some (octets "# Plaintext credentials for Dahua device"))
    by (vm_compute; reflexivity).
  replace (UTF8.encode (py "ip=")) with (Some (octets "ip=")) by (vm_compute; reflexivity).
  replace (UTF8.encode (py "username=")) with (Some (octets "username="))
    by (vm_compute; reflexivity).
  replace (UTF8.encode (py "password=")) with (Some (octets "password="))
    by (vm_compute; reflexivity).
  replace (UTF8.encode LF) with (Some [10]) by reflexivity.
  discriminate.
Qed.

Section SaveCredentials.

Variable os : platform.
Variable makedirs : pystr -> M unit.
Variable dirname : pystr -> pystr.

(** What [_save_credentials] leaves when nothing fails. *)
Lemma save_credentials_run
    (path : pystr) (creds : list (pystr * pystr)) (ip username password : pystr)
    (w : world) (bs : bytes) :
  makedirs (dirname path) w = (Ret tt, w) ->
  dict_find (py "ip") creds = Some ip ->
  dict_find (py "username") creds = Some username ->
  dict_find (py "password") creds = Some password ->
  UTF8.encode (write_newlines os (credentials_text ip username password)) = Some bs ->
  write_error (files w path) = None ->
  exists w',
    get_id._save_credentials os makedirs dirname path creds w = (Ret tt, w')
    /\ files w' path = File (Some bs) (read_error (files w path)) None
    /\ (forall p, p <> path -> files w' p = files w p)
    /\ stdin w' = stdin w /\ replies w' = replies w /\ trace w' = trace w.
Proof.
  intros Hm Hi Hu Hp He Hw. unfold credentials_text in He.
  apply encode_chunks in He. destruct He as (b0 & y0 & E0 & He & ->).
  apply encode_chunks in He. destruct He as (b1 & y1 & E1 & He & ->).
  apply encode_chunks in He. destruct He as (b2 & b3 & E2 & E3 & ->).
  unfold get_id._save_credentials. unfold bind at 1. rewrite Hm.
  unfold bind at 1, open_w. rewrite Hw.
  unfold bind at 1.
  rewrite (write_appends os path _ _ [] b0) by
    (cbn [files]; rewrite ?set_file_same; first [reflexivity | exact E0]).
  cbn [files stdin replies trace]. rewrite !set_file_same. cbn [read_error write_error].
  unfold bind at 1, get_id.item at 1. rewrite Hi. unfold ret at 1.
  unfold bind at 1.
  rewrite (write_appends os path _ _ ([] ++ b0) b1) by
    (cbn [files]; rewrite ?set_file_same; first [reflexivity | exact E1]).
  cbn [files stdin replies trace]. rewrite !set_file_same. cbn [read_error write_error].
  unfold bind at 1, get_id.item at 1. rewrite Hu. unfold ret at 1.
  unfold bind at 1.
  rewrite (write_appends os path _ _ (([] ++ b0) ++ b1) b2) by
    (cbn [files]; rewrite ?set_file_same; first [reflexivity | exact E2]).
  cbn [files stdin replies trace]. rewrite !set_file_same. cbn [read_error write_error].
  unfold bind at 1, get_id.item at 1. rewrite Hp. unfold ret at 1.
  rewrite (write_appends os path _ _ ((([] ++ b0) ++ b1) ++ b2) b3) by
    (cbn [files]; rewrite ?set_file_same; first [reflexivity | exact E3]).
  cbn [files stdin replies trace]. rewrite !set_file_same. cbn [read_error write_error].
  eexists. split; [reflexivity|]. cbn [files stdin replies trace].
  split; [rewrite set_file_same; cbn [app]; now rewrite <- !app_assoc|].
  split; [|now repeat split].
  intros p Hp'. now rewrite !set_file_other by exact Hp'.
Qed.

End SaveCredentials.

(** ** Reading it back *)

Lemma plain_key_ip : plain_key (py "ip").
Proof. unfold plain_key. repeat split; vm_compute; intuition discriminate. Qed.

Lemma plain_key_username : plain_key (py "username").
Proof. unfold plain_key. repeat split; vm_compute; intuition discriminate. Qed.

Lemma plain_key_password : plain_key (py "password").
Proof. unfold plain_key. repeat split; vm_compute; intuition discriminate. Qed.

Lemma not_in_app (c : Z) (a b : pystr) : ~ In c a -> ~ In c b -> ~ In c (a ++ b).
Proof. intros Ha Hb H. apply in_app_iff in H. tauto. Qed.

Lemma credentials_text_no_cr (ip username password : pystr) :
  one_line ip -> one_line username -> one_line password ->
  ~ In 13 (credentials_text ip username password).
Proof.
  intros (_ & Hi & _) (_ & Hu & _) (_ & Hp & _). unfold credentials_text.
  repeat apply not_in_app; try assumption; vm_compute; intuition discriminate.
Qed.

Section ParseCredentials.

Variable lower : pystr -> pystr.

Hypothesis lower_ip : lower (py "ip") = py "ip".
Hypothesis lower_username : lower (py "username") = py "username".
Hypothesis lower_password : lower (py "password") = py "password".

Lemma parse_credentials_text (ip username password : pystr) :
  one_line ip -> one_line username -> one_line password ->
  fold_left (get_id.parse_line lower)
    (file_lines [] (credentials_text ip username password)) []
  = [ (py "ip", strip ip); (py "username", strip username);
      (py "password", strip password) ].
Proof.
  intros (Hi & _ & _) (Hu & _ & _) (Hp & _ & _). unfold credentials_text.
  rewrite <- (app_assoc (py "# Plaintext credentials for Dahua device") LF).
  rewrite file_lines_line by (vm_compute; intuition discriminate).
  replace (py "ip=" ++ ip ++ LF) with ((py "ip=" ++ ip) ++ LF) by now rewrite <- app_assoc.
  rewrite <- (app_assoc (py "ip=" ++ ip) LF).
  rewrite file_lines_line
    by (apply not_in_app; [vm_compute; intuition discriminate | exact Hi]).
  replace (py "username=" ++ username ++ LF) with ((py "username=" ++ username) ++ LF)
    by now rewrite <- app_assoc.
  rewrite <- (app_assoc (py "username=" ++ username) LF).
  rewrite file_lines_line
    by (apply not_in_app; [vm_compute; intuition discriminate | exact Hu]).
  replace (py "password=" ++ password ++ LF) with ((py "password=" ++ password) ++ LF ++ [])
    by now rewrite app_nil_r, <- app_assoc.
  rewrite file_lines_line
    by (apply not_in_app; [vm_compute; intuition discriminate | exact Hp]).
  cbn [file_lines fold_left app].
  replace (get_id.parse_line lower [] (py "# Plaintext credentials for Dahua device" ++ LF))
    with (@nil (pystr * pystr)) by (vm_compute; reflexivity).
  change ((py "ip=" ++ ip) ++ LF) with (py "ip" ++ py "=" ++ ip ++ LF).
  change ((py "username=" ++ username) ++ LF)
    with (py "username" ++ py "=" ++ username ++ LF).
  change ((py "password=" ++ password) ++ LF)
    with (py "password" ++ py "=" ++ password ++ LF).
  rewrite (parse_key_line lower _ _ _ plain_key_ip), lower_ip. cbn [dict_set].
  rewrite (parse_key_line lower _ _ _ plain_key_username), lower_username.
  cbn [dict_set]. change (str_eqb (py "username") (py "ip")) with false. cbv iota.
  rewrite (parse_key_line lower _ _ _ plain_key_password), lower_password.
  cbn [dict_set]. change (str_eqb (py "password") (py "ip")) with false.
  change (str_eqb (py "password") (py "username")) with false. reflexivity.
Qed.

End ParseCredentials.

(** X15: what [_save_credentials] writes, [_parse_kv_file] reads back:
    for values without line feed or carriage return that UTF-8 can
    encode, and a file that can be written and read, the [dict] parsed has
    exactly the keys ["ip"], ["username"] and ["password"], each with the
    value saved, trimmed of the white space around it; an [=] or a [#] in
    a value does no harm. *)
Theorem save_then_parse_credentials
    (os : platform) (lower : pystr -> pystr)
    (makedirs : pystr -> M unit) (dirname : pystr -> pystr)
    (path : pystr) (creds : list (pystr * pystr)) (ip username password : pystr)
    (w : world) :
  lower (py "ip") = py "ip" ->
  lower (py "username") = py "username" ->
  lower (py "password") = py "password" ->
  makedirs (dirname path) w = (Ret tt, w) ->
  dict_find (py "ip") creds = Some ip ->
  dict_find (py "username") creds = Some username ->
  dict_find (py "password") creds = Some password ->
  one_line ip -> one_line username -> one_line password ->
  write_error (files w path) = None ->
  read_error (files w path) = None ->
  fst (get_id._save_credentials os makedirs dirname path creds w) = Ret tt
  /\ fst (get_id._parse_kv_file lower path
            (snd (get_id._save_credentials os makedirs dirname path creds w)))
     = Ret [ (py "ip", strip ip); (py "username", strip username);
             (py "password", strip password) ].
Proof.
  intros L1 L2 L3 Hm Hi Hu Hp Oi Ou Op Hw Hr.
  destruct (UTF8.encode (write_newlines os (credentials_text ip username password)))
    as [bs|] eqn:Ebs; [|exfalso; revert Ebs; now apply one_line_encode].
  destruct (save_credentials_run os makedirs dirname path creds ip username password
              w bs Hm Hi Hu Hp Ebs Hw)
    as (w' & Erun & Hfile & _).
  rewrite Erun. cbn [fst snd]. split; [reflexivity|].
  unfold get_id._parse_kv_file, bind, read_text. rewrite Hfile, Hr.
  cbn [read_error data]. rewrite (decode_encode _ _ Ebs).
  rewrite read_back_newlines by now apply credentials_text_no_cr.
  unfold ret. cbn [fst]. now rewrite parse_credentials_text.
Qed.

Lemma save_then_parse_credentials_witness :
  fst (get_id._parse_kv_file lower_ascii (py "credentials.txt")
         (snd (get_id._save_credentials Windows (fun _ => ret tt) (fun _ => [])
                 (py "credentials.txt")
                 [ (py "password", py " p=#1 "); (py "ip", py "10.0.0.7");
                   (py "username", py "admin") ]
                 (fresh no_files [] []))))
  = Ret [ (py "ip", py "10.0.0.7"); (py "username", py "admin");
          (py "password", py "p=#1") ].
Proof.
  apply (proj2 (save_then_parse_credentials Windows lower_ascii (fun _ => ret tt)
                  (fun _ => []) (py "credentials.txt")
                  [ (py "password", py " p=#1 "); (py "ip", py "10.0.0.7");
                    (py "username", py "admin") ]
                  (py "10.0.0.7") (py "admin") (py " p=#1 ") (fresh no_files [] [])
                  eq_refl eq_refl eq_refl eq_refl eq_refl eq_refl eq_refl
                  ltac:(unfold one_line; repeat split; vm_compute; intuition discriminate)
                  ltac:(unfold one_line; repeat split; vm_compute; intuition discriminate)
                  ltac:(unfold one_line; repeat split; vm_compute; intuition discriminate)
                  eq_refl eq_refl)).
Defined.

(** ** Which line counts *)

Lemma dict_find_set (A : Type) (d : list (pystr * A)) (k k' : pystr) (v : A) :
  dict_find k (dict_set d k' v) = if str_eqb k k' then Some v else dict_find k d.
Proof.
  induction d as [|[k0 v0] d IH]; cbn [dict_set dict_find].
  - reflexivity.
  - destruct (str_eqb k' k0) eqn:E0; cbn [dict_find].
    + apply str_eqb_eq in E0. subst k0. now destruct (str_eqb k k').
    + rewrite IH. destruct (str_eqb k k0) eqn:E1; [|reflexivity].
      apply str_eqb_eq in E1. subst k0.
      destruct (str_eqb k k') eqn:E2; [|reflexivity].
      apply str_eqb_eq in E2. subst k'. now rewrite str_eqb_refl in E0.
Qed.

Section LastWins.

Variable lower : pystr -> pystr.

Lemma parse_line_assignment (creds : list (pystr * pystr)) (line : pystr) :
  get_id.parse_line lower creds line
  = match assignment lower line with
    | Some (k, v) => dict_set creds k v
    | None => creds
    end.
Proof.
  unfold get_id.parse_line, assignment. cbv zeta.
  destruct (match strip line with [] => true | _ => false end
            || startswith (py "#") (strip line)); [reflexivity|].
  now destruct (split_once 0x3D (strip line)) as [[k v]|].
Qed.

Lemma parse_lines_lookup (key : pystr) (lines : list pystr) (creds : list (pystr * pystr)) :
  dict_find key (fold_left (get_id.parse_line lower) lines creds)
  = match last_assigned lower key lines with
    | Some v => Some v
    | None => dict_find key creds
    end.
Proof.
  revert creds. induction lines as [|line lines IH]; intros creds; [reflexivity|].
  cbn [fold_left last_assigned]. rewrite IH.
  destruct (last_assigned lower key lines); [reflexivity|].
  rewrite parse_line_assignment.
  destruct (assignment lower line) as [[k v]|]; [|reflexivity].
  rewrite dict_find_set. now destruct (str_eqb key k).
Qed.

(** X16: in the [dict] that [_parse_kv_file] returns, a key has the value
    that the last line assigning it gives (keys trimmed and lower-cased,
    values trimmed), and is not there when no line assigns it; blank
    lines, lines that begin with [#] and lines without [=] assign
    nothing. *)
Theorem parse_kv_file_last_wins
    (path : pystr) (w : world) (creds : list (pystr * pystr)) :
  fst (get_id._parse_kv_file lower path w) = Ret creds ->
  exists text,
    fst (read_text path w) = Ret text
    /\ forall key,
        dict_find key creds = last_assigned lower key (file_lines [] text).
Proof.
  unfold get_id._parse_kv_file, bind.
  destruct (read_text path w) as [[text|e] w1]; [|discriminate].
  unfold ret. cbn [fst]. intros H.
  assert (E : creds = fold_left (get_id.parse_line lower) (file_lines [] text) []).
  { set (d := fold_left (get_id.parse_line lower) (file_lines [] text) []) in *.
    clearbody d. now injection H. }
  subst creds. exists text. split; [reflexivity|]. intros key.
  rewrite parse_lines_lookup. now destruct (last_assigned lower key (file_lines [] text)).
Qed.

End LastWins.

Lemma parse_kv_file_last_wins_witness :
  exists text,
    fst (read_text (py "credentials.txt")
           (fresh (set_file no_files (py "credentials.txt")
                     (File (Some (octets " IP = 10.0.0.1 " ++ [10]
                                  ++ octets "# ip=10.0.0.2" ++ [10; 10]
                                  ++ octets "no equals sign" ++ [13; 10]
                                  ++ octets "ip=10.0.0.3=x")) None None)) [] []))
    = Ret text
    /\ forall key,
        dict_find key [(py "ip", py "10.0.0.3=x")]
        = last_assigned lower_ascii key (file_lines [] text).
Proof.
  apply (parse_kv_file_last_wins lower_ascii (py "credentials.txt")
           (fresh (set_file no_files (py "credentials.txt")
                     (File (Some (octets " IP = 10.0.0.1 " ++ [10]
                                  ++ octets "# ip=10.0.0.2" ++ [10; 10]
                                  ++ octets "no equals sign" ++ [13; 10]
                                  ++ octets "ip=10.0.0.3=x")) None None)) [] [])).
  vm_compute. reflexivity.
Defined.

(* ================================================================== *)
(** * The dialogue for the credentials *)
(* ================================================================== *)

(** One step of symbolic execution of the dialogue. *)
Ltac dialogue_in H :=
  cbv beta iota zeta delta
    [bind print emit ret raise input path_exists try_except
     files stdin replies trace fst snd] in H.

Section GetCredentials.

Variable os : platform.
Variable lower : pystr -> pystr.
Variable getpass : pystr -> M pystr.
Variable makedirs : pystr -> M unit.
Variable dirname : pystr -> pystr.
Variable basename : pystr -> pystr.
Variable CREDENTIALS_FILE : pystr.

Local Abbreviation dialogue :=
  (get_id._get_credentials_interactive os lower getpass makedirs dirname basename
     CREDENTIALS_FILE).

Lemma get_id_loop_first_answer (prompt : pystr) (default b : bool)
    (noise : list pystr) (line : pystr) (rest : list pystr) :
  Forall (fun l => get_id_answer lower default l = None) noise ->
  get_id_answer lower default line = Some b ->
  get_id.prompt_loop lower prompt default (noise ++ line :: rest)
  = (Ret b, rest, flat_map (fun _ => get_id_asked_again prompt) noise ++ [Asked prompt]).
Proof.
  intros Hnoise Hline.
  induction Hnoise as [|l noise Hl _ IH]; cbn [app flat_map get_id.prompt_loop]; cbv zeta.
  - unfold get_id_answer in Hline.
    destruct (str_eqb (lower (strip line)) []); [now apply Some_inj in Hline; subst|].
    destruct (existsb (str_eqb (lower (strip line))) [py "y"; py "yes"]);
      [now apply Some_inj in Hline; subst|].
    destruct (existsb (str_eqb (lower (strip line))) [py "n"; py "no"]);
      [now apply Some_inj in Hline; subst | discriminate].
  - unfold get_id_answer in Hl.
    destruct (str_eqb (lower (strip l)) []); [discriminate|].
    destruct (existsb (str_eqb (lower (strip l))) [py "y"; py "yes"]); [discriminate|].
    destruct (existsb (str_eqb (lower (strip l))) [py "n"; py "no"]); [discriminate|].
    rewrite IH. reflexivity.
Qed.

Lemma get_id_loop_end_of_input (prompt : pystr) (default : bool) (lines : list pystr) :
  Forall (fun l => get_id_answer lower default l = None) lines ->
  get_id.prompt_loop lower prompt default lines
  = (Exc EOFError, [],
     flat_map (fun _ => get_id_asked_again prompt) lines ++ [Asked prompt]).
Proof.
  intros Hnoise.
  induction Hnoise as [|l noise Hl _ IH]; cbn [app flat_map get_id.prompt_loop]; cbv zeta.
  - reflexivity.
  - unfold get_id_answer in Hl.
    destruct (str_eqb (lower (strip l)) []); [discriminate|].
    destruct (existsb (str_eqb (lower (strip l))) [py "y"; py "yes"]); [discriminate|].
    destruct (existsb (str_eqb (lower (strip l))) [py "n"; py "no"]); [discriminate|].
    rewrite IH. reflexivity.
Qed.

(** X17: when the credentials file is there, can be read and has the
    three keys, and the user answers yes (or just presses Enter) to the
    question, [_get_credentials_interactive] returns what
    [_parse_kv_file] made of the file; it has read the lines up to that
    answer and nothing more, and has changed no file. *)
Theorem get_credentials_reuse
    (w : world) (bs : bytes) (text : pystr)
    (noise : list pystr) (line : pystr) (rest : list pystr) :
  data (files w CREDENTIALS_FILE) = Some bs ->
  read_error (files w CREDENTIALS_FILE) = None ->
  UTF8.decode bs = Some text ->
  get_id.complete (parsed_text lower (universal_newlines text)) = true ->
  stdin w = noise ++ line :: rest ->
  Forall (fun l => get_id_answer lower true l = None) noise ->
  get_id_answer lower true line = Some true ->
  dialogue w
  = (Ret (parsed_text lower (universal_newlines text)),
     World (files w) rest (replies w)
       (trace w
        ++ flat_map (fun _ => get_id_asked_again (reuse_prompt (basename CREDENTIALS_FILE)))
             noise
        ++ [Asked (reuse_prompt (basename CREDENTIALS_FILE))])).
Proof.
  intros Hd Hr Ht Hc Hin Hnoise Hline.
  destruct (dialogue w) as [r w'] eqn:E. destruct w as [fs si rp tr].
  cbn [files stdin replies trace] in *. subst si.
  unfold get_id._get_credentials_interactive, get_id.credentials_from_file,
    get_id._parse_kv_file, read_text, get_id._prompt_yes_no in E.
  dialogue_in E. rewrite ?Hd, ?Hr in E. dialogue_in E.
  rewrite ?Hd, ?Hr, ?Ht in E. dialogue_in E. rewrite ?Hd, ?Hr, ?Ht in E. dialogue_in E.
  fold (parsed_text lower (universal_newlines text)) in E. rewrite Hc in E.
  rewrite (get_id_loop_first_answer _ true true noise line rest Hnoise Hline) in E.
  dialogue_in E. symmetry. exact E.
Qed.

(** X18: when the credentials file has the three keys but standard
    input ends before the question is answered, the [EOFError] of the
    question is caught by the [except Exception] around the reading of the
    file and printed as ["Warning: could not read ..."]; the values of the
    file are dropped, the prompt for the IP address comes without a
    default, and its [EOFError] ends [_get_credentials_interactive]; no
    file has changed. *)
Theorem get_credentials_end_of_input
    (w : world) (bs : bytes) (text : pystr) :
  data (files w CREDENTIALS_FILE) = Some bs ->
  read_error (files w CREDENTIALS_FILE) = None ->
  UTF8.decode bs = Some text ->
  get_id.complete (parsed_text lower (universal_newlines text)) = true ->
  Forall (fun l => get_id_answer lower true l = None) (stdin w) ->
  dialogue w
  = (Exc EOFError,
     World (files w) [] (replies w)
       ((trace w
         ++ flat_map (fun _ => get_id_asked_again (reuse_prompt (basename CREDENTIALS_FILE)))
              (stdin w)
         ++ [Asked (reuse_prompt (basename CREDENTIALS_FILE))])
        ++ [ Printed [Txt (py "Warning: could not read '"); Txt CREDENTIALS_FILE;
                      Txt (py "': "); Err EOFError];
             Asked (py "Device IP" ++ [] ++ py ": ") ])).
Proof.
  intros Hd Hr Ht Hc Hnoise.
  destruct (dialogue w) as [r w'] eqn:E. destruct w as [fs si rp tr].
  cbn [files stdin replies trace] in *.
  unfold get_id._get_credentials_interactive, get_id.credentials_from_file,
    get_id._parse_kv_file, read_text, get_id._prompt_yes_no,
    get_id._prompt_credentials in E.
  dialogue_in E. rewrite ?Hd, ?Hr in E. dialogue_in E.
  rewrite ?Hd, ?Hr, ?Ht in E. dialogue_in E. rewrite ?Hd, ?Hr, ?Ht in E. dialogue_in E.
  fold (parsed_text lower (universal_newlines text)) in E. rewrite Hc in E.
  rewrite (get_id_loop_end_of_input _ true si Hnoise) in E.
  dialogue_in E. cbn [is_Exception dict_get_or dict_find] in E. dialogue_in E.
  unfold reuse_prompt. rewrite <- !app_assoc in E. rewrite <- !app_assoc.
  symmetry. exact E.
Qed.

Lemma or_nothing (s : pystr) : match s with [] => [] | c :: x => c :: x end = s.
Proof. now destruct s. Qed.

Hypothesis lower_ip : lower (py "ip") = py "ip".
Hypothesis lower_username : lower (py "username") = py "username".
Hypothesis lower_password : lower (py "password") = py "password".

(** A file that holds the text of three values is parsed into them. *)
Lemma parse_saved_credentials
    (path : pystr) (w : world) (ip username password : pystr) (bs : bytes) :
  data (files w path) = Some bs ->
  read_error (files w path) = None ->
  UTF8.encode (write_newlines os (credentials_text ip username password)) = Some bs ->
  one_line ip -> one_line username -> one_line password ->
  get_id._parse_kv_file lower path w
  = (Ret [ (py "ip", strip ip); (py "username", strip username);
           (py "password", strip password) ], w).
Proof.
  intros Hd Hr Ebs Oi Ou Op.
  unfold get_id._parse_kv_file, bind, read_text. rewrite Hr, Hd.
  rewrite (decode_encode _ _ Ebs).
  rewrite read_back_newlines by now apply credentials_text_no_cr.
  unfold ret.
  now rewrite (parse_credentials_text lower lower_ip lower_username lower_password).
Qed.

(** The dialogue when there is no credentials file. *)
Lemma dialogue_without_file
    (w : world) (l1 l2 : pystr) (rest : list pystr) (pwd : pystr) (bs : bytes) :
  data (files w CREDENTIALS_FILE) = None ->
  stdin w = l1 :: l2 :: rest ->
  (forall w0, getpass (py "Password: ") w0 = (Ret pwd, w0)) ->
  (forall w0, makedirs (dirname CREDENTIALS_FILE) w0 = (Ret tt, w0)) ->
  write_error (files w CREDENTIALS_FILE) = None ->
  UTF8.encode (write_newlines os (credentials_text (strip l1) (strip l2) pwd)) = Some bs ->
  exists w',
    dialogue w
    = (Ret [ (py "ip", strip l1); (py "username", strip l2); (py "password", pwd) ], w')
    /\ files w' CREDENTIALS_FILE
       = File (Some bs) (read_error (files w CREDENTIALS_FILE)) None
    /\ (forall p, p <> CREDENTIALS_FILE -> files w' p = files w p)
    /\ stdin w' = rest
    /\ requests_sent (trace w') = requests_sent (trace w).
Proof.
  intros Hd Hin Hg Hm Hw Ebs.
  destruct (dialogue w) as [r w'] eqn:E. destruct w as [fs si rp tr].
  cbn [files stdin replies trace] in *. subst si.
  unfold get_id._get_credentials_interactive, get_id.credentials_from_file,
    get_id._prompt_credentials in E.
  dialogue_in E. rewrite Hd in E. dialogue_in E.
  cbn [dict_get_or dict_find] in E. dialogue_in E.
  rewrite Hg in E. dialogue_in E. rewrite !or_nothing in E.
  match type of E with
  | context [get_id._save_credentials _ _ _ _ ?c ?W] =>
      destruct (save_credentials_run os makedirs dirname CREDENTIALS_FILE c
                  (strip l1) (strip l2) pwd W bs (Hm W) eq_refl eq_refl eq_refl Ebs Hw)
        as (w1 & Erun & Hfile & Hother & Hs & _ & Htr);
      rewrite Erun in E
  end.
  dialogue_in E. apply pair_equal_spec in E. destruct E as [<- <-].
  cbn [files stdin replies trace] in *.
  exists (World (files w1) (stdin w1) (replies w1)
            (trace w1 ++ [Printed [Txt (py "Saved credentials to '");
                                   Txt CREDENTIALS_FILE; Txt (py "'.")]])).
  cbn [files stdin replies trace].
  split; [reflexivity|]. split; [exact Hfile|]. split; [exact Hother|].
  split; [exact Hs|].
  rewrite Htr, !requests_sent_app. cbn [requests_sent flat_map app].
  now rewrite !app_nil_r.
Qed.

(** X19: without a credentials file, [_get_credentials_interactive] asks
    for the IP address and the user name on standard input and for the
    password through [getpass], returns the first two trimmed and the
    password as typed, and saves them; what [_parse_kv_file] then reads
    from the file has the password trimmed too, so that a password with
    white space around it is not the one that the next run finds. *)
Theorem get_credentials_without_file
    (w : world) (l1 l2 : pystr) (rest : list pystr) (pwd : pystr) :
  data (files w CREDENTIALS_FILE) = None ->
  stdin w = l1 :: l2 :: rest ->
  (forall w0, getpass (py "Password: ") w0 = (Ret pwd, w0)) ->
  (forall w0, makedirs (dirname CREDENTIALS_FILE) w0 = (Ret tt, w0)) ->
  write_error (files w CREDENTIALS_FILE) = None ->
  read_error (files w CREDENTIALS_FILE) = None ->
  one_line (strip l1) -> one_line (strip l2) -> one_line pwd ->
  fst (dialogue w)
  = Ret [ (py "ip", strip l1); (py "username", strip l2); (py "password", pwd) ]
  /\ stdin (snd (dialogue w)) = rest
  /\ fst (get_id._parse_kv_file lower CREDENTIALS_FILE (snd (dialogue w)))
     = Ret [ (py "ip", strip l1); (py "username", strip l2);
             (py "password", strip pwd) ].
Proof.
  intros Hd Hin Hg Hm Hw Hr O1 O2 Op.
  destruct (UTF8.encode (write_newlines os (credentials_text (strip l1) (strip l2) pwd)))
    as [bs|] eqn:Ebs; [|exfalso; revert Ebs; now apply one_line_encode].
  destruct (dialogue_without_file w l1 l2 rest pwd bs Hd Hin Hg Hm Hw Ebs)
    as (w' & Erun & Hfile & _ & Hs & _).
  rewrite Erun. cbn [fst snd]. split; [reflexivity|]. split; [exact Hs|].
  rewrite (parse_saved_credentials CREDENTIALS_FILE w' (strip l1) (strip l2) pwd bs);
    try assumption.
  - cbn [fst]. now rewrite !strip_idempotent.
  - now rewrite Hfile.
  - rewrite Hfile. exact Hr.
Qed.

Variable str_of : json -> pystr.
Variable SESSION_FILE : pystr.

(** X20: without a credentials file, when the line typed for the IP
    address is blank, [get_id.py] ends with exit status 1 and has sent no
    request; the credentials file has been written all the same, with
    nothing after [ip=]. *)
Theorem get_id_blank_ip_saved
    (w : world) (l1 l2 : pystr) (rest : list pystr) (pwd : pystr) :
  data (files w CREDENTIALS_FILE) = None ->
  stdin w = l1 :: l2 :: rest ->
  strip l1 = [] ->
  (forall w0, getpass (py "Password: ") w0 = (Ret pwd, w0)) ->
  (forall w0, makedirs (dirname CREDENTIALS_FILE) w0 = (Ret tt, w0)) ->
  write_error (files w CREDENTIALS_FILE) = None ->
  one_line (strip l2) -> one_line pwd ->
  exit_status (fst (get_id_main os str_of SESSION_FILE dialogue w)) = 1
  /\ requests_sent (trace (snd (get_id_main os str_of SESSION_FILE dialogue w)))
     = requests_sent (trace w)
  /\ UTF8.encode (write_newlines os (credentials_text [] (strip l2) pwd))
     = data (files (snd (get_id_main os str_of SESSION_FILE dialogue w)) CREDENTIALS_FILE).
Proof.
  intros Hd Hin Hblank Hg Hm Hw O2 Op.
  assert (O1 : one_line (strip l1)).
  { rewrite Hblank. unfold one_line. split; [intros []|]. split; [intros []|].
    vm_compute. discriminate. }
  destruct (UTF8.encode (write_newlines os (credentials_text (strip l1) (strip l2) pwd)))
    as [bs|] eqn:Ebs; [|exfalso; revert Ebs; now apply one_line_encode].
  destruct (dialogue_without_file
              (World (files w) (stdin w) (replies w) (trace w ++ [banner]))
              l1 l2 rest pwd bs Hd Hin Hg Hm Hw Ebs)
    as (w' & Erun & Hfile & _ & _ & Hsent).
  cbn [files trace] in Hfile, Hsent.
  destruct (get_id_main os str_of SESSION_FILE dialogue w) as [r w2] eqn:E.
  unfold get_id_main in E. unfold bind at 1, print at 1, emit at 1 in E.
  fold banner in E. unfold bind at 1 in E. rewrite Erun in E.
  cbn [dict_get_or dict_find] in E.
  change (str_eqb (py "ip") (py "ip")) with true in E. cbv iota in E.
  rewrite Hblank in E. cbv iota in E. cbn [orb] in E.
  unfold bind, print, emit, raise in E.
  apply pair_equal_spec in E. destruct E as [<- <-]. cbn [fst snd files trace exit_status].
  split; [reflexivity|]. split.
  - rewrite requests_sent_app, Hsent, requests_sent_app. cbn [requests_sent flat_map app].
    now rewrite !app_nil_r.
  - rewrite Hfile. cbn [data]. rewrite <- Hblank. exact Ebs.
Qed.

End GetCredentials.

Lemma get_credentials_reuse_witness :
  get_id._get_credentials_interactive Posix lower_ascii (fun _ => ret [])
    (fun _ => ret tt) (fun _ => []) (fun p => p) credentials_txt
    (fresh with_credentials [py "what"; py " Yes "; py "left"] [])
  = (Ret [ (py "ip", py "10.0.0.7"); (py "username", py "admin");
           (py "password", py "pw") ],
     World with_credentials [py "left"] []
       (get_id_asked_again (reuse_prompt credentials_txt)
        ++ [Asked (reuse_prompt credentials_txt)])).
Proof.
  exact (get_credentials_reuse Posix lower_ascii (fun _ => ret [])
           (fun _ => ret tt) (fun _ => []) (fun p => p) credentials_txt
           (fresh with_credentials [py "what"; py " Yes "; py "left"] [])
           sample_credentials_bytes sample_credentials_text
           [py "what"] (py " Yes ") [py "left"]
           eq_refl eq_refl eq_refl eq_refl eq_refl
           ltac:(repeat constructor) eq_refl).
Defined.

Lemma get_credentials_end_of_input_witness :
  fst (get_id._get_credentials_interactive Posix lower_ascii (fun _ => ret [])
         (fun _ => ret tt) (fun _ => []) (fun p => p) credentials_txt
         (fresh with_credentials [py "what"] []))
  = Exc EOFError.
Proof.
  exact (f_equal fst
           (get_credentials_end_of_input Posix lower_ascii (fun _ => ret [])
              (fun _ => ret tt) (fun _ => []) (fun p => p) credentials_txt
              (fresh with_credentials [py "what"] [])
              sample_credentials_bytes sample_credentials_text
              eq_refl eq_refl eq_refl eq_refl
              ltac:(repeat constructor))).
Defined.

Lemma get_credentials_without_file_witness :
  fst (get_id._get_credentials_interactive Windows lower_ascii
         (fun _ => ret (py " pw ")) (fun _ => ret tt) (fun _ => [])
         (fun p => p) credentials_txt
         (fresh no_files [py " 10.0.0.7 "; py "admin"; py "left"] []))
  = Ret [ (py "ip", py "10.0.0.7"); (py "username", py "admin");
          (py "password", py " pw ") ]
  /\ fst (get_id._parse_kv_file lower_ascii credentials_txt
            (snd (get_id._get_credentials_interactive Windows lower_ascii
                    (fun _ => ret (py " pw ")) (fun _ => ret tt) (fun _ => [])
                    (fun p => p) credentials_txt
                    (fresh no_files [py " 10.0.0.7 "; py "admin"; py "left"] []))))
     = Ret [ (py "ip", py "10.0.0.7"); (py "username", py "admin");
             (py "password", py "pw") ].
Proof.
  pose proof (get_credentials_without_file Windows lower_ascii
                (fun _ => ret (py " pw ")) (fun _ => ret tt) (fun _ => [])
                (fun p => p) credentials_txt eq_refl eq_refl eq_refl
                (fresh no_files [py " 10.0.0.7 "; py "admin"; py "left"] [])
                (py " 10.0.0.7 ") (py "admin") [py "left"] (py " pw ")
                eq_refl eq_refl (fun _ => eq_refl) (fun _ => eq_refl) eq_refl eq_refl
                ltac:(unfold one_line; repeat split; vm_compute; intuition discriminate)
                ltac:(unfold one_line; repeat split; vm_compute; intuition discriminate)
                ltac:(unfold one_line; repeat split; vm_compute; intuition discriminate))
    as (H1 & _ & H3).
  split; [exact H1 | exact H3].
Defined.

Lemma get_id_blank_ip_saved_witness :
  exit_status
    (fst (get_id_main Posix str_unused session_txt
            (get_id._get_credentials_interactive Posix lower_ascii
               (fun _ => ret (py "pw")) (fun _ => ret tt) (fun _ => [])
               (fun p => p) credentials_txt)
            (fresh no_files [py "  "; py "admin"] []))) = 1
  /\ data (files
             (snd (get_id_main Posix str_unused session_txt
                     (get_id._get_credentials_interactive Posix lower_ascii
                        (fun _ => ret (py "pw")) (fun _ => ret tt) (fun _ => [])
                        (fun p => p) credentials_txt)
                     (fresh no_files [py "  "; py "admin"] [])))
             credentials_txt)
     = Some (octets "# Plaintext credentials for Dahua device" ++ [10]
             ++ octets "ip=" ++ [10] ++ octets "username=admin" ++ [10]
             ++ octets "password=pw" ++ [10]).
Proof.
  pose proof (get_id_blank_ip_saved Posix lower_ascii
                (fun _ => ret (py "pw")) (fun _ => ret tt) (fun _ => [])
                (fun p => p) credentials_txt str_unused session_txt
                (fresh no_files [py "  "; py "admin"] [])
                (py "  ") (py "admin") [] (py "pw")
                eq_refl eq_refl eq_refl (fun _ => eq_refl) (fun _ => eq_refl) eq_refl
                ltac:(unfold one_line; repeat split; vm_compute; intuition discriminate)
                ltac:(unfold one_line; repeat split; vm_compute; intuition discriminate))
    as (H1 & _ & H3).
  split; [exact H1 | rewrite <- H3; reflexivity].
Defined.
